(** * obs-moq: the MoQ source of OBS and its software video decoder

    A shallow embedding of [src/nvdec-decoder.c] and [src/hang-source.c].

    - machine integers are [Z] with the wrap-around written out
      ([size_t] and [uint64_t] are 64 bits wide, [uint32_t] and [int32_t]
      32 bits);
    - byte buffers are [list byte]; a heap block is the list of its cells;
    - the plugin context [struct hang_source] is a record, threaded through
      the code by a small state monad that also logs every call that leaves
      the plugin (libmoq, FFmpeg, OBS, pthread, the allocator);
    - what those foreign calls return is read from a [world] record, so every
      function below is executable. *)

From Stdlib.Strings Require Import String Ascii Byte.
From Stdlib Require Import ZArith List Bool Lia.
Import ListNotations.

#[local] Open Scope Z_scope.

(* ================================================================== *)
(** ** Machine integers and bytes *)
(* ================================================================== *)

Module Int.

Definition wrap8 (z : Z) : Z := z mod 2 ^ 8.
Definition wrap32 (z : Z) : Z := z mod 2 ^ 32.
Definition wrap64 (z : Z) : Z := z mod 2 ^ 64.

Definition UINT64_MAX : Z := 2 ^ 64 - 1.
Definition PTRDIFF_MAX : Z := 2 ^ 63 - 1.

(** Conversion of an unsigned 32-bit pattern to [int] (two's complement). *)
Definition to_int32 (z : Z) : Z :=
  let u := wrap32 z in if u <? 2 ^ 31 then u else u - 2 ^ 32.

(** Conversion of an unsigned 64-bit pattern to [int64_t]. *)
Definition to_int64 (z : Z) : Z :=
  let u := wrap64 z in if u <? 2 ^ 63 then u else u - 2 ^ 64.

(** [size_t] arithmetic. *)
Definition size_add (a b : Z) : Z := wrap64 (a + b).

(** [uint64_t] arithmetic. *)
Definition u64_add (a b : Z) : Z := wrap64 (a + b).
Definition u64_mul (a b : Z) : Z := wrap64 (a * b).

End Int.

(** The value of a [uint8_t]. *)
Definition u8 (b : byte) : Z := Z.of_N (Byte.to_N b).

(** The byte holding [z mod 256]. *)
Definition byte_of_Z (z : Z) : byte :=
  match Byte.of_N (Z.to_N (Int.wrap8 z)) with
  | Some b => b
  | None => x00
  end.

Definition len {A} (l : list A) : Z := Z.of_nat (length l).

(** [data[i]]; the code never reads outside the buffer on the paths proved
    below, the default only makes the function total. *)
Definition byte_at (data : list byte) (i : Z) : byte :=
  if i <? 0 then x00 else nth (Z.to_nat i) data x00.

(** [data + pos .. data + pos + n): the source range of a [memcpy]. *)
Definition slice (data : list byte) (pos n : Z) : list byte :=
  firstn (Z.to_nat n) (skipn (Z.to_nat pos) data).

(** [memcpy(dst + off, src, |src|)] on a heap block [dst].  A copy that does
    not fit the block is a heap overflow in C; here it leaves the block
    unchanged. *)
Definition memcpy (dst : list byte) (off : Z) (src : list byte) : list byte :=
  if (0 <=? off) && (off + len src <=? len dst)
  then firstn (Z.to_nat off) dst ++ src ++ skipn (Z.to_nat (off + len src)) dst
  else dst.

(** [dst[off] = b]. *)
Definition store (dst : list byte) (off : Z) (b : byte) : list byte :=
  memcpy dst off [b].

(** [bzalloc(n)]: a zero-filled block of [n] bytes. *)
Definition zeroed (n : Z) : list byte := repeat x00 (Z.to_nat n).

(** [brealloc(buf, n)]: the old contents, cut or extended to [n] bytes.  The
    allocator leaves the new cells unspecified; the model fills them with
    zeros. *)
Definition resized (buf : list byte) (n : Z) : list byte :=
  firstn (Z.to_nat n) buf ++ zeroed (n - len buf).

(* ================================================================== *)
(** ** The bitstream normalizer: [convert_mp4_nal_units_to_annex_b] *)
(* ================================================================== *)

(** The levels of [CLOG_ERROR], [CLOG_WARNING] and [CLOG_INFO]. *)
Inductive log_level := LOG_ERROR | LOG_WARNING | LOG_INFO.

(** The allocator: for a request of [n] bytes, does [bzalloc] / [brealloc]
    return a block ([true]) or [NULL] ([false])? *)
Record allocator := {
  bzalloc_ok : Z -> bool;
  brealloc_ok : Z -> bool;
}.

Inductive conv_result :=
| ConvOk (out_data : list byte) (out_size : Z)  (* [return true] *)
| ConvFail (logged : list log_level)            (* [return false] *)
| ConvNoReturn.                                 (* the loop is still running *)

(** [(data[pos] << 24) | (data[pos+1] << 16) | (data[pos+2] << 8) | data[pos+3]]
    converted to [uint32_t]. *)
Definition read_nal_length (data : list byte) (pos : Z) : Z :=
  Int.wrap32
    (Z.lor (Z.lor (Z.lor (Z.shiftl (u8 (byte_at data pos)) 24)
                         (Z.shiftl (u8 (byte_at data (pos + 1))) 16))
                  (Z.shiftl (u8 (byte_at data (pos + 2))) 8))
           (u8 (byte_at data (pos + 3)))).

(** The value of a 4-byte big-endian length field. *)
Definition be32_decode (b0 b1 b2 b3 : byte) : Z :=
  u8 b0 * 2 ^ 24 + u8 b1 * 2 ^ 16 + u8 b2 * 2 ^ 8 + u8 b3.

Definition start_code : list byte := [x00; x00; x00; x01].

(** The [while (pos + 4 <= size)] loop; [fuel] bounds the number of
    iterations. *)
Fixpoint annex_b_loop (fuel : nat) (al : allocator) (data : list byte) (size : Z)
    (pos out_pos estimated_size : Z) (buffer : list byte) : conv_result :=
  match fuel with
  | O => ConvNoReturn
  | S fuel' =>
    if Int.size_add pos 4 <=? size then
      let nal_length := read_nal_length data pos in
      let pos := Int.size_add pos 4 in
      if Int.size_add pos nal_length >? size then ConvFail [LOG_ERROR]
      else
        let needed := Int.size_add (Int.size_add out_pos 4) nal_length in
        let grown :=
          if needed >? estimated_size then
            let estimated_size' := Int.size_add needed 1024 in
            if brealloc_ok al estimated_size'
            then Some (estimated_size', resized buffer estimated_size')
            else None
          else Some (estimated_size, buffer) in
        match grown with
        | None => ConvFail []
        | Some (estimated_size, buffer) =>
          let buffer := store buffer out_pos x00 in
          let out_pos := Int.size_add out_pos 1 in
          let buffer := store buffer out_pos x00 in
          let out_pos := Int.size_add out_pos 1 in
          let buffer := store buffer out_pos x00 in
          let out_pos := Int.size_add out_pos 1 in
          let buffer := store buffer out_pos x01 in
          let out_pos := Int.size_add out_pos 1 in
          let buffer := memcpy buffer out_pos (slice data pos nal_length) in
          let out_pos := Int.size_add out_pos nal_length in
          let pos := Int.size_add pos nal_length in
          annex_b_loop fuel' al data size pos out_pos estimated_size buffer
        end
    else ConvOk buffer out_pos
  end.

(** Every iteration consumes at least the four length bytes, so
    [size / 4 + 1] iterations are enough for any buffer that fits the
    address space (lemma [convert_returns]). *)
Definition convert_mp4_nal_units_to_annex_b (al : allocator) (data : list byte)
    : conv_result :=
  let size := len data in
  let estimated_size := Int.size_add size 1024 in
  if bzalloc_ok al estimated_size then
    annex_b_loop (S (Nat.div (length data) 4)) al data size 0 0 estimated_size
                 (zeroed estimated_size)
  else ConvFail [].

(** The bytes the caller passes on: [out_data[0 .. out_size)]. *)
Definition packet_bytes (out_data : list byte) (out_size : Z) : list byte :=
  firstn (Z.to_nat out_size) out_data.

(** *** Length-prefixed (AVCC) and start-code-prefixed (Annex-B) framing *)

(** The 4-byte big-endian encoding of [n]. *)
Definition be32 (n : Z) : list byte :=
  [byte_of_Z (Z.shiftr n 24); byte_of_Z (Z.shiftr n 16);
   byte_of_Z (Z.shiftr n 8); byte_of_Z n].

(** A sequence of NAL units, each preceded by its length. *)
Definition avcc (units : list (list byte)) : list byte :=
  concat (map (fun u => be32 (len u) ++ u) units).

(** The same units, each preceded by the start code. *)
Definition annex_b (units : list (list byte)) : list byte :=
  concat (map (fun u => start_code ++ u) units).

Definition total_length (units : list (list byte)) : Z :=
  fold_right (fun u acc => len u + acc) 0 units.

Definition always_alloc : allocator :=
  {| bzalloc_ok := fun _ => true; brealloc_ok := fun _ => true |}.

(* ================================================================== *)
(** ** C strings *)
(* ================================================================== *)

(** The value of an [unsigned char]. *)
Definition uchar (c : ascii) : Z := Z.of_N (N_of_ascii c).

(** The first character of a C string and what follows it; the end of the
    string reads as the terminating [NUL]. *)
Definition head (s : string) : ascii :=
  match s with EmptyString => Ascii.zero | String c _ => c end.

Definition tail (s : string) : string :=
  match s with EmptyString => EmptyString | String _ s' => s' end.

Fixpoint strncmp (s1 s2 : string) (n : nat) : Z :=
  match n with
  | O => 0
  | S n' =>
    let c1 := head s1 in
    let c2 := head s2 in
    if negb (uchar c1 =? uchar c2) then uchar c1 - uchar c2
    else if uchar c1 =? 0 then 0
    else strncmp (tail s1) (tail s2) n'
  end.

Definition tolower (c : ascii) : ascii :=
  if (65 <=? uchar c) && (uchar c <=? 90)
  then ascii_of_N (N_of_ascii c + 32)
  else c.

Fixpoint strncasecmp (s1 s2 : string) (n : nat) : Z :=
  match n with
  | O => 0
  | S n' =>
    let c1 := tolower (head s1) in
    let c2 := tolower (head s2) in
    if negb (uchar c1 =? uchar c2) then uchar c1 - uchar c2
    else if uchar c1 =? 0 then 0
    else strncasecmp (tail s1) (tail s2) n'
  end.

Definition strlen (s : string) : Z := Z.of_nat (String.length s).

(** [strstr(haystack, needle)]: the suffix of [haystack] that starts at the
    first occurrence of [needle], or [NULL]. *)
Definition strstr (haystack needle : string) : option string :=
  match String.index 0 needle haystack with
  | Some i => Some (String.substring i (String.length haystack - i) haystack)
  | None => None
  end.

(** [s + n] for a pointer into a string. *)
Fixpoint advance (n : nat) (s : string) : string :=
  match n with
  | O => s
  | S n' => advance n' (tail s)
  end.

(** [strcmp(a, b) != 0]. *)
Definition strcmp_differs (a b : string) : bool := negb (String.eqb a b).

(* ================================================================== *)
(** ** Codec selection: [parse_codec_id] *)
(* ================================================================== *)

Inductive AVCodecID := AV_CODEC_ID_H264 | AV_CODEC_ID_HEVC | AV_CODEC_ID_AV1.

(** The pair [(codec, codec_len)] is the string of [codec_len] bytes at
    [codec]; [None] is the [NULL] pointer.  The result comes with what the
    call logs. *)
Definition parse_codec_id (codec : option string)
    : AVCodecID * list log_level :=
  match codec with
  | None => (AV_CODEC_ID_H264, [])
  | Some codec =>
    let codec_len := strlen codec in
    if codec_len =? 0 then (AV_CODEC_ID_H264, [])
    else if ((4 <=? codec_len) && (strncmp codec "avc1" 4 =? 0))
         || ((4 <=? codec_len) && (strncasecmp codec "h264" 4 =? 0))
    then (AV_CODEC_ID_H264, [])
    else if ((4 <=? codec_len) && (strncmp codec "hev1" 4 =? 0))
         || ((4 <=? codec_len) && (strncmp codec "hvc1" 4 =? 0))
         || ((4 <=? codec_len) && (strncasecmp codec "hevc" 4 =? 0))
         || ((4 <=? codec_len) && (strncasecmp codec "h265" 4 =? 0))
    then (AV_CODEC_ID_HEVC, [])
    else if ((4 <=? codec_len) && (strncmp codec "av01" 4 =? 0))
         || ((3 <=? codec_len) && (strncasecmp codec "av1" 3 =? 0))
    then (AV_CODEC_ID_AV1, [])
    else (AV_CODEC_ID_H264, [LOG_WARNING])
  end.

(* ================================================================== *)
(** ** The plugin context and the calls that leave the plugin *)
(* ================================================================== *)

(** [AVCodecContext], as far as the plugin sets it up. *)
Record AVCodecContext := {
  codec_id : AVCodecID;
  extradata : option (list byte);
}.

(** [struct nvdec_decoder]. *)
Record nvdec_decoder := {
  codec_ctx : option AVCodecContext;
  sws_ctx : bool;   (* the [SwsContext] exists *)
}.

(** [struct hang_source] is declared in [hang-source.h]; these are the fields
    the two C files use. *)
Record hang_source := {
  source : bool; (* [obs_source_t *source] is not [NULL] *)
  url : option string;
  broadcast_path : option string;
  active : bool;
  origin_id : Z;
  session_id : Z;
  broadcast_id : Z;
  catalog_consumer_id : Z;
  video_track_id : Z;
  audio_track_id : Z;
  nvdec_context : option nvdec_decoder; (* [NULL] is [None] *)
  audio_decoder_context : bool; (* the pointer is not [NULL] *)
  frame_queue_len : nat;
  audio_queue_len : nat;
  has_first_frame : bool;
  first_frame_pts_us : Z;
  first_frame_obs_time_ns : Z;
  last_output_timestamp_ns : Z;
}.

(** Assignments to the fields of the context. *)
Definition set_url (v : option string) (c : hang_source) : hang_source :=
  {| source := source c; url := v; broadcast_path := broadcast_path c;
     active := active c; origin_id := origin_id c;
     session_id := session_id c; broadcast_id := broadcast_id c;
     catalog_consumer_id := catalog_consumer_id c;
     video_track_id := video_track_id c; audio_track_id := audio_track_id c;
     nvdec_context := nvdec_context c;
     audio_decoder_context := audio_decoder_context c;
     frame_queue_len := frame_queue_len c;
     audio_queue_len := audio_queue_len c;
     has_first_frame := has_first_frame c;
     first_frame_pts_us := first_frame_pts_us c;
     first_frame_obs_time_ns := first_frame_obs_time_ns c;
     last_output_timestamp_ns := last_output_timestamp_ns c |}.
Definition set_broadcast_path (v : option string) (c : hang_source) : hang_source :=
  {| source := source c; url := url c; broadcast_path := v;
     active := active c; origin_id := origin_id c;
     session_id := session_id c; broadcast_id := broadcast_id c;
     catalog_consumer_id := catalog_consumer_id c;
     video_track_id := video_track_id c; audio_track_id := audio_track_id c;
     nvdec_context := nvdec_context c;
     audio_decoder_context := audio_decoder_context c;
     frame_queue_len := frame_queue_len c;
     audio_queue_len := audio_queue_len c;
     has_first_frame := has_first_frame c;
     first_frame_pts_us := first_frame_pts_us c;
     first_frame_obs_time_ns := first_frame_obs_time_ns c;
     last_output_timestamp_ns := last_output_timestamp_ns c |}.
Definition set_active (v : bool) (c : hang_source) : hang_source :=
  {| source := source c; url := url c; broadcast_path := broadcast_path c;
     active := v; origin_id := origin_id c; session_id := session_id c;
     broadcast_id := broadcast_id c;
     catalog_consumer_id := catalog_consumer_id c;
     video_track_id := video_track_id c; audio_track_id := audio_track_id c;
     nvdec_context := nvdec_context c;
     audio_decoder_context := audio_decoder_context c;
     frame_queue_len := frame_queue_len c;
     audio_queue_len := audio_queue_len c;
     has_first_frame := has_first_frame c;
     first_frame_pts_us := first_frame_pts_us c;
     first_frame_obs_time_ns := first_frame_obs_time_ns c;
     last_output_timestamp_ns := last_output_timestamp_ns c |}.
Definition set_origin_id (v : Z) (c : hang_source) : hang_source :=
  {| source := source c; url := url c; broadcast_path := broadcast_path c;
     active := active c; origin_id := v; session_id := session_id c;
     broadcast_id := broadcast_id c;
     catalog_consumer_id := catalog_consumer_id c;
     video_track_id := video_track_id c; audio_track_id := audio_track_id c;
     nvdec_context := nvdec_context c;
     audio_decoder_context := audio_decoder_context c;
     frame_queue_len := frame_queue_len c;
     audio_queue_len := audio_queue_len c;
     has_first_frame := has_first_frame c;
     first_frame_pts_us := first_frame_pts_us c;
     first_frame_obs_time_ns := first_frame_obs_time_ns c;
     last_output_timestamp_ns := last_output_timestamp_ns c |}.
Definition set_session_id (v : Z) (c : hang_source) : hang_source :=
  {| source := source c; url := url c; broadcast_path := broadcast_path c;
     active := active c; origin_id := origin_id c; session_id := v;
     broadcast_id := broadcast_id c;
     catalog_consumer_id := catalog_consumer_id c;
     video_track_id := video_track_id c; audio_track_id := audio_track_id c;
     nvdec_context := nvdec_context c;
     audio_decoder_context := audio_decoder_context c;
     frame_queue_len := frame_queue_len c;
     audio_queue_len := audio_queue_len c;
     has_first_frame := has_first_frame c;
     first_frame_pts_us := first_frame_pts_us c;
     first_frame_obs_time_ns := first_frame_obs_time_ns c;
     last_output_timestamp_ns := last_output_timestamp_ns c |}.
Definition set_broadcast_id (v : Z) (c : hang_source) : hang_source :=
  {| source := source c; url := url c; broadcast_path := broadcast_path c;
     active := active c; origin_id := origin_id c;
     session_id := session_id c; broadcast_id := v;
     catalog_consumer_id := catalog_consumer_id c;
     video_track_id := video_track_id c; audio_track_id := audio_track_id c;
     nvdec_context := nvdec_context c;
     audio_decoder_context := audio_decoder_context c;
     frame_queue_len := frame_queue_len c;
     audio_queue_len := audio_queue_len c;
     has_first_frame := has_first_frame c;
     first_frame_pts_us := first_frame_pts_us c;
     first_frame_obs_time_ns := first_frame_obs_time_ns c;
     last_output_timestamp_ns := last_output_timestamp_ns c |}.
Definition set_catalog_consumer_id (v : Z) (c : hang_source) : hang_source :=
  {| source := source c; url := url c; broadcast_path := broadcast_path c;
     active := active c; origin_id := origin_id c;
     session_id := session_id c; broadcast_id := broadcast_id c;
     catalog_consumer_id := v; video_track_id := video_track_id c;
     audio_track_id := audio_track_id c; nvdec_context := nvdec_context c;
     audio_decoder_context := audio_decoder_context c;
     frame_queue_len := frame_queue_len c;
     audio_queue_len := audio_queue_len c;
     has_first_frame := has_first_frame c;
     first_frame_pts_us := first_frame_pts_us c;
     first_frame_obs_time_ns := first_frame_obs_time_ns c;
     last_output_timestamp_ns := last_output_timestamp_ns c |}.
Definition set_video_track_id (v : Z) (c : hang_source) : hang_source :=
  {| source := source c; url := url c; broadcast_path := broadcast_path c;
     active := active c; origin_id := origin_id c;
     session_id := session_id c; broadcast_id := broadcast_id c;
     catalog_consumer_id := catalog_consumer_id c; video_track_id := v;
     audio_track_id := audio_track_id c; nvdec_context := nvdec_context c;
     audio_decoder_context := audio_decoder_context c;
     frame_queue_len := frame_queue_len c;
     audio_queue_len := audio_queue_len c;
     has_first_frame := has_first_frame c;
     first_frame_pts_us := first_frame_pts_us c;
     first_frame_obs_time_ns := first_frame_obs_time_ns c;
     last_output_timestamp_ns := last_output_timestamp_ns c |}.
Definition set_audio_track_id (v : Z) (c : hang_source) : hang_source :=
  {| source := source c; url := url c; broadcast_path := broadcast_path c;
     active := active c; origin_id := origin_id c;
     session_id := session_id c; broadcast_id := broadcast_id c;
     catalog_consumer_id := catalog_consumer_id c;
     video_track_id := video_track_id c; audio_track_id := v;
     nvdec_context := nvdec_context c;
     audio_decoder_context := audio_decoder_context c;
     frame_queue_len := frame_queue_len c;
     audio_queue_len := audio_queue_len c;
     has_first_frame := has_first_frame c;
     first_frame_pts_us := first_frame_pts_us c;
     first_frame_obs_time_ns := first_frame_obs_time_ns c;
     last_output_timestamp_ns := last_output_timestamp_ns c |}.
Definition set_nvdec_context (v : option nvdec_decoder) (c : hang_source) : hang_source :=
  {| source := source c; url := url c; broadcast_path := broadcast_path c;
     active := active c; origin_id := origin_id c;
     session_id := session_id c; broadcast_id := broadcast_id c;
     catalog_consumer_id := catalog_consumer_id c;
     video_track_id := video_track_id c; audio_track_id := audio_track_id c;
     nvdec_context := v; audio_decoder_context := audio_decoder_context c;
     frame_queue_len := frame_queue_len c;
     audio_queue_len := audio_queue_len c;
     has_first_frame := has_first_frame c;
     first_frame_pts_us := first_frame_pts_us c;
     first_frame_obs_time_ns := first_frame_obs_time_ns c;
     last_output_timestamp_ns := last_output_timestamp_ns c |}.
Definition set_audio_decoder_context (v : bool) (c : hang_source) : hang_source :=
  {| source := source c; url := url c; broadcast_path := broadcast_path c;
     active := active c; origin_id := origin_id c;
     session_id := session_id c; broadcast_id := broadcast_id c;
     catalog_consumer_id := catalog_consumer_id c;
     video_track_id := video_track_id c; audio_track_id := audio_track_id c;
     nvdec_context := nvdec_context c; audio_decoder_context := v;
     frame_queue_len := frame_queue_len c;
     audio_queue_len := audio_queue_len c;
     has_first_frame := has_first_frame c;
     first_frame_pts_us := first_frame_pts_us c;
     first_frame_obs_time_ns := first_frame_obs_time_ns c;
     last_output_timestamp_ns := last_output_timestamp_ns c |}.
Definition set_frame_queue_len (v : nat) (c : hang_source) : hang_source :=
  {| source := source c; url := url c; broadcast_path := broadcast_path c;
     active := active c; origin_id := origin_id c;
     session_id := session_id c; broadcast_id := broadcast_id c;
     catalog_consumer_id := catalog_consumer_id c;
     video_track_id := video_track_id c; audio_track_id := audio_track_id c;
     nvdec_context := nvdec_context c;
     audio_decoder_context := audio_decoder_context c; frame_queue_len := v;
     audio_queue_len := audio_queue_len c;
     has_first_frame := has_first_frame c;
     first_frame_pts_us := first_frame_pts_us c;
     first_frame_obs_time_ns := first_frame_obs_time_ns c;
     last_output_timestamp_ns := last_output_timestamp_ns c |}.
Definition set_audio_queue_len (v : nat) (c : hang_source) : hang_source :=
  {| source := source c; url := url c; broadcast_path := broadcast_path c;
     active := active c; origin_id := origin_id c;
     session_id := session_id c; broadcast_id := broadcast_id c;
     catalog_consumer_id := catalog_consumer_id c;
     video_track_id := video_track_id c; audio_track_id := audio_track_id c;
     nvdec_context := nvdec_context c;
     audio_decoder_context := audio_decoder_context c;
     frame_queue_len := frame_queue_len c; audio_queue_len := v;
     has_first_frame := has_first_frame c;
     first_frame_pts_us := first_frame_pts_us c;
     first_frame_obs_time_ns := first_frame_obs_time_ns c;
     last_output_timestamp_ns := last_output_timestamp_ns c |}.
Definition set_has_first_frame (v : bool) (c : hang_source) : hang_source :=
  {| source := source c; url := url c; broadcast_path := broadcast_path c;
     active := active c; origin_id := origin_id c;
     session_id := session_id c; broadcast_id := broadcast_id c;
     catalog_consumer_id := catalog_consumer_id c;
     video_track_id := video_track_id c; audio_track_id := audio_track_id c;
     nvdec_context := nvdec_context c;
     audio_decoder_context := audio_decoder_context c;
     frame_queue_len := frame_queue_len c;
     audio_queue_len := audio_queue_len c; has_first_frame := v;
     first_frame_pts_us := first_frame_pts_us c;
     first_frame_obs_time_ns := first_frame_obs_time_ns c;
     last_output_timestamp_ns := last_output_timestamp_ns c |}.
Definition set_first_frame_pts_us (v : Z) (c : hang_source) : hang_source :=
  {| source := source c; url := url c; broadcast_path := broadcast_path c;
     active := active c; origin_id := origin_id c;
     session_id := session_id c; broadcast_id := broadcast_id c;
     catalog_consumer_id := catalog_consumer_id c;
     video_track_id := video_track_id c; audio_track_id := audio_track_id c;
     nvdec_context := nvdec_context c;
     audio_decoder_context := audio_decoder_context c;
     frame_queue_len := frame_queue_len c;
     audio_queue_len := audio_queue_len c;
     has_first_frame := has_first_frame c; first_frame_pts_us := v;
     first_frame_obs_time_ns := first_frame_obs_time_ns c;
     last_output_timestamp_ns := last_output_timestamp_ns c |}.
Definition set_first_frame_obs_time_ns (v : Z) (c : hang_source) : hang_source :=
  {| source := source c; url := url c; broadcast_path := broadcast_path c;
     active := active c; origin_id := origin_id c;
     session_id := session_id c; broadcast_id := broadcast_id c;
     catalog_consumer_id := catalog_consumer_id c;
     video_track_id := video_track_id c; audio_track_id := audio_track_id c;
     nvdec_context := nvdec_context c;
     audio_decoder_context := audio_decoder_context c;
     frame_queue_len := frame_queue_len c;
     audio_queue_len := audio_queue_len c;
     has_first_frame := has_first_frame c;
     first_frame_pts_us := first_frame_pts_us c;
     first_frame_obs_time_ns := v;
     last_output_timestamp_ns := last_output_timestamp_ns c |}.
Definition set_last_output_timestamp_ns (v : Z) (c : hang_source) : hang_source :=
  {| source := source c; url := url c; broadcast_path := broadcast_path c;
     active := active c; origin_id := origin_id c;
     session_id := session_id c; broadcast_id := broadcast_id c;
     catalog_consumer_id := catalog_consumer_id c;
     video_track_id := video_track_id c; audio_track_id := audio_track_id c;
     nvdec_context := nvdec_context c;
     audio_decoder_context := audio_decoder_context c;
     frame_queue_len := frame_queue_len c;
     audio_queue_len := audio_queue_len c;
     has_first_frame := has_first_frame c;
     first_frame_pts_us := first_frame_pts_us c;
     first_frame_obs_time_ns := first_frame_obs_time_ns c;
     last_output_timestamp_ns := v |}.

(** [struct moq_video_config] and [moq_frame] of libmoq. *)
Record moq_video_config := {
  codec : option string;
  description : option (list byte);
  coded_dimensions : option (Z * Z);
}.

Record moq_frame := {
  payload : list byte;
  timestamp_us : Z;
  keyframe : bool;
}.

(** [struct obs_source_frame] as [output_decoded_frame] fills it; the format
    is always [VIDEO_FORMAT_RGBA]. *)
Record obs_source_frame := {
  linesize : Z;
  width : Z;
  height : Z;
  timestamp : Z;
  full_range : bool;
}.

Inductive mutex := decoder_mutex | frame_mutex | audio_mutex.

(** The heap blocks the plugin allocates and frees itself. *)
Inductive block := decoder_struct | converted_data | rgba_data.

Inductive event :=
(* libmoq *)
| MoqOriginCreate
| MoqSessionConnect (url : string) (origin : Z)
| MoqOriginConsume (origin : Z) (path : string)
| MoqConsumeCatalog (broadcast : Z)
| MoqConsumeVideoConfig (catalog index : Z)
| MoqConsumeVideoTrack (broadcast index latency_ms : Z)
| MoqConsumeAudioTrack (broadcast index latency_ms : Z)
| MoqConsumeFrameChunk (frame index : Z)
| MoqConsumeFrameClose (frame : Z)
| MoqConsumeAudioTrackClose (id : Z)
| MoqConsumeVideoTrackClose (id : Z)
| MoqConsumeCatalogClose (id : Z)
| MoqConsumeClose (id : Z)
| MoqSessionClose (id : Z)
| MoqOriginClose (id : Z)
(* pthread *)
| PthreadMutexLock (m : mutex)
| PthreadMutexUnlock (m : mutex)
(* the OBS allocator and log *)
| Bzalloc (b : block) (size : Z) (ok : bool)
| Bfree (b : block)
| Clog (level : log_level)
(* FFmpeg *)
| AvcodecFindDecoder (id : AVCodecID)
| AvcodecAllocContext3
| AvMallocz (size : Z)
| AvcodecOpen2
| AvcodecFreeContext
| SwsFreeContext
| AvPacketAlloc
| AvcodecSendPacket (data : list byte) (size : Z) (pts : Z)
| AvPacketFree
| AvFrameAlloc
| AvcodecReceiveFrame
| AvFrameFree
| SwsGetContext (width height : Z)
| SwsScale
(* OBS *)
| OsGettimeNs
| ObsSourceOutputVideo (frame : obs_source_frame)
| ObsSourceFrameFree
| FreeQueuedAudio
(* audio-decoder.c *)
| AudioDecoderInit
| AudioDecoderDestroy
| AudioDecoderDecode (data : list byte) (pts : Z).

(** One round of the drain loop, as the foreign code answers it. *)
Record drain_round := {
  av_frame_alloc_ok : bool;
  receive_ret : Z;          (* [avcodec_receive_frame] *)
  frame_width : Z;          (* [frame->width], an [int] *)
  frame_height : Z;         (* [frame->height], an [int] *)
  frame_pts : Z;            (* [frame->pts], an [int64_t] *)
  sws_getContext_ok : bool;
  sws_scale_ret : Z;
  os_gettime_ns : Z;
}.

(** What the foreign calls of one entry into the plugin return. *)
Record world := {
  (* libmoq *)
  moq_origin_create : Z;
  moq_session_connect : Z;
  moq_origin_consume : Z;
  moq_consume_catalog : Z;
  moq_consume_video_config : Z * moq_video_config;
  moq_consume_video_track : Z;
  moq_consume_audio_track : Z;
  moq_consume_frame_chunk : Z * moq_frame;
  (* allocator *)
  heap : allocator;
  (* FFmpeg *)
  avcodec_find_decoder : AVCodecID -> bool;
  avcodec_alloc_context3 : bool;
  av_mallocz : bool;
  avcodec_open2 : Z;
  av_packet_alloc : bool;
  avcodec_send_packet : Z;
  avcodec_receive_frame : list drain_round;   (* one entry per frame asked *)
  (* audio-decoder.c *)
  audio_init_result : bool;
  audio_decode_result : bool;
  audio_decode_queue_len : nat -> nat;
}.

Definition AVERROR_EAGAIN : Z := -11.
Definition AVERROR_EOF : Z := -541478725.
Definition AV_NOPTS_VALUE : Z := - 2 ^ 63.
Definition AV_INPUT_BUFFER_PADDING_SIZE : Z := 64.

(* ================================================================== *)
(** ** The monad: the context as state, the foreign calls as a trace *)
(* ================================================================== *)

Definition M (A : Type) : Type := hang_source -> A * hang_source * list event.

Definition ret {A} (a : A) : M A := fun c => (a, c, []).

Definition bind {A B} (m : M A) (k : A -> M B) : M B :=
  fun c =>
    let '(a, c1, t1) := m c in
    let '(b, c2, t2) := k a c1 in
    (b, c2, t1 ++ t2).

Definition call (e : event) : M unit := fun c => (tt, c, [e]).
Definition get {A} (field : hang_source -> A) : M A := fun c => (field c, c, []).
Definition set (f : hang_source -> hang_source) : M unit := fun c => (tt, f c, []).

Definition result {A} (r : A * hang_source * list event) : A := fst (fst r).
Definition final {A} (r : A * hang_source * list event) : hang_source :=
  snd (fst r).
Definition trace {A} (r : A * hang_source * list event) : list event := snd r.

Declare Scope monad_scope.
Delimit Scope monad_scope with monad.
Notation "x <- m ;; k" := (bind m (fun x => k))
  (at level 61, m at next level, right associativity) : monad_scope.
Notation "m ;; k" := (bind m (fun _ => k))
  (at level 61, right associativity) : monad_scope.
#[local] Open Scope monad_scope.

Definition when (b : bool) (m : M unit) : M unit := if b then m else ret tt.

Fixpoint repeat_call (n : nat) (e : event) : M unit :=
  match n with
  | O => ret tt
  | S n' => call e ;; repeat_call n' e
  end.

Definition log (levels : list log_level) : M unit :=
  fold_right (fun l m => call (Clog l) ;; m) (ret tt) levels.

(** A libmoq callback receives the context as [user_data]; [None] is the
    [NULL] pointer, for which the callback runs [on_null]. *)
Definition callback (on_null : list event) (body : M unit)
    (user_data : option hang_source) : option hang_source * list event :=
  match user_data with
  | None => (None, on_null)
  | Some context => let '(_, c, t) := body context in (Some c, t)
  end.
Notation "' pat <- m ;; k" :=
  (bind m (fun x => match x with pat => k end))
  (at level 61, pat pattern, m at next level, right associativity)
  : monad_scope.

(* ================================================================== *)
(** ** nvdec-decoder.c *)
(* ================================================================== *)

(** [decoder->sws_ctx], where [decoder] is [context->nvdec_context]. *)
Definition decoder_sws_ctx (c : hang_source) : bool :=
  match nvdec_context c with
  | Some decoder => sws_ctx decoder
  | None => false
  end.

Definition set_decoder_sws_ctx (v : bool) (c : hang_source) : hang_source :=
  match nvdec_context c with
  | Some decoder =>
    set_nvdec_context (Some {| codec_ctx := codec_ctx decoder; sws_ctx := v |}) c
  | None => c
  end.

Definition is_some {A} (o : option A) : bool :=
  match o with Some _ => true | None => false end.

(** [bzalloc(sizeof(struct nvdec_decoder))]: two pointers.  The code uses
    the block without a [NULL] test. *)
Definition sizeof_nvdec_decoder : Z := 16.

Definition nvdec_decoder_init (w : world) (codec_str : option string)
    (description : option (list byte)) : M bool :=
  call (Bzalloc decoder_struct sizeof_nvdec_decoder true) ;;
  set (set_nvdec_context (Some {| codec_ctx := None; sws_ctx := false |})) ;;
  let '(codec_id, logged) := parse_codec_id codec_str in
  log logged ;;
  call (Clog LOG_INFO) ;;
  call (AvcodecFindDecoder codec_id) ;;
  if negb (avcodec_find_decoder w codec_id) then
    call (Clog LOG_ERROR) ;;
    call (Bfree decoder_struct) ;;
    set (set_nvdec_context None) ;;
    ret false
  else
    call AvcodecAllocContext3 ;;
    if negb (avcodec_alloc_context3 w) then
      call (Clog LOG_ERROR) ;;
      call (Bfree decoder_struct) ;;
      set (set_nvdec_context None) ;;
      ret false
    else
      extradata <-
        match description with
        | Some d =>
          if len d >? 0 then
            call (AvMallocz (len d + AV_INPUT_BUFFER_PADDING_SIZE)) ;;
            if av_mallocz w then call (Clog LOG_INFO) ;; ret (Some d)
            else ret None
          else ret None
        | None => ret None
        end ;;
      set (set_nvdec_context
             (Some {| codec_ctx := Some {| codec_id := codec_id;
                                           extradata := extradata |};
                      sws_ctx := false |})) ;;
      call AvcodecOpen2 ;;
      if avcodec_open2 w <? 0 then
        call (Clog LOG_ERROR) ;;
        call AvcodecFreeContext ;;
        call (Bfree decoder_struct) ;;
        set (set_nvdec_context None) ;;
        ret false
      else
        call (Clog LOG_INFO) ;;
        ret true.

Definition nvdec_decoder_destroy : M unit :=
  decoder <- get nvdec_context ;;
  match decoder with
  | None => ret tt
  | Some d =>
    when (is_some (codec_ctx d)) (call AvcodecFreeContext) ;;
    when (sws_ctx d) (call SwsFreeContext) ;;
    call (Bfree decoder_struct) ;;
    set (set_nvdec_context None)
  end.

(** The timestamp mapper: the statements of [output_decoded_frame] between
    [uint64_t obs_timestamp_ns = pts_us * 1000ULL] and the release of
    [frame_mutex].  [now_ns] is what [os_gettime_ns()] returns. *)
Definition map_timestamp (now_ns pts_us : Z) : M Z :=
  let obs_timestamp_ns := Int.u64_mul pts_us 1000 in
  call (PthreadMutexLock frame_mutex) ;;
  first_seen <- get has_first_frame ;;
  obs_timestamp_ns <-
    (if negb first_seen then
       set (set_has_first_frame true) ;;
       set (set_first_frame_pts_us pts_us) ;;
       call OsGettimeNs ;;
       set (set_first_frame_obs_time_ns now_ns) ;;
       set (set_last_output_timestamp_ns obs_timestamp_ns) ;;
       ret obs_timestamp_ns
     else
       last <- get last_output_timestamp_ns ;;
       let obs_timestamp_ns :=
         if obs_timestamp_ns <=? last then Int.u64_add last 1
         else obs_timestamp_ns in
       set (set_last_output_timestamp_ns obs_timestamp_ns) ;;
       ret obs_timestamp_ns) ;;
  call (PthreadMutexUnlock frame_mutex) ;;
  ret obs_timestamp_ns.

(** The test on the frame dimensions in [output_decoded_frame]. *)
Definition invalid_dimensions (width height : Z) : bool :=
  (width =? 0) || (height =? 0) || (width >? 7680) || (height >? 4320).

(** [data] tells whether the pointer to the RGBA block is not [NULL];
    [width] and [height] are [uint32_t], [pts_us] is [uint64_t].  The context
    is the state of the monad, so the [!context] case does not arise. *)
Definition output_decoded_frame (now_ns : Z) (data : bool)
    (width height pts_us : Z) : M unit :=
  if negb data then
    call (PthreadMutexUnlock decoder_mutex)
  else if invalid_dimensions width height then
    call (Clog LOG_ERROR) ;;
    call (Bfree rgba_data) ;;
    call (PthreadMutexUnlock decoder_mutex)
  else
    is_active <- get active ;;
    have_source <- get source ;;
    obs_timestamp_ns <- map_timestamp now_ns pts_us ;;
    call (PthreadMutexUnlock decoder_mutex) ;;
    if negb is_active || negb have_source then
      call (Bfree rgba_data)
    else
      when (have_source && is_active)
        (call (ObsSourceOutputVideo
                 {| linesize := Int.wrap32 (width * 4);
                    width := width;
                    height := height;
                    timestamp := obs_timestamp_ns;
                    full_range := true |})) ;;
      call (Bfree rgba_data).

(** [size_t rgba_size = frame->width * frame->height * 4]: a product of
    [int]s, converted to [size_t]. *)
Definition rgba_size (r : drain_round) : Z :=
  Int.wrap64 (Int.to_int32 (frame_width r * frame_height r * 4)).

(** One round of the [while (true)] loop of [decode_frame].  The result is
    [(continue, success)]: whether the loop goes on, and the flag
    [success]. *)
Definition receive_one (w : world) (pts : Z) (r : drain_round)
    (success : bool) : M (bool * bool) :=
  call AvFrameAlloc ;;
  if negb (av_frame_alloc_ok r) then
    call (Clog LOG_ERROR) ;;
    ret (false, success)
  else
    call AvcodecReceiveFrame ;;
    if receive_ret r <? 0 then
      (if receive_ret r =? AVERROR_EAGAIN then call AvFrameFree
       else if receive_ret r =? AVERROR_EOF then call AvFrameFree
       else call (Clog LOG_ERROR) ;; call AvFrameFree) ;;
      ret (false, success)
    else
      let success := true in
      have_sws <- get decoder_sws_ctx ;;
      sws <-
        (if negb have_sws then
           call (SwsGetContext (frame_width r) (frame_height r)) ;;
           set (set_decoder_sws_ctx (sws_getContext_ok r)) ;;
           ret (sws_getContext_ok r)
         else ret true) ;;
      if negb sws then
        call (Clog LOG_ERROR) ;;
        call AvFrameFree ;;
        ret (false, success)
      else
        let rgba_data_ok := bzalloc_ok (heap w) (rgba_size r) in
        call (Bzalloc rgba_data (rgba_size r) rgba_data_ok) ;;
        if negb rgba_data_ok then
          call (Clog LOG_ERROR) ;;
          call AvFrameFree ;;
          ret (false, success)
        else
          call SwsScale ;;
          if sws_scale_ret r <? 0 then
            call (Clog LOG_ERROR) ;;
            call (Bfree rgba_data) ;;
            call AvFrameFree ;;
            ret (false, success)
          else
            let frame_pts :=
              if negb (frame_pts r =? AV_NOPTS_VALUE)
              then Int.wrap64 (frame_pts r)
              else pts in
            if negb rgba_data_ok
               || (frame_width r =? 0) || (frame_height r =? 0) then
              call (Clog LOG_ERROR) ;;
              call (Bfree rgba_data) ;;
              call AvFrameFree ;;
              ret (false, success)
            else
              output_decoded_frame (os_gettime_ns r) rgba_data_ok
                (Int.wrap32 (frame_width r)) (Int.wrap32 (frame_height r))
                frame_pts ;;
              call AvFrameFree ;;
              ret (true, success).

(** When the decoder has nothing more to give, [avcodec_receive_frame]
    answers [AVERROR(EAGAIN)]. *)
Definition would_block : drain_round :=
  {| av_frame_alloc_ok := true; receive_ret := AVERROR_EAGAIN;
     frame_width := 0; frame_height := 0; frame_pts := AV_NOPTS_VALUE;
     sws_getContext_ok := true; sws_scale_ret := 0; os_gettime_ns := 0 |}.

(** The drain loop, over the answers of the decoder for this packet; after
    the last of them the decoder would block. *)
Fixpoint drain (w : world) (pts : Z) (rounds : list drain_round)
    (success : bool) : M bool :=
  match rounds with
  | [] =>
    ' (_, success) <- receive_one w pts would_block success ;;
    ret success
  | r :: rounds' =>
    ' (continue, success) <- receive_one w pts r success ;;
    if continue then drain w pts rounds' success else ret success
  end.

(** The call of [convert_mp4_nal_units_to_annex_b] with what it does on the
    heap and in the log: the [bzalloc] of the output block at entry, the
    error it logs, and the [bfree] of the block on the failure paths that
    come after the allocation.  ([brealloc] is not among the events: for a
    buffer that fits the address space the growth branch is never
    taken.) *)
Definition run_convert_mp4_nal_units_to_annex_b (w : world)
    (data : list byte) : M conv_result :=
  let estimated_size := Int.size_add (len data) 1024 in
  let buffer := bzalloc_ok (heap w) estimated_size in
  call (Bzalloc converted_data estimated_size buffer) ;;
  match convert_mp4_nal_units_to_annex_b (heap w) data with
  | ConvFail logged =>
    log logged ;;
    when buffer (call (Bfree converted_data)) ;;
    ret (ConvFail logged)
  | converted => ret converted
  end.

(** [packet->data = converted_data; packet->size = converted_size;
    packet->pts = pts]: the size is narrowed from [size_t] to [int], the
    PTS from [uint64_t] to [int64_t]. *)
Definition decode_frame (w : world) (data : list byte) (pts : Z) : M bool :=
  conversion <- run_convert_mp4_nal_units_to_annex_b w data ;;
  match conversion with
  | ConvOk converted converted_size =>
    call AvPacketAlloc ;;
    if negb (av_packet_alloc w) then
      call (Clog LOG_ERROR) ;;
      call (Bfree converted_data) ;;
      ret false
    else
      call (AvcodecSendPacket converted (Int.to_int32 converted_size)
                              (Int.to_int64 pts)) ;;
      call AvPacketFree ;;
      if avcodec_send_packet w <? 0 then
        call (Clog LOG_ERROR) ;;
        call (Bfree converted_data) ;;
        ret false
      else
        success <- drain w pts (avcodec_receive_frame w) false ;;
        call (Bfree converted_data) ;;
        ret success
  | ConvFail _ =>
    call (Clog LOG_ERROR) ;;
    ret false
  | ConvNoReturn =>
    (* not reached for a buffer that fits the address space, see
       [convert_returns] *)
    ret false
  end.

Definition nvdec_decoder_decode (w : world) (data : list byte) (pts : Z)
    (keyframe : bool) : M bool :=
  decoder <- get nvdec_context ;;
  match decoder with
  | None => ret false
  | Some _ => decode_frame w data pts
  end.

(* ================================================================== *)
(** ** audio-decoder.c *)
(* ================================================================== *)

(** Modelled from the spec: [audio-decoder.c] is not among the sources; the
    audio decoder facade is "analogous" to the video one: [init] leaves a
    decoder in the context when it succeeds. *)
Definition audio_decoder_init (w : world) : M bool :=
  call AudioDecoderInit ;;
  set (set_audio_decoder_context (audio_init_result w)) ;;
  ret (audio_init_result w).

(** Modelled from the spec: [destroy] frees the decoder and clears the
    pointer in the context. *)
Definition audio_decoder_destroy : M unit :=
  call AudioDecoderDestroy ;;
  set (set_audio_decoder_context false).

(** Modelled from the spec: [decode(payload, size, pts_us)] decodes and hands
    the samples to the host; it is not given the frame handle.  The call
    site in [on_audio_frame] speaks of audio that is "decoded and queued":
    what the call leaves in the audio queue of the context is up to the
    decoder ([audio_decode_queue_len]). *)
Definition audio_decoder_decode (w : world) (data : list byte) (pts : Z)
    : M bool :=
  call (AudioDecoderDecode data pts) ;;
  samples <- get audio_queue_len ;;
  set (set_audio_queue_len (audio_decode_queue_len w samples)) ;;
  ret (audio_decode_result w).

(* ================================================================== *)
(** ** hang-source.c *)
(* ================================================================== *)

(** [if (context->id > 0) { close(context->id); context->id = 0; }] *)
Definition close_if_open (id : hang_source -> Z) (close : Z -> event)
    (assign : Z -> hang_source -> hang_source) : M unit :=
  handle <- get id ;;
  when (handle >? 0) (call (close handle) ;; set (assign 0)).

(** The two loops that empty the frame queue and the audio queue, each
    under its mutex. *)
Definition clear_queues : M unit :=
  call (PthreadMutexLock frame_mutex) ;;
  frames <- get frame_queue_len ;;
  repeat_call frames ObsSourceFrameFree ;;
  set (set_frame_queue_len 0%nat) ;;
  call (PthreadMutexUnlock frame_mutex) ;;
  call (PthreadMutexLock audio_mutex) ;;
  samples <- get audio_queue_len ;;
  repeat_call samples FreeQueuedAudio ;;
  set (set_audio_queue_len 0%nat) ;;
  call (PthreadMutexUnlock audio_mutex).

Definition destroy_decoders : M unit :=
  call (PthreadMutexLock decoder_mutex) ;;
  nvdec_decoder_destroy ;;
  audio_decoder_destroy ;;
  call (PthreadMutexUnlock decoder_mutex).

(** The [cleanup:] label of [hang_source_activate]. *)
Definition activate_cleanup : M unit :=
  close_if_open session_id MoqSessionClose set_session_id ;;
  close_if_open origin_id MoqOriginClose set_origin_id.

Definition hang_source_activate (w : world) : M unit :=
  is_active <- get active ;;
  the_url <- get url ;;
  the_path <- get broadcast_path ;;
  match the_url, the_path with
  | Some the_url, Some the_path =>
    if is_active || (strlen the_url =? 0) || (strlen the_path =? 0) then ret tt
    else
      match strstr the_url "://" with
      | None => call (Clog LOG_ERROR)
      | Some host_start =>
        if strlen (advance 3 host_start) =? 0 then call (Clog LOG_ERROR)
        else
          call (Clog LOG_INFO) ;;
          call MoqOriginCreate ;;
          set (set_origin_id (moq_origin_create w)) ;;
          if moq_origin_create w <=? 0 then
            call (Clog LOG_ERROR) ;;
            activate_cleanup
          else
            call (MoqSessionConnect the_url (moq_origin_create w)) ;;
            set (set_session_id (moq_session_connect w)) ;;
            if moq_session_connect w <=? 0 then
              call (Clog LOG_ERROR) ;;
              activate_cleanup
            else
              set (set_active true) ;;
              call (Clog LOG_INFO)
      end
  | _, _ => ret tt
  end.

Definition hang_source_deactivate : M unit :=
  is_active <- get active ;;
  if negb is_active then ret tt
  else
    call (Clog LOG_INFO) ;;
    set (set_active false) ;;
    close_if_open audio_track_id MoqConsumeAudioTrackClose set_audio_track_id ;;
    close_if_open video_track_id MoqConsumeVideoTrackClose set_video_track_id ;;
    close_if_open catalog_consumer_id MoqConsumeCatalogClose
                  set_catalog_consumer_id ;;
    close_if_open broadcast_id MoqConsumeClose set_broadcast_id ;;
    close_if_open session_id MoqSessionClose set_session_id ;;
    close_if_open origin_id MoqOriginClose set_origin_id ;;
    clear_queues ;;
    destroy_decoders ;;
    set (set_has_first_frame false) ;;
    set (set_first_frame_pts_us 0) ;;
    set (set_first_frame_obs_time_ns 0) ;;
    set (set_last_output_timestamp_ns 0) ;;
    call (Clog LOG_INFO).

(** [new_url] and [new_path] are the strings [obs_data_get_string] returns
    for ["url"] and ["broadcast"]. *)
Definition hang_source_update (w : world) (new_url new_path : string)
    : M unit :=
  old_url <- get url ;;
  old_path <- get broadcast_path ;;
  let url_changed :=
    match old_url with
    | None => true
    | Some u => strcmp_differs u new_url
    end in
  let broadcast_changed :=
    match old_path with
    | None => true
    | Some p => strcmp_differs p new_path
    end in
  if negb url_changed && negb broadcast_changed then ret tt
  else
    hang_source_deactivate ;;
    set (set_url (Some new_url)) ;;
    set (set_broadcast_path (Some new_path)) ;;
    when (url_changed || broadcast_changed)
      (if (strlen new_url >? 0) && (strlen new_path >? 0)
       then hang_source_activate w
       else ret tt).

(** The context [hang_source_create] sets up before it calls
    [hang_source_update]: a zeroed block, the source pointer, empty queues. *)
Definition created (have_source : bool) : hang_source :=
  {| source := have_source; url := None; broadcast_path := None;
     active := false; origin_id := 0; session_id := 0; broadcast_id := 0;
     catalog_consumer_id := 0; video_track_id := 0; audio_track_id := 0;
     nvdec_context := None; audio_decoder_context := false;
     frame_queue_len := 0; audio_queue_len := 0;
     has_first_frame := false; first_frame_pts_us := 0;
     first_frame_obs_time_ns := 0; last_output_timestamp_ns := 0 |}.

Definition hang_source_create (w : world) (new_url new_path : string)
    (have_source : bool) : unit * hang_source * list event :=
  hang_source_update w new_url new_path (created have_source).

(** [hang_source_destroy], up to the release of the queues, the mutexes, the
    strings and the context itself. *)
Definition hang_source_destroy : M unit :=
  hang_source_deactivate ;;
  close_if_open audio_track_id MoqConsumeAudioTrackClose set_audio_track_id ;;
  close_if_open video_track_id MoqConsumeVideoTrackClose set_video_track_id ;;
  close_if_open catalog_consumer_id MoqConsumeCatalogClose
                set_catalog_consumer_id ;;
  close_if_open broadcast_id MoqConsumeClose set_broadcast_id ;;
  close_if_open session_id MoqSessionClose set_session_id ;;
  close_if_open origin_id MoqOriginClose set_origin_id ;;
  destroy_decoders ;;
  clear_queues.

Definition on_session_status (w : world) (code : Z)
    : option hang_source -> option hang_source * list event :=
  callback []
    (if code =? 0 then
       call (Clog LOG_INFO) ;;
       origin <- get origin_id ;;
       path <- get broadcast_path ;;
       call (MoqOriginConsume origin
               (match path with Some p => p | None => EmptyString end)) ;;
       set (set_broadcast_id (moq_origin_consume w)) ;;
       if moq_origin_consume w <=? 0 then
         call (Clog LOG_ERROR) ;;
         set (set_active false)
       else
         call (Clog LOG_INFO) ;;
         call (MoqConsumeCatalog (moq_origin_consume w)) ;;
         set (set_catalog_consumer_id (moq_consume_catalog w)) ;;
         if moq_consume_catalog w <=? 0 then
           call (Clog LOG_ERROR) ;;
           broadcast <- get broadcast_id ;;
           call (MoqConsumeClose broadcast) ;;
           set (set_broadcast_id 0) ;;
           set (set_active false)
         else
           call (Clog LOG_INFO)
     else if code <? 0 then
       call (Clog LOG_ERROR) ;;
       set (set_active false)
     else ret tt).

(** The configuration [on_catalog] falls back to when the catalog has none:
    H.264 without extradata. *)
Definition fallback_video_config : moq_video_config :=
  {| codec := Some "h264"%string; description := None;
     coded_dimensions := None |}.

Definition on_catalog (w : world) (catalog_id : Z)
    : option hang_source -> option hang_source * list event :=
  callback []
    (is_active <- get active ;;
     if negb is_active then ret tt
     else if catalog_id <=? 0 then call (Clog LOG_ERROR)
     else
       call (Clog LOG_INFO) ;;
       close_if_open video_track_id MoqConsumeVideoTrackClose
                     set_video_track_id ;;
       close_if_open audio_track_id MoqConsumeAudioTrackClose
                     set_audio_track_id ;;
       destroy_decoders ;;
       call (MoqConsumeVideoConfig catalog_id 0) ;;
       let '(video_config_result, reported) := moq_consume_video_config w in
       video_config <-
         (if video_config_result <? 0 then
            call (Clog LOG_WARNING) ;;
            ret fallback_video_config
          else
            call (Clog LOG_INFO) ;;
            when (is_some (coded_dimensions reported)) (call (Clog LOG_INFO)) ;;
            ret reported) ;;
       video_ok <- nvdec_decoder_init w (codec video_config)
                                      (description video_config) ;;
       if negb video_ok then
         call (Clog LOG_ERROR) ;;
         set (set_active false)
       else
         audio_ok <- audio_decoder_init w ;;
         if negb audio_ok then
           call (Clog LOG_ERROR) ;;
           nvdec_decoder_destroy ;;
           set (set_active false)
         else
           broadcast <- get broadcast_id ;;
           call (MoqConsumeVideoTrack broadcast 0 100) ;;
           set (set_video_track_id (moq_consume_video_track w)) ;;
           call (Clog (if moq_consume_video_track w <=? 0
                       then LOG_WARNING else LOG_INFO)) ;;
           call (MoqConsumeAudioTrack broadcast 0 100) ;;
           set (set_audio_track_id (moq_consume_audio_track w)) ;;
           call (Clog (if moq_consume_audio_track w <=? 0
                       then LOG_WARNING else LOG_INFO))).

Definition on_video_frame (w : world) (frame_id : Z)
    : option hang_source -> option hang_source * list event :=
  callback (if frame_id >? 0 then [MoqConsumeFrameClose frame_id] else [])
    (is_active <- get active ;;
     if negb is_active then
       when (frame_id >? 0) (call (MoqConsumeFrameClose frame_id))
     else if frame_id <=? 0 then ret tt
     else
       call (MoqConsumeFrameChunk frame_id 0) ;;
       let '(chunk_result, frame) := moq_consume_frame_chunk w in
       if chunk_result <? 0 then
         call (MoqConsumeFrameClose frame_id)
       else
         call (PthreadMutexLock decoder_mutex) ;;
         is_active <- get active ;;
         decoder <- get nvdec_context ;;
         if negb is_active || negb (is_some decoder) then
           call (PthreadMutexUnlock decoder_mutex) ;;
           call (MoqConsumeFrameClose frame_id)
         else
           decoded <- nvdec_decoder_decode w (payload frame)
                        (timestamp_us frame) (keyframe frame) ;;
           when (negb decoded) (call (PthreadMutexUnlock decoder_mutex)) ;;
           call (MoqConsumeFrameClose frame_id)).

Definition on_audio_frame (w : world) (frame_id : Z)
    : option hang_source -> option hang_source * list event :=
  callback (if frame_id >? 0 then [MoqConsumeFrameClose frame_id] else [])
    (is_active <- get active ;;
     if negb is_active then
       when (frame_id >? 0) (call (MoqConsumeFrameClose frame_id))
     else if frame_id <=? 0 then call (Clog LOG_ERROR)
     else
       call (MoqConsumeFrameChunk frame_id 0) ;;
       let '(chunk_result, frame) := moq_consume_frame_chunk w in
       if chunk_result <? 0 then
         call (Clog LOG_ERROR) ;;
         call (MoqConsumeFrameClose frame_id)
       else
         call (PthreadMutexLock decoder_mutex) ;;
         is_active <- get active ;;
         have_decoder <- get audio_decoder_context ;;
         if negb is_active || negb have_decoder then
           call (PthreadMutexUnlock decoder_mutex) ;;
           call (MoqConsumeFrameClose frame_id)
         else
           _ <- audio_decoder_decode w (payload frame) (timestamp_us frame) ;;
           call (PthreadMutexUnlock decoder_mutex) ;;
           call (MoqConsumeFrameClose frame_id)).

(* ================================================================== *)
(** ** Observations on traces *)
(* ================================================================== *)

(** How many events of a trace satisfy [p]. *)
Definition count (p : event -> bool) (t : list event) : nat :=
  length (filter p t).

Definition is_lock (m : mutex) (e : event) : bool :=
  match e, m with
  | PthreadMutexLock decoder_mutex, decoder_mutex
  | PthreadMutexLock frame_mutex, frame_mutex
  | PthreadMutexLock audio_mutex, audio_mutex => true
  | _, _ => false
  end.

Definition is_unlock (m : mutex) (e : event) : bool :=
  match e, m with
  | PthreadMutexUnlock decoder_mutex, decoder_mutex
  | PthreadMutexUnlock frame_mutex, frame_mutex
  | PthreadMutexUnlock audio_mutex, audio_mutex => true
  | _, _ => false
  end.

Definition is_frame_close (e : event) : bool :=
  match e with MoqConsumeFrameClose _ => true | _ => false end.

Definition is_output (e : event) : bool :=
  match e with ObsSourceOutputVideo _ => true | _ => false end.

Definition is_rgba_alloc (e : event) : bool :=
  match e with Bzalloc rgba_data _ true => true | _ => false end.

Definition is_rgba_free (e : event) : bool :=
  match e with Bfree rgba_data => true | _ => false end.

(** The closes of the resource chain. *)
Definition is_close (e : event) : bool :=
  match e with
  | MoqConsumeAudioTrackClose _ | MoqConsumeVideoTrackClose _
  | MoqConsumeCatalogClose _ | MoqConsumeClose _
  | MoqSessionClose _ | MoqOriginClose _ => true
  | _ => false
  end.






(** Strictly increasing lists of timestamps. *)
Fixpoint strictly_increasing (l : list Z) : bool :=
  match l with
  | a :: (b :: _) as l' => (a <? b) && strictly_increasing l'
  | _ => true
  end.

(* ================================================================== *)
(** ** The timestamp mapper: code and reference definition *)
(* ================================================================== *)

(** The code: [map_timestamp] on the frames of one activation, in order;
    a frame is its source PTS and the host time at its arrival. *)
Fixpoint emit_timestamps (frames : list (Z * Z)) : M (list Z) :=
  match frames with
  | [] => ret []
  | (pts_us, now_ns) :: frames' =>
    t <- map_timestamp now_ns pts_us ;;
    ts <- emit_timestamps frames' ;;
    ret (t :: ts)
  end.

(** The reference definition, in the words of the specification. *)
Record timestamp_state := {
  ref_has_first_frame : bool;
  ref_first_pts_us : Z;
  ref_first_host_time_ns : Z;
  ref_last_output_ns : Z;
}.

Definition reference_mapper (st : timestamp_state) (p_us now_host_ns : Z)
    : timestamp_state * Z :=
  let t_ns := p_us * 1000 in
  if negb (ref_has_first_frame st) then
    ({| ref_has_first_frame := true; ref_first_pts_us := p_us;
        ref_first_host_time_ns := now_host_ns; ref_last_output_ns := t_ns |},
     t_ns)
  else
    let t_ns := if t_ns <=? ref_last_output_ns st
                then ref_last_output_ns st + 1 else t_ns in
    ({| ref_has_first_frame := ref_has_first_frame st;
        ref_first_pts_us := ref_first_pts_us st;
        ref_first_host_time_ns := ref_first_host_time_ns st;
        ref_last_output_ns := t_ns |},
     t_ns).

Fixpoint reference_timestamps (st : timestamp_state) (frames : list (Z * Z))
    : timestamp_state * list Z :=
  match frames with
  | [] => (st, [])
  | (p_us, now_host_ns) :: frames' =>
    let '(st1, t) := reference_mapper st p_us now_host_ns in
    let '(st2, ts) := reference_timestamps st1 frames' in
    (st2, t :: ts)
  end.

(** The timestamp state held in the context. *)
Definition timestamp_state_of (c : hang_source) : timestamp_state :=
  {| ref_has_first_frame := has_first_frame c;
     ref_first_pts_us := first_frame_pts_us c;
     ref_first_host_time_ns := first_frame_obs_time_ns c;
     ref_last_output_ns := last_output_timestamp_ns c |}.

(* ================================================================== *)
(** ** The codec table *)
(* ================================================================== *)

(** [s] begins with the characters of [p]. *)
Fixpoint starts_with (p s : string) : bool :=
  match p with
  | EmptyString => true
  | String a p' =>
    match s with
    | EmptyString => false
    | String b s' => Ascii.eqb a b && starts_with p' s'
    end
  end.

(** No character of [p] is the terminating [NUL]. *)
Fixpoint no_nul (p : string) : bool :=
  match p with
  | EmptyString => true
  | String a p' => negb (uchar a =? 0) && no_nul p'
  end.

(** Every character of [p] is its own lower case. *)
Fixpoint is_lowercase (p : string) : bool :=
  match p with
  | EmptyString => true
  | String a p' => Ascii.eqb (tolower a) a && is_lowercase p'
  end.

Fixpoint lowercase (s : string) : string :=
  match s with
  | EmptyString => EmptyString
  | String c s' => String (tolower c) (lowercase s')
  end.

(** [s] begins with [p] in some letter case ([p] is in lower case). *)
Definition starts_with_nocase (p s : string) : bool :=
  starts_with p (lowercase s).

Definition names_h264 (s : string) : bool :=
  starts_with "avc1" s || starts_with_nocase "h264" s.

Definition names_hevc (s : string) : bool :=
  starts_with "hev1" s || starts_with "hvc1" s
  || starts_with_nocase "hevc" s || starts_with_nocase "h265" s.

Definition names_av1 (s : string) : bool :=
  starts_with "av01" s || starts_with_nocase "av1" s.

(** The decoder for a codec string and what is logged: the table of the
    specification, with the empty string set apart. *)
Definition codec_table (s : string) : AVCodecID * list log_level :=
  if String.eqb s EmptyString then (AV_CODEC_ID_H264, [])
  else if names_h264 s then (AV_CODEC_ID_H264, [])
  else if names_hevc s then (AV_CODEC_ID_HEVC, [])
  else if names_av1 s then (AV_CODEC_ID_AV1, [])
  else (AV_CODEC_ID_H264, [LOG_WARNING]).

(* ================================================================== *)
(** ** Properties of code in the monad *)
(* ================================================================== *)

(** [m] makes no call that satisfies [p], whatever the context. *)
Definition silent (p : event -> bool) {A} (m : M A) : Prop :=
  forall c, filter p (trace (m c)) = [].

(** The calls of [m] that satisfy [p] are exactly [l]. *)
Definition calls (p : event -> bool) {A} (m : M A) (l : list event) : Prop :=
  forall c, filter p (trace (m c)) = l.


(** [m] leaves the handle [f] as it is. *)
Definition keeps (f : hang_source -> Z) {A} (m : M A) : Prop :=
  forall c, f (final (m c)) = f c.


(** All six handles of the chain are closed. *)
Definition all_closed (c : hang_source) : Prop :=
  audio_track_id c <= 0 /\ video_track_id c <= 0
  /\ catalog_consumer_id c <= 0 /\ broadcast_id c <= 0
  /\ session_id c <= 0 /\ origin_id c <= 0.

(* ================================================================== *)
(** ** Sample inputs *)
(* ================================================================== *)

(** A decoded 2x2 frame that carries its own PTS. *)
Definition small_frame (pts : Z) : drain_round :=
  {| av_frame_alloc_ok := true; receive_ret := 0;
     frame_width := 2; frame_height := 2; frame_pts := pts;
     sws_getContext_ok := true; sws_scale_ret := 2; os_gettime_ns := 5000 |}.

(** A world in which every foreign call succeeds; the transport delivers
    [data] with timestamp [pts] and the decoder answers with [frames]. *)
Definition sample_world (data : list byte) (pts : Z)
    (frames : list drain_round) : world :=
  {| moq_origin_create := 1; moq_session_connect := 2;
     moq_origin_consume := 3; moq_consume_catalog := 4;
     moq_consume_video_config :=
       (0, {| codec := Some "avc1.64001f"%string; description := None;
              coded_dimensions := None |});
     moq_consume_video_track := 5; moq_consume_audio_track := 6;
     moq_consume_frame_chunk :=
       (0, {| payload := data; timestamp_us := pts; keyframe := true |});
     heap := always_alloc;
     avcodec_find_decoder := fun _ => true; avcodec_alloc_context3 := true;
     av_mallocz := true; avcodec_open2 := 0; av_packet_alloc := true;
     avcodec_send_packet := 0; avcodec_receive_frame := frames;
     audio_init_result := true; audio_decode_result := true;
     audio_decode_queue_len := S |}.

(** The context of a session that is streaming: all six handles live, both
    decoders in place. *)
Definition streaming : hang_source :=
  {| source := true; url := Some "https://example:443"%string;
     broadcast_path := Some "demo"%string; active := true;
     origin_id := 1; session_id := 2; broadcast_id := 3;
     catalog_consumer_id := 4; video_track_id := 5; audio_track_id := 6;
     nvdec_context :=
       Some {| codec_ctx := Some {| codec_id := AV_CODEC_ID_H264;
                                    extradata := None |};
               sws_ctx := true |};
     audio_decoder_context := true;
     frame_queue_len := 0; audio_queue_len := 0;
     has_first_frame := false; first_frame_pts_us := 0;
     first_frame_obs_time_ns := 0; last_output_timestamp_ns := 0 |}.

(** A decoded frame of exactly the largest size that is let through. *)
Definition largest_frame : drain_round :=
  {| av_frame_alloc_ok := true; receive_ret := 0;
     frame_width := 7680; frame_height := 4320; frame_pts := 40;
     sws_getContext_ok := true; sws_scale_ret := 4320; os_gettime_ns := 5000 |}.

(** A session that streams, fails and is brought up again.  The first
    activation emits one frame with PTS 2000000 us; then the session
    reports an error (status -1), which clears [active]; the user changes
    the broadcast path, so [hang_source_update] deactivates (a source that
    is no longer active) and activates again; the new session connects
    (status 0) and delivers its catalog. *)
Definition after_session_error : option hang_source :=
  fst (on_session_status (sample_world [] 0 []) (-1)
         (fst (on_video_frame
                 (sample_world (avcc [[x65]]) 2000000 [small_frame 2000000])
                 7 (Some streaming)))).

Definition second_activation : option hang_source :=
  match after_session_error with
  | Some c =>
    fst (on_catalog (sample_world [] 0 []) 9
           (fst (on_session_status (sample_world [] 0 []) 0
                   (Some (final (hang_source_update (sample_world [] 0 [])
                                   "https://example:443" "other" c))))))
  | None => None
  end.

(** Nine frames of one activation: a first PTS whose product with 1000 is
    [2^64 - 8] modulo [2^64], then eight frames with PTS 0. *)
Definition wrapping_frames : list (Z * Z) :=
  (239807672958224171, 70) :: repeat (0, 80) 8.

(** A decoded frame one pixel wider than the limit. *)
Definition wide_frame : drain_round :=
  {| av_frame_alloc_ok := true; receive_ret := 0;
     frame_width := 7681; frame_height := 4320; frame_pts := 40;
     sws_getContext_ok := true; sws_scale_ret := 4320; os_gettime_ns := 5000 |}.

(** A decoded frame without width. *)
Definition empty_frame : drain_round :=
  {| av_frame_alloc_ok := true; receive_ret := 0;
     frame_width := 0; frame_height := 2; frame_pts := 40;
     sws_getContext_ok := true; sws_scale_ret := 0; os_gettime_ns := 5000 |}.

(** A world in which the origin and the session come up and the
    subscription to the broadcast fails. *)
Definition no_broadcast_world : world :=
  {| moq_origin_create := 1; moq_session_connect := 2;
     moq_origin_consume := -1; moq_consume_catalog := 4;
     moq_consume_video_config :=
       (0, {| codec := Some "avc1.64001f"%string; description := None;
              coded_dimensions := None |});
     moq_consume_video_track := 5; moq_consume_audio_track := 6;
     moq_consume_frame_chunk :=
       (0, {| payload := []; timestamp_us := 0; keyframe := true |});
     heap := always_alloc;
     avcodec_find_decoder := fun _ => true; avcodec_alloc_context3 := true;
     av_mallocz := true; avcodec_open2 := 0; av_packet_alloc := true;
     avcodec_send_packet := 0; avcodec_receive_frame := [];
     audio_init_result := true; audio_decode_result := true;
     audio_decode_queue_len := S |}.

(** The context after [hang_source_create] with a valid URL in that world:
    active, with origin 1 and session 2. *)
Definition connecting : hang_source :=
  final (hang_source_create no_broadcast_world "https://example:443" "demo"
                            true).

(** The context after the session of [connecting] has reported status 0. *)
Definition after_failed_subscribe : option hang_source :=
  fst (on_session_status no_broadcast_world 0 (Some connecting)).

(* ================================================================== *)
(** ** Further observations *)
(* ================================================================== *)

Definition is_decoder_alloc (e : event) : bool :=
  match e with Bzalloc decoder_struct _ true => true | _ => false end.

Definition is_decoder_free (e : event) : bool :=
  match e with Bfree decoder_struct => true | _ => false end.

(** The allocation and the release of the block of the conversion. *)
Definition is_converted_event (e : event) : bool :=
  match e with
  | Bzalloc converted_data _ true | Bfree converted_data => true
  | _ => false
  end.

(** The calls that touch the RGBA buffer of a frame. *)
Definition is_rgba_event (e : event) : bool :=
  is_rgba_alloc e || is_rgba_free e.

(** Every allocated RGBA buffer is freed before the next one is allocated,
    and nothing else is freed. *)
Fixpoint paired (t : list event) : bool :=
  match t with
  | [] => true
  | Bzalloc rgba_data _ true :: Bfree rgba_data :: t' => paired t'
  | _ => false
  end.

(** The calls on the decoder gate, and the calls into the host sink. *)
Definition is_gate_or_output (e : event) : bool :=
  is_lock decoder_mutex e || is_unlock decoder_mutex e || is_output e.

(** The calls of [m] that satisfy [p] are one of the lists [ls], depending
    on the context. *)
Definition calls_among (p : event -> bool) {A} (m : M A)
    (ls : list (list event)) : Prop :=
  forall c, In (filter p (trace (m c))) ls.

(** The extradata the codec context is given: the description, when there
    is one and [av_mallocz] serves it. *)
Definition extradata_for (w : world) (description : option (list byte))
    : option (list byte) :=
  match description with
  | Some d => if (len d >? 0) && av_mallocz w then Some d else None
  | None => None
  end.

(** Whether [nvdec_decoder_init] finds, allocates and opens the codec. *)
Definition codec_opens (w : world) (id : AVCodecID) : bool :=
  avcodec_find_decoder w id && avcodec_alloc_context3 w
  && (0 <=? avcodec_open2 w).

(** In every run of [m] the RGBA buffers are allocated and freed in
    pairs. *)
Definition buffers_paired {A} (m : M A) : Prop :=
  forall c, paired (filter is_rgba_event (trace (m c))) = true.

Definition is_gate (e : event) : bool :=
  is_lock decoder_mutex e || is_unlock decoder_mutex e.

Definition is_audio_decode (e : event) : bool :=
  match e with AudioDecoderDecode _ _ => true | _ => false end.

(** The two libmoq calls on a frame handle. *)
Definition is_frame_call (e : event) : bool :=
  match e with
  | MoqConsumeFrameChunk _ _ | MoqConsumeFrameClose _ => true
  | _ => false
  end.

(** The decoder has handed over a frame in round [r]: the statement
    [success = true] of [decode_frame] is reached. *)
Definition delivers (r : drain_round) : bool :=
  av_frame_alloc_ok r && negb (receive_ret r <? 0).

(** Round [r] passes every test of the loop body and reaches the call of
    [output_decoded_frame]; [have_sws] tells whether the decoder has its
    scaler already. *)
Definition reaches_output (w : world) (have_sws : bool) (r : drain_round)
    : bool :=
  delivers r
  && (have_sws || sws_getContext_ok r)
  && bzalloc_ok (heap w) (rgba_size r)
  && negb (sws_scale_ret r <? 0)
  && negb ((frame_width r =? 0) || (frame_height r =? 0)).

(** How many rounds reach [output_decoded_frame] before the loop ends. *)
Fixpoint frames_output (w : world) (have_sws : bool)
    (rounds : list drain_round) : nat :=
  match rounds with
  | [] => 0
  | r :: rounds' =>
    if reaches_output w have_sws r then S (frames_output w true rounds')
    else 0
  end.

(** Whether the decoder hands over a frame in the first round of the
    loop. *)
Definition frame_delivered (rounds : list drain_round) : bool :=
  match rounds with
  | [] => false
  | r :: _ => delivers r
  end.

(** How often one call of [on_video_frame] on a streaming context releases
    the decoder gate: once per round that reaches [output_decoded_frame],
    and once more in the callback when [decode_frame] returns [false]. *)
Definition gate_releases (w : world) (have_sws : bool) (data : list byte)
    : nat :=
  match convert_mp4_nal_units_to_annex_b (heap w) data with
  | ConvOk _ _ =>
    if av_packet_alloc w && negb (avcodec_send_packet w <? 0) then
      (frames_output w have_sws (avcodec_receive_frame w)
       + (if frame_delivered (avcodec_receive_frame w) then 0 else 1))%nat
    else 1%nat
  | _ => 1%nat
  end.

(** The close call [close_if_open] makes for a handle. *)
Definition close_open (id : Z) (close : Z -> event) : list event :=
  if id >? 0 then [close id] else [].

(** One close call for every handle of the chain that is open in [c], in
    the order of [hang_source_deactivate]. *)
Definition open_handles (c : hang_source) : list event :=
  close_open (audio_track_id c) MoqConsumeAudioTrackClose
  ++ close_open (video_track_id c) MoqConsumeVideoTrackClose
  ++ close_open (catalog_consumer_id c) MoqConsumeCatalogClose
  ++ close_open (broadcast_id c) MoqConsumeClose
  ++ close_open (session_id c) MoqSessionClose
  ++ close_open (origin_id c) MoqOriginClose.

(** A handle after [close_if_open]. *)
Definition closed (id : Z) : Z := if id >? 0 then 0 else id.

(** Every call into libmoq. *)
Definition is_moq (e : event) : bool :=
  match e with
  | MoqOriginCreate | MoqSessionConnect _ _ | MoqOriginConsume _ _
  | MoqConsumeCatalog _ | MoqConsumeVideoConfig _ _
  | MoqConsumeVideoTrack _ _ _ | MoqConsumeAudioTrack _ _ _
  | MoqConsumeFrameChunk _ _ | MoqConsumeFrameClose _
  | MoqConsumeAudioTrackClose _ | MoqConsumeVideoTrackClose _
  | MoqConsumeCatalogClose _ | MoqConsumeClose _
  | MoqSessionClose _ | MoqOriginClose _ => true
  | _ => false
  end.

(** An active source has its origin and its session. *)
Definition connected (c : hang_source) : Prop :=
  active c = true -> 0 < origin_id c /\ 0 < session_id c.

(** [m] never activates the source and leaves origin and session alone. *)
Definition winds_down {A} (m : M A) : Prop :=
  forall c,
    (active (final (m c)) = true -> active c = true)
    /\ origin_id (final (m c)) = origin_id c
    /\ session_id (final (m c)) = session_id c.

(** The calls of [clear_queues] on context [c]. *)
Definition free_queues (c : hang_source) : list event :=
  PthreadMutexLock frame_mutex
  :: repeat ObsSourceFrameFree (frame_queue_len c)
  ++ PthreadMutexUnlock frame_mutex
  :: PthreadMutexLock audio_mutex
  :: repeat FreeQueuedAudio (audio_queue_len c)
  ++ [PthreadMutexUnlock audio_mutex].

(** The calls of [nvdec_decoder_destroy] on a decoder. *)
Definition free_decoder (decoder : option nvdec_decoder) : list event :=
  match decoder with
  | Some d =>
    (if is_some (codec_ctx d) then [AvcodecFreeContext] else [])
    ++ (if sws_ctx d then [SwsFreeContext] else [])
    ++ [Bfree decoder_struct]
  | None => []
  end.

(** The calls of [destroy_decoders] on context [c]. *)
Definition teardown_decoders (c : hang_source) : list event :=
  PthreadMutexLock decoder_mutex
  :: free_decoder (nvdec_context c)
  ++ [AudioDecoderDestroy; PthreadMutexUnlock decoder_mutex].

(** The context [hang_source_deactivate] leaves behind when it found the
    source active. *)
Definition deactivated (c : hang_source) : hang_source :=
  {| source := source c; url := url c; broadcast_path := broadcast_path c;
     active := false;
     origin_id := closed (origin_id c);
     session_id := closed (session_id c);
     broadcast_id := closed (broadcast_id c);
     catalog_consumer_id := closed (catalog_consumer_id c);
     video_track_id := closed (video_track_id c);
     audio_track_id := closed (audio_track_id c);
     nvdec_context := None; audio_decoder_context := false;
     frame_queue_len := 0; audio_queue_len := 0;
     has_first_frame := false; first_frame_pts_us := 0;
     first_frame_obs_time_ns := 0; last_output_timestamp_ns := 0 |}.

(** The context after [hang_source_create] has stored the settings and
    before it activates. *)
Definition configured : hang_source :=
  set_broadcast_path (Some "demo"%string)
    (set_url (Some "https://example:443"%string) (created true)).




Definition is_frame_alloc (e : event) : bool :=
  match e with AvFrameAlloc => true | _ => false end.

Definition is_frame_free (e : event) : bool :=
  match e with AvFrameFree => true | _ => false end.

Definition is_packet_event (e : event) : bool :=
  match e with AvPacketAlloc | AvPacketFree => true | _ => false end.
(* ================================================================== *)
(** ** Facts about machine integers, bytes and heap blocks *)
(* ================================================================== *)

Lemma wrap64_small (z : Z) : 0 <= z < 2 ^ 64 -> Int.wrap64 z = z.
Proof. intros H. unfold Int.wrap64. apply Z.mod_small; exact H. Qed.

Lemma size_add_small (a b : Z) :
  0 <= a + b < 2 ^ 64 -> Int.size_add a b = a + b.
Proof. intros H. unfold Int.size_add. apply wrap64_small; exact H. Qed.

Lemma len_nonneg {A} (l : list A) : 0 <= len l.
Proof. unfold len. lia. Qed.

Lemma len_app {A} (l1 l2 : list A) : len (l1 ++ l2) = len l1 + len l2.
Proof. unfold len. rewrite length_app. lia. Qed.

Lemma u8_range (b : byte) : 0 <= u8 b < 256.
Proof.
  unfold u8. pose proof (Byte.to_N_bounded b) as H. lia.
Qed.

Lemma u8_byte_of_Z (z : Z) : u8 (byte_of_Z z) = z mod 256.
Proof.
  unfold byte_of_Z, u8, Int.wrap8. change (2 ^ 8) with 256.
  assert (Hr : 0 <= z mod 256 < 256) by (apply Z.mod_pos_bound; lia).
  destruct (Byte.of_N (Z.to_N (z mod 256))) as [b|] eqn:E.
  - apply Byte.to_of_N in E. rewrite E. lia.
  - apply Byte.of_N_None_iff in E. lia.
Qed.

Lemma lor_shiftl_add (hi lo k : Z) :
  0 <= k -> 0 <= lo < 2 ^ k -> Z.lor (Z.shiftl hi k) lo = hi * 2 ^ k + lo.
Proof.
  intros Hk Hlo.
  assert (Hland : Z.land (Z.shiftl hi k) lo = 0).
  { apply Z.bits_inj'. intros n Hn. rewrite Z.land_spec, Z.bits_0.
    destruct (Z.ltb_spec n k) as [Hlt|Hge].
    - rewrite Z.shiftl_spec_low by exact Hlt. reflexivity.
    - destruct (Z.eq_dec lo 0) as [->|Hnz].
      + rewrite Z.bits_0. apply andb_false_r.
      + rewrite (Z.bits_above_log2 lo n).
        * apply andb_false_r.
        * lia.
        * apply Z.log2_lt_pow2; [lia|].
          apply Z.lt_le_trans with (2 ^ k); [lia|].
          apply Z.pow_le_mono_r; lia. }
  rewrite <- Z.lxor_lor by exact Hland.
  rewrite <- Z.add_nocarry_lxor by exact Hland.
  rewrite Z.shiftl_mul_pow2 by exact Hk. reflexivity.
Qed.

Lemma lor_mul_add (hi lo k : Z) :
  0 <= k -> 0 <= lo < 2 ^ k -> Z.lor (hi * 2 ^ k) lo = hi * 2 ^ k + lo.
Proof.
  intros Hk Hlo. rewrite <- Z.shiftl_mul_pow2 by exact Hk.
  rewrite lor_shiftl_add by assumption.
  rewrite Z.shiftl_mul_pow2 by exact Hk. reflexivity.
Qed.

Lemma be_value (b0 b1 b2 b3 : Z) :
  0 <= b0 < 256 -> 0 <= b1 < 256 -> 0 <= b2 < 256 -> 0 <= b3 < 256 ->
  Int.wrap32 (Z.lor (Z.lor (Z.lor (Z.shiftl b0 24) (Z.shiftl b1 16))
                           (Z.shiftl b2 8)) b3)
  = b0 * 2 ^ 24 + b1 * 2 ^ 16 + b2 * 2 ^ 8 + b3.
Proof.
  intros H0 H1 H2 H3.
  rewrite !Z.shiftl_mul_pow2 by lia.
  rewrite (lor_mul_add b0 (b1 * 2 ^ 16) 24) by lia.
  replace (b0 * 2 ^ 24 + b1 * 2 ^ 16) with ((b0 * 2 ^ 8 + b1) * 2 ^ 16) by lia.
  rewrite (lor_mul_add _ (b2 * 2 ^ 8) 16) by lia.
  replace ((b0 * 2 ^ 8 + b1) * 2 ^ 16 + b2 * 2 ^ 8)
    with ((b0 * 2 ^ 16 + b1 * 2 ^ 8 + b2) * 2 ^ 8) by lia.
  rewrite (lor_mul_add _ b3 8) by lia.
  unfold Int.wrap32. rewrite Z.mod_small by lia. lia.
Qed.

Lemma be32_value (n : Z) :
  0 <= n < 2 ^ 32 ->
  (Z.shiftr n 24 mod 256) * 2 ^ 24 + (Z.shiftr n 16 mod 256) * 2 ^ 16
  + (Z.shiftr n 8 mod 256) * 2 ^ 8 + n mod 256 = n.
Proof.
  intros Hn. rewrite !Z.shiftr_div_pow2 by lia.
  change (2 ^ 24) with 16777216. change (2 ^ 16) with 65536.
  change (2 ^ 8) with 256. change (2 ^ 32) with 4294967296 in Hn.
  Z.div_mod_to_equations. lia.
Qed.

(** Lengths of concatenations, by linear arithmetic. *)
Ltac list_len :=
  unfold len, start_code in *;
  repeat (rewrite length_app in * || cbn [length] in * );
  lia.

Lemma byte_at_app_r (pre l : list byte) (i : Z) :
  0 <= i -> byte_at (pre ++ l) (len pre + i) = byte_at l i.
Proof.
  intros Hi. unfold byte_at, len.
  destruct (Z.ltb_spec (Z.of_nat (length pre) + i) 0); [lia|].
  destruct (Z.ltb_spec i 0); [lia|].
  rewrite app_nth2 by lia. f_equal. lia.
Qed.

Lemma read_nal_length_at (pre rest : list byte) (b0 b1 b2 b3 : byte) :
  read_nal_length (pre ++ b0 :: b1 :: b2 :: b3 :: rest) (len pre)
  = be32_decode b0 b1 b2 b3.
Proof.
  unfold read_nal_length.
  rewrite <- (Z.add_0_r (len pre)) at 1.
  rewrite !byte_at_app_r by lia. cbn [byte_at].
  unfold byte_at; cbn.
  apply be_value; apply u8_range.
Qed.

Lemma be32_decode_be32 (n : Z) :
  0 <= n < 2 ^ 32 ->
  match be32 n with
  | [b0; b1; b2; b3] => be32_decode b0 b1 b2 b3 = n
  | _ => False
  end.
Proof.
  intros Hn. unfold be32, be32_decode. rewrite !u8_byte_of_Z.
  apply be32_value; exact Hn.
Qed.

Lemma slice_at (pre u rest : list byte) :
  slice (pre ++ u ++ rest) (len pre) (len u) = u.
Proof.
  unfold slice, len. rewrite !Nat2Z.id.
  rewrite skipn_app, skipn_all, Nat.sub_diag. cbn [skipn app].
  rewrite firstn_app, firstn_all, Nat.sub_diag. cbn [firstn].
  apply app_nil_r.
Qed.

Lemma skipn_repeat {A} (x : A) (n m : nat) :
  skipn n (repeat x m) = repeat x (m - n).
Proof.
  revert m; induction n as [|n IH]; intros m.
  - rewrite Nat.sub_0_r. reflexivity.
  - destruct m as [|m]; [reflexivity|]. cbn. apply IH.
Qed.

Lemma len_zeroed (k : Z) : 0 <= k -> len (zeroed k) = k.
Proof. intros Hk. unfold len, zeroed. rewrite repeat_length. lia. Qed.

(** Writing at the end of the written part of a zero-filled block. *)
Lemma memcpy_append (w src : list byte) (k : Z) :
  len src <= k ->
  memcpy (w ++ zeroed k) (len w) src = (w ++ src) ++ zeroed (k - len src).
Proof.
  intros Hk. pose proof (len_nonneg src) as Hs. pose proof (len_nonneg w) as Hw.
  unfold memcpy. rewrite len_app, len_zeroed by lia.
  destruct (Z.leb_spec 0 (len w)); [|lia].
  destruct (Z.leb_spec (len w + len src) (len w + k)); [|lia].
  cbn [andb]. unfold len. rewrite Nat2Z.id.
  rewrite firstn_app, firstn_all, Nat.sub_diag. cbn [firstn].
  rewrite app_nil_r, <- app_assoc. f_equal. f_equal.
  rewrite skipn_app. rewrite skipn_all2 by lia. cbn [app].
  unfold zeroed. rewrite skipn_repeat. f_equal. lia.
Qed.

Lemma store_append (w : list byte) (b : byte) (k : Z) :
  1 <= k -> store (w ++ zeroed k) (len w) b = (w ++ [b]) ++ zeroed (k - 1).
Proof.
  intros Hk. unfold store. rewrite memcpy_append; [reflexivity|].
  unfold len; cbn; lia.
Qed.

Lemma packet_bytes_written (w : list byte) (k : Z) :
  packet_bytes (w ++ zeroed k) (len w) = w.
Proof.
  unfold packet_bytes, len. rewrite Nat2Z.id.
  rewrite firstn_app, firstn_all, Nat.sub_diag. cbn [firstn]. apply app_nil_r.
Qed.

(* ================================================================== *)
(** ** The normalizer on well-formed input *)
(* ================================================================== *)

Lemma avcc_cons (u : list byte) (units : list (list byte)) :
  avcc (u :: units) = be32 (len u) ++ u ++ avcc units.
Proof. unfold avcc. cbn [map concat]. rewrite <- app_assoc. reflexivity. Qed.

Lemma annex_b_cons (u : list byte) (units : list (list byte)) :
  annex_b (u :: units) = start_code ++ u ++ annex_b units.
Proof. unfold annex_b. cbn [map concat]. rewrite <- app_assoc. reflexivity. Qed.

Lemma len_avcc (units : list (list byte)) :
  len (avcc units) = total_length units + 4 * len units.
Proof.
  induction units as [|u units IH]; [reflexivity|].
  rewrite avcc_cons. cbn [total_length fold_right]. fold (total_length units).
  rewrite !len_app, IH. unfold be32, len. cbn [length]. lia.
Qed.

Lemma len_annex_b (units : list (list byte)) :
  len (annex_b units) = total_length units + 4 * len units.
Proof.
  induction units as [|u units IH]; [reflexivity|].
  rewrite annex_b_cons. cbn [total_length fold_right]. fold (total_length units).
  rewrite !len_app, IH. unfold start_code, len. cbn [length]. lia.
Qed.

Lemma total_length_nonneg (units : list (list byte)) : 0 <= total_length units.
Proof.
  induction units as [|u units IH]; cbn; [lia|].
  fold (total_length units). pose proof (len_nonneg u). lia.
Qed.

Section Normalizer.

Variable al : allocator.
Variable data : list byte.
Hypothesis data_fits : len data <= Int.PTRDIFF_MAX.

(** One iteration over a complete unit: four length bytes that announce
    exactly the payload [u]. *)
Lemma annex_b_loop_unit fuel pre b0 b1 b2 b3 u rest w k :
  data = pre ++ b0 :: b1 :: b2 :: b3 :: u ++ rest ->
  be32_decode b0 b1 b2 b3 = len u ->
  4 + len u <= k ->
  len w + k < 2 ^ 64 ->
  annex_b_loop (S fuel) al data (len data) (len pre) (len w) (len w + k)
               (w ++ zeroed k)
  = annex_b_loop fuel al data (len data)
                 (len (pre ++ b0 :: b1 :: b2 :: b3 :: u))
                 (len (w ++ start_code ++ u)) (len w + k)
                 ((w ++ start_code ++ u) ++ zeroed (k - (4 + len u))).
Proof.
  intros Hdata Hlen Hk Hcap.
  pose proof (len_nonneg pre) as Hpre. pose proof (len_nonneg u) as Hu.
  pose proof (len_nonneg rest) as Hrest. pose proof (len_nonneg w) as Hw.
  assert (Hsize : len data = len pre + 4 + len u + len rest).
  { rewrite Hdata. rewrite len_app. unfold len at 2. cbn [length].
    rewrite length_app. unfold len. lia. }
  assert (Hread : read_nal_length data (len pre) = len u).
  { rewrite Hdata, read_nal_length_at. exact Hlen. }
  assert (Hslice : slice data (len pre + 4) (len u) = u).
  { rewrite Hdata.
    replace (pre ++ b0 :: b1 :: b2 :: b3 :: u ++ rest)
      with ((pre ++ [b0; b1; b2; b3]) ++ u ++ rest)
      by (rewrite <- app_assoc; reflexivity).
    replace (len pre + 4) with (len (pre ++ [b0; b1; b2; b3]))
      by (rewrite len_app; reflexivity).
    apply slice_at. }
  assert (Hw1 : len (w ++ [x00]) = len w + 1) by apply len_app.
  assert (Hw2 : len ((w ++ [x00]) ++ [x00]) = len (w ++ [x00]) + 1)
    by apply len_app.
  assert (Hw3 : len (((w ++ [x00]) ++ [x00]) ++ [x00])
                = len ((w ++ [x00]) ++ [x00]) + 1) by apply len_app.
  assert (Hw4 : len ((((w ++ [x00]) ++ [x00]) ++ [x00]) ++ [x01])
                = len (((w ++ [x00]) ++ [x00]) ++ [x00]) + 1) by apply len_app.
  unfold Int.PTRDIFF_MAX in data_fits.
  cbn [annex_b_loop].
  rewrite Hread.
  rewrite (size_add_small (len pre) 4) by lia.
  rewrite Hslice.
  destruct (Z.leb_spec (len pre + 4) (len data)) as [_|Hbad]; [|lia].
  rewrite (size_add_small (len pre + 4) (len u)) by lia.
  destruct (Z.gtb_spec (len pre + 4 + len u) (len data)) as [Hbad|_]; [lia|].
  rewrite (size_add_small (len w) 4) by lia.
  rewrite (size_add_small (len w + 4) (len u)) by lia.
  destruct (Z.gtb_spec (len w + 4 + len u) (len w + k)) as [Hbad|_]; [lia|].
  rewrite (size_add_small (len w) 1) by lia.
  rewrite (size_add_small (len w + 1) 1) by lia.
  rewrite (size_add_small (len w + 1 + 1) 1) by lia.
  rewrite (size_add_small (len w + 1 + 1 + 1) 1) by lia.
  rewrite (size_add_small _ (len u)) by lia.
  rewrite store_append by lia.
  rewrite <- Hw1, store_append by lia.
  rewrite <- Hw2, store_append by lia.
  rewrite <- Hw3, store_append by lia.
  rewrite <- Hw4, memcpy_append by lia.
  f_equal.
  - list_len.
  - list_len.
  - unfold start_code. rewrite <- !app_assoc. cbn [app].
    replace (k - 1 - 1 - 1 - 1 - len u) with (k - (4 + len u)) by lia.
    reflexivity.
Qed.

(** The loop walks through a run of complete units. *)
Lemma annex_b_loop_units units : forall fuel pre rest w k,
  Forall (fun u => len u < 2 ^ 32) units ->
  data = pre ++ avcc units ++ rest ->
  len (avcc units) <= k ->
  len w + k < 2 ^ 64 ->
  annex_b_loop (length units + fuel) al data (len data) (len pre) (len w)
               (len w + k) (w ++ zeroed k)
  = annex_b_loop fuel al data (len data) (len (pre ++ avcc units))
                 (len (w ++ annex_b units)) (len w + k)
                 ((w ++ annex_b units) ++ zeroed (k - len (avcc units))).
Proof.
  induction units as [|u units IH]; intros fuel pre rest w k Hall Hdata Hk Hcap.
  - cbn [length Nat.add]. unfold avcc, annex_b. cbn [map concat].
    rewrite !app_nil_r. change (len []) with 0. rewrite Z.sub_0_r.
    reflexivity.
  - inversion Hall as [|u' units' Hu Hrest_all]; subst u' units'.
    pose proof (len_nonneg u) as Hu0. pose proof (len_nonneg w) as Hw0.
    pose proof (len_nonneg (avcc units)) as Ha0.
    pose proof (be32_decode_be32 (len u) (conj Hu0 Hu)) as Hdec.
    rewrite avcc_cons in Hdata, Hk |- *. rewrite annex_b_cons.
    assert (Hbe : len (be32 (len u)) = 4) by reflexivity.
    rewrite !len_app, Hbe in Hk.
    unfold be32 in Hdata, Hdec |- *.
    cbn [length Nat.add].
    rewrite <- !app_assoc in Hdata. cbn [app] in Hdata.
    rewrite (annex_b_loop_unit (length units + fuel) pre _ _ _ _ u
                               (avcc units ++ rest) w k)
      by (try exact Hdata; try exact Hdec; lia).
    assert (Hw' : len (w ++ start_code ++ u) = len w + 4 + len u)
      by list_len.
    replace (len w + k)
      with (len (w ++ start_code ++ u) + (k - (4 + len u))) by lia.
    rewrite (IH fuel _ rest).
    + f_equal.
      * f_equal. rewrite <- !app_assoc. reflexivity.
      * f_equal. rewrite <- !app_assoc. reflexivity.
      * rewrite <- !app_assoc. cbn [app]. do 5 f_equal. list_len.
    + exact Hrest_all.
    + rewrite Hdata, <- !app_assoc. reflexivity.
    + lia.
    + lia.
Qed.

(** Fewer than four bytes left: the loop ends and the function returns
    [true]. *)
Lemma annex_b_loop_done fuel pos out_pos est buffer :
  0 <= pos <= len data -> len data - pos < 4 ->
  annex_b_loop (S fuel) al data (len data) pos out_pos est buffer
  = ConvOk buffer out_pos.
Proof.
  intros Hpos Hleft. unfold Int.PTRDIFF_MAX in data_fits.
  cbn [annex_b_loop]. rewrite size_add_small by lia.
  destruct (Z.leb_spec (pos + 4) (len data)); [lia|reflexivity].
Qed.

(** A length field that announces more bytes than are left. *)
Lemma annex_b_loop_overrun fuel pre b0 b1 b2 b3 rest out_pos est buffer :
  data = pre ++ b0 :: b1 :: b2 :: b3 :: rest ->
  len rest < be32_decode b0 b1 b2 b3 ->
  annex_b_loop (S fuel) al data (len data) (len pre) out_pos est buffer
  = ConvFail [LOG_ERROR].
Proof.
  intros Hdata Hover. unfold Int.PTRDIFF_MAX in data_fits.
  pose proof (len_nonneg pre) as Hpre. pose proof (len_nonneg rest) as Hrest.
  assert (Hsize : len data = len pre + 4 + len rest) by (rewrite Hdata; list_len).
  assert (Hread : read_nal_length data (len pre) = be32_decode b0 b1 b2 b3)
    by (rewrite Hdata; apply read_nal_length_at).
  assert (Hmax : be32_decode b0 b1 b2 b3 < 2 ^ 32).
  { unfold be32_decode. pose proof (u8_range b0). pose proof (u8_range b1).
    pose proof (u8_range b2). pose proof (u8_range b3). lia. }
  cbn [annex_b_loop]. rewrite Hread.
  rewrite (size_add_small (len pre) 4) by lia.
  destruct (Z.leb_spec (len pre + 4) (len data)); [|lia].
  rewrite size_add_small by lia.
  destruct (Z.gtb_spec (len pre + 4 + be32_decode b0 b1 b2 b3) (len data));
    [reflexivity|lia].
Qed.

(** The loop returns: it never needs more than [size / 4 + 1] rounds. *)
Lemma annex_b_loop_returns fuel : forall pos out_pos est buffer,
  0 <= pos <= len data -> len data - pos < 4 * Z.of_nat fuel ->
  annex_b_loop fuel al data (len data) pos out_pos est buffer <> ConvNoReturn.
Proof.
  unfold Int.PTRDIFF_MAX in data_fits.
  induction fuel as [|fuel IH]; intros pos out_pos est buffer Hpos Hfuel.
  - lia.
  - cbn [annex_b_loop]. rewrite (size_add_small pos 4) by lia.
    destruct (Z.leb_spec (pos + 4) (len data)) as [Hle|Hgt]; [|discriminate].
    assert (Hn : 0 <= read_nal_length data pos < 2 ^ 32)
      by (apply Z.mod_pos_bound; lia).
    rewrite (size_add_small (pos + 4)) by lia.
    destruct (Z.gtb_spec (pos + 4 + read_nal_length data pos) (len data));
      [discriminate|].
    match goal with
    | |- match ?g with _ => _ end <> _ => destruct g as [[est' buffer']|]
    end; [|discriminate].
    apply IH; lia.
Qed.

End Normalizer.

(** The conversion reaches the end of a run of complete units with the units
    written out in Annex-B form and at least one round of fuel left. *)
Lemma convert_units (al : allocator) (units : list (list byte)) (rest : list byte) :
  Forall (fun u => len u < 2 ^ 32) units ->
  len (avcc units ++ rest) <= Int.PTRDIFF_MAX ->
  bzalloc_ok al (len (avcc units ++ rest) + 1024) = true ->
  exists fuel,
    convert_mp4_nal_units_to_annex_b al (avcc units ++ rest)
    = annex_b_loop (S fuel) al (avcc units ++ rest) (len (avcc units ++ rest))
        (len (avcc units)) (len (annex_b units))
        (len (avcc units ++ rest) + 1024)
        (annex_b units
         ++ zeroed (len (avcc units ++ rest) + 1024 - len (avcc units))).
Proof.
  intros Hall Hfits Halloc.
  set (data := avcc units ++ rest) in *.
  pose proof (len_nonneg data) as Hd0. pose proof (len_nonneg rest) as Hr0.
  pose proof (total_length_nonneg units) as Ht0.
  assert (Hsize : len data = len (avcc units) + len rest) by apply len_app.
  pose proof (len_avcc units) as Hav.
  assert (Hfuel : (length units <= length data / 4)%nat).
  { apply Nat.div_le_lower_bound; [discriminate|]. unfold len in *. lia. }
  exists (length data / 4 - length units)%nat.
  unfold convert_mp4_nal_units_to_annex_b. fold data.
  unfold Int.PTRDIFF_MAX in Hfits.
  rewrite size_add_small by lia. rewrite Halloc.
  replace (S (length data / 4))
    with (length units + S (length data / 4 - length units))%nat by lia.
  pose proof (annex_b_loop_units al data Hfits units
                (S (length data / 4 - length units)) [] rest []
                (len data + 1024) Hall eq_refl) as H.
  cbn [app] in H. change (len []) with 0 in H. rewrite Z.add_0_l in H.
  apply H; lia.
Qed.

(** The conversion always returns on a buffer that fits the address space. *)
Lemma convert_returns (al : allocator) (data : list byte) :
  len data <= Int.PTRDIFF_MAX ->
  convert_mp4_nal_units_to_annex_b al data <> ConvNoReturn.
Proof.
  intros Hfits. unfold convert_mp4_nal_units_to_annex_b.
  destruct (bzalloc_ok al _); [|discriminate].
  pose proof (len_nonneg data).
  apply annex_b_loop_returns; [exact Hfits|lia|].
  pose proof (Nat.div_mod_eq (length data) 4) as Hdm.
  pose proof (Nat.mod_upper_bound (length data) 4) as Hub.
  unfold len. lia.
Qed.

(** Complete units followed by fewer than four bytes: the units come out in
    Annex-B form, the stray bytes are dropped. *)
Lemma convert_units_tail (al : allocator) (units : list (list byte))
    (tail : list byte) :
  Forall (fun u => len u < 2 ^ 32) units ->
  len tail < 4 ->
  len (avcc units ++ tail) <= Int.PTRDIFF_MAX ->
  bzalloc_ok al (len (avcc units ++ tail) + 1024) = true ->
  exists out_data,
    convert_mp4_nal_units_to_annex_b al (avcc units ++ tail)
    = ConvOk out_data (total_length units + 4 * len units)
    /\ packet_bytes out_data (total_length units + 4 * len units)
       = annex_b units.
Proof.
  intros Hall Htail Hfits Halloc.
  destruct (convert_units al units tail Hall Hfits Halloc) as [fuel ->].
  pose proof (len_nonneg (avcc units)) as Ha0.
  pose proof (len_nonneg tail) as Ht0.
  rewrite annex_b_loop_done.
  - rewrite len_annex_b. eexists. split; [reflexivity|].
    rewrite <- len_annex_b. apply packet_bytes_written.
  - exact Hfits.
  - rewrite len_app. lia.
  - rewrite len_app. lia.
Qed.

(** Complete units followed by a length field that overruns the input: the
    conversion fails, with the error logged unless the first allocation had
    failed already. *)
Lemma convert_overrun (al : allocator) (units : list (list byte))
    (b0 b1 b2 b3 : byte) (rest : list byte) :
  let data := avcc units ++ b0 :: b1 :: b2 :: b3 :: rest in
  Forall (fun u => len u < 2 ^ 32) units ->
  len rest < be32_decode b0 b1 b2 b3 ->
  len data <= Int.PTRDIFF_MAX ->
  convert_mp4_nal_units_to_annex_b al data
  = ConvFail (if bzalloc_ok al (len data + 1024) then [LOG_ERROR] else []).
Proof.
  intros data Hall Hover Hfits. subst data.
  destruct (bzalloc_ok al _) eqn:Halloc.
  - destruct (convert_units al units _ Hall Hfits Halloc) as [fuel ->].
    apply (annex_b_loop_overrun al _ Hfits fuel (avcc units) b0 b1 b2 b3 rest);
      [reflexivity|exact Hover].
  - unfold convert_mp4_nal_units_to_annex_b.
    pose proof (len_nonneg (avcc units ++ b0 :: b1 :: b2 :: b3 :: rest)).
    unfold Int.PTRDIFF_MAX in Hfits.
    rewrite size_add_small by lia. rewrite Halloc. reflexivity.
Qed.

(* ================================================================== *)
(** ** Running the monad *)
(* ================================================================== *)

Lemma log_run (levels : list log_level) (c : hang_source) :
  log levels c = (tt, c, map Clog levels).
Proof.
  induction levels as [|l levels IH]; [reflexivity|].
  cbn [log fold_right map]. fold (log levels).
  unfold bind, call. rewrite IH. reflexivity.
Qed.

Lemma repeat_call_run (n : nat) (e : event) (c : hang_source) :
  repeat_call n e c = (tt, c, repeat e n).
Proof.
  induction n as [|n IH]; [reflexivity|].
  cbn [repeat_call repeat]. unfold bind, call. rewrite IH. reflexivity.
Qed.

(** Unfolding the operations of the monad. *)
Ltac run :=
  cbv beta iota zeta
      delta [bind ret call get set when callback result final trace];
  cbn [negb andb orb app fst snd].

(** [decode_frame] with the call of the conversion written out. *)
Lemma decode_frame_run (w : world) (data : list byte) (pts : Z)
    (c : hang_source) :
  decode_frame w data pts c
  = (call (Bzalloc converted_data (Int.size_add (len data) 1024)
             (bzalloc_ok (heap w) (Int.size_add (len data) 1024))) ;;
     match convert_mp4_nal_units_to_annex_b (heap w) data with
     | ConvOk converted converted_size =>
       call AvPacketAlloc ;;
       if negb (av_packet_alloc w) then
         call (Clog LOG_ERROR) ;;
         call (Bfree converted_data) ;;
         ret false
       else
         call (AvcodecSendPacket converted (Int.to_int32 converted_size)
                                 (Int.to_int64 pts)) ;;
         call AvPacketFree ;;
         if avcodec_send_packet w <? 0 then
           call (Clog LOG_ERROR) ;;
           call (Bfree converted_data) ;;
           ret false
         else
           success <- drain w pts (avcodec_receive_frame w) false ;;
           call (Bfree converted_data) ;;
           ret success
     | ConvFail logged =>
       log logged ;;
       when (bzalloc_ok (heap w) (Int.size_add (len data) 1024))
         (call (Bfree converted_data)) ;;
       call (Clog LOG_ERROR) ;;
       ret false
     | ConvNoReturn => ret false
     end) c.
Proof.
  unfold decode_frame, run_convert_mp4_nal_units_to_annex_b.
  destruct (convert_mp4_nal_units_to_annex_b (heap w) data)
    as [converted converted_size|logged|].
  - destruct (av_packet_alloc w); [|reflexivity].
    destruct (avcodec_send_packet w <? 0); [reflexivity|].
    run. destruct (drain w pts (avcodec_receive_frame w) false c) as [[s c'] t].
    reflexivity.
  - run. rewrite !log_run.
    destruct (bzalloc_ok (heap w) (Int.size_add (len data) 1024));
      run; rewrite ?app_nil_r, <- ?app_assoc; reflexivity.
  - reflexivity.
Qed.

(* ================================================================== *)
(** ** Properties of the bitstream normalizer *)
(* ================================================================== *)

(** C4.  A well-formed sequence of N length-prefixed NAL units whose
    lengths sum to S, with no trailing bytes, is converted successfully; the
    output has size S + 4N and is the units in their order, each right
    after the start code 00 00 00 01.  The input is a C buffer (at most
    [PTRDIFF_MAX] bytes), every length fits its four bytes, and the allocator
    serves the one request the conversion makes. *)
Theorem annex_b_round_trip (al : allocator) (units : list (list byte)) :
  Forall (fun u => len u < 2 ^ 32) units ->
  len (avcc units) <= Int.PTRDIFF_MAX ->
  bzalloc_ok al (len (avcc units) + 1024) = true ->
  exists out_data,
    convert_mp4_nal_units_to_annex_b al (avcc units)
    = ConvOk out_data (total_length units + 4 * len units)
    /\ packet_bytes out_data (total_length units + 4 * len units)
       = annex_b units
    /\ len (annex_b units) = total_length units + 4 * len units.
Proof.
  intros Hall Hfits Halloc.
  rewrite <- (app_nil_r (avcc units)) in Hfits, Halloc |- *.
  destruct (convert_units_tail al units [] Hall) as [out [Hconv Hbytes]];
    [reflexivity | exact Hfits | exact Halloc |].
  exists out. repeat split; [exact Hconv | exact Hbytes | apply len_annex_b].
Qed.

Lemma annex_b_round_trip_witness :
  exists out_data,
    convert_mp4_nal_units_to_annex_b always_alloc
      (avcc [[x65; x88; x84]; [x41]])
    = ConvOk out_data 12
    /\ packet_bytes out_data 12
       = [x00; x00; x00; x01; x65; x88; x84; x00; x00; x00; x01; x41]
    /\ len (annex_b [[x65; x88; x84]; [x41]]) = 12.
Proof.
  apply (annex_b_round_trip always_alloc [[x65; x88; x84]; [x41]]).
  - repeat constructor.
  - vm_compute. discriminate.
  - reflexivity.
Defined.

(** C10.  Fewer than four remaining bytes are the end of the input: after
    the complete units, up to three stray bytes are dropped and the
    conversion succeeds with the units alone; [decode_frame] then submits
    that output to the decoder: after the allocation of the output block
    the first calls are [av_packet_alloc], [avcodec_send_packet] with the
    block, its size as an [int] and the PTS as an [int64_t], and
    [av_packet_free].  With no unit at all the input is shorter than four
    bytes (or empty), the output has size 0 and the packet submitted is
    empty.  A size below [2^31] and a PTS below [2^63] reach the decoder as
    they are. *)
Theorem short_tail_is_end_of_input (w : world) (units : list (list byte))
    (tail : list byte) (pts : Z) (c : hang_source) :
  Forall (fun u => len u < 2 ^ 32) units ->
  len tail < 4 ->
  len (avcc units ++ tail) <= Int.PTRDIFF_MAX ->
  bzalloc_ok (heap w) (len (avcc units ++ tail) + 1024) = true ->
  av_packet_alloc w = true ->
  exists out_data,
    convert_mp4_nal_units_to_annex_b (heap w) (avcc units ++ tail)
    = ConvOk out_data (total_length units + 4 * len units)
    /\ packet_bytes out_data (total_length units + 4 * len units)
       = annex_b units
    /\ (exists rest,
          trace (decode_frame w (avcc units ++ tail) pts c)
          = Bzalloc converted_data (len (avcc units ++ tail) + 1024) true
            :: AvPacketAlloc
            :: AvcodecSendPacket out_data
                 (Int.to_int32 (total_length units + 4 * len units))
                 (Int.to_int64 pts)
            :: AvPacketFree :: rest)
    /\ (units = [] -> total_length units + 4 * len units = 0)
    /\ (total_length units + 4 * len units < 2 ^ 31 ->
        Int.to_int32 (total_length units + 4 * len units)
        = total_length units + 4 * len units)
    /\ (0 <= pts < 2 ^ 63 -> Int.to_int64 pts = pts).
Proof.
  intros Hall Htail Hfits Halloc Hpacket.
  destruct (convert_units_tail (heap w) units tail Hall Htail Hfits Halloc)
    as [out [Hconv Hbytes]].
  exists out. split; [exact Hconv|]. split; [exact Hbytes|].
  split; [|split; [|split]].
  - unfold decode_frame, run_convert_mp4_nal_units_to_annex_b.
    pose proof (len_nonneg (avcc units ++ tail)) as Hlen.
    unfold Int.PTRDIFF_MAX in Hfits.
    rewrite size_add_small by lia. rewrite Halloc, Hconv. run.
    rewrite Hpacket. run.
    destruct (avcodec_send_packet w <? 0).
    + eexists. reflexivity.
    + destruct (drain w pts (avcodec_receive_frame w) false c) as [[s c'] t].
      eexists. reflexivity.
  - intros ->. reflexivity.
  - intros Hint. pose proof (total_length_nonneg units) as Htotal.
    pose proof (len_nonneg units) as Hunits.
    unfold Int.to_int32, Int.wrap32.
    rewrite Z.mod_small by lia.
    destruct (Z.ltb_spec (total_length units + 4 * len units) (2 ^ 31));
      [reflexivity|lia].
  - intros Hpts. unfold Int.to_int64, Int.wrap64.
    rewrite Z.mod_small by lia.
    destruct (Z.ltb_spec pts (2 ^ 63)); [reflexivity|lia].
Qed.

Lemma short_tail_is_end_of_input_witness :
  exists out_data,
    convert_mp4_nal_units_to_annex_b (heap (sample_world [x07] 40 []))
      (avcc [] ++ [x07])
    = ConvOk out_data (total_length [] + 4 * len (@nil (list byte)))
    /\ packet_bytes out_data (total_length [] + 4 * len (@nil (list byte)))
       = annex_b []
    /\ (exists rest,
          trace (decode_frame (sample_world [x07] 40 []) (avcc [] ++ [x07]) 40
                              streaming)
          = Bzalloc converted_data (len (avcc [] ++ [x07]) + 1024) true
            :: AvPacketAlloc
            :: AvcodecSendPacket out_data
                 (Int.to_int32 (total_length [] + 4 * len (@nil (list byte))))
                 (Int.to_int64 40)
            :: AvPacketFree :: rest)
    /\ (@nil (list byte) = [] ->
        total_length [] + 4 * len (@nil (list byte)) = 0)
    /\ (total_length [] + 4 * len (@nil (list byte)) < 2 ^ 31 ->
        Int.to_int32 (total_length [] + 4 * len (@nil (list byte)))
        = total_length [] + 4 * len (@nil (list byte)))
    /\ (0 <= 40 < 2 ^ 63 -> Int.to_int64 40 = 40).
Proof.
  apply (short_tail_is_end_of_input (sample_world [x07] 40 []) [] [x07] 40
                                    streaming).
  - constructor.
  - reflexivity.
  - vm_compute. discriminate.
  - reflexivity.
  - reflexivity.
Defined.

(** C7.  A declared NAL length that overruns the remaining input (after
    any number of complete units) makes the conversion fail without output:
    the block it had allocated is freed again.  The video-frame callback of
    a streaming session then drops the packet: nothing is submitted to the
    decoder, nothing reaches the host, no handle of the resource chain is
    closed and the context, [active] included, is what it was.  Only the
    frame itself is released.  The calls of the callback are exactly: the
    chunk read, the gate, the allocation of the output block, the error of
    the conversion and the release of the block (when the block was
    granted), the error of [decode_frame], the release of the gate and of
    the frame. *)
Theorem malformed_nal_drops_packet (w : world) (c : hang_source)
    (decoder : nvdec_decoder) (frame_id : Z) (units : list (list byte))
    (b0 b1 b2 b3 : byte) (rest : list byte) :
  Forall (fun u => len u < 2 ^ 32) units ->
  len rest < be32_decode b0 b1 b2 b3 ->
  len (avcc units ++ b0 :: b1 :: b2 :: b3 :: rest) <= Int.PTRDIFF_MAX ->
  active c = true ->
  nvdec_context c = Some decoder ->
  0 < frame_id ->
  0 <= fst (moq_consume_frame_chunk w) ->
  payload (snd (moq_consume_frame_chunk w))
  = avcc units ++ b0 :: b1 :: b2 :: b3 :: rest ->
  convert_mp4_nal_units_to_annex_b (heap w)
    (avcc units ++ b0 :: b1 :: b2 :: b3 :: rest)
  = ConvFail
      (if bzalloc_ok (heap w)
            (len (avcc units ++ b0 :: b1 :: b2 :: b3 :: rest) + 1024)
       then [LOG_ERROR] else [])
  /\ on_video_frame w frame_id (Some c)
     = (Some c,
        [MoqConsumeFrameChunk frame_id 0; PthreadMutexLock decoder_mutex;
         Bzalloc converted_data
           (len (avcc units ++ b0 :: b1 :: b2 :: b3 :: rest) + 1024)
           (bzalloc_ok (heap w)
              (len (avcc units ++ b0 :: b1 :: b2 :: b3 :: rest) + 1024))]
        ++ (if bzalloc_ok (heap w)
                 (len (avcc units ++ b0 :: b1 :: b2 :: b3 :: rest) + 1024)
            then [Clog LOG_ERROR; Bfree converted_data] else [])
        ++ [Clog LOG_ERROR; PthreadMutexUnlock decoder_mutex;
            MoqConsumeFrameClose frame_id]).
Proof.
  intros Hall Hover Hfits Hactive Hdecoder Hid Hchunk Hpayload.
  pose proof (convert_overrun (heap w) units b0 b1 b2 b3 rest Hall Hover Hfits)
    as Hconv.
  cbv zeta in Hconv. split; [exact Hconv|].
  unfold on_video_frame, nvdec_decoder_decode, decode_frame,
    run_convert_mp4_nal_units_to_annex_b.
  destruct (moq_consume_frame_chunk w) as [chunk_result frame].
  cbn [fst snd] in Hchunk, Hpayload.
  assert (Eid : (frame_id <=? 0) = false) by (apply Z.leb_gt; lia).
  assert (Echunk : (chunk_result <? 0) = false) by (apply Z.ltb_ge; lia).
  pose proof (len_nonneg (avcc units ++ b0 :: b1 :: b2 :: b3 :: rest)) as Hlen.
  unfold Int.PTRDIFF_MAX in Hfits.
  rewrite Hpayload, Hconv, size_add_small by lia.
  destruct (bzalloc_ok (heap w) _);
    repeat (progress (run; rewrite ?Hactive, ?Hdecoder, ?Eid, ?Echunk;
                      cbn [is_some log fold_right]));
    reflexivity.
Qed.

Lemma malformed_nal_drops_packet_witness :
  convert_mp4_nal_units_to_annex_b
    (heap (sample_world (avcc [[x65]] ++ [x00; x00; x00; x09; x41]) 40 []))
    (avcc [[x65]] ++ [x00; x00; x00; x09; x41]) = ConvFail [LOG_ERROR]
  /\ on_video_frame
       (sample_world (avcc [[x65]] ++ [x00; x00; x00; x09; x41]) 40 [])
       7 (Some streaming)
     = (Some streaming,
        [MoqConsumeFrameChunk 7 0; PthreadMutexLock decoder_mutex;
         Bzalloc converted_data 1034 true;
         Clog LOG_ERROR; Bfree converted_data;
         Clog LOG_ERROR; PthreadMutexUnlock decoder_mutex;
         MoqConsumeFrameClose 7]).
Proof.
  apply (malformed_nal_drops_packet
           (sample_world (avcc [[x65]] ++ [x00; x00; x00; x09; x41]) 40 [])
           streaming
           {| codec_ctx := Some {| codec_id := AV_CODEC_ID_H264;
                                   extradata := None |};
              sws_ctx := true |}
           7 [[x65]] x00 x00 x00 x09 [x41]).
  - repeat constructor.
  - reflexivity.
  - vm_compute. discriminate.
  - reflexivity.
  - reflexivity.
  - reflexivity.
  - vm_compute. discriminate.
  - reflexivity.
Defined.

(* ================================================================== *)
(** ** The codec table of [parse_codec_id] *)
(* ================================================================== *)

Lemma uchar_inj (a b : ascii) : uchar a = uchar b -> a = b.
Proof.
  unfold uchar. intros H. apply N2Z.inj in H.
  rewrite <- (ascii_N_embedding a), <- (ascii_N_embedding b), H. reflexivity.
Qed.

Lemma uchar_eqb (a b : ascii) : (uchar a =? uchar b) = Ascii.eqb a b.
Proof.
  destruct (Ascii.eqb_spec a b) as [->|Hne].
  - apply Z.eqb_refl.
  - apply Z.eqb_neq. intros H. apply Hne, uchar_inj, H.
Qed.

Lemma strncmp_starts_with (p : string) : forall s,
  no_nul p = true ->
  (strncmp s p (String.length p) =? 0) = starts_with p s.
Proof.
  induction p as [|a p IH]; intros s Hp; [reflexivity|].
  cbn [no_nul] in Hp. apply andb_prop in Hp. destruct Hp as [Ha Hp].
  apply negb_true_iff, Z.eqb_neq in Ha.
  cbn [String.length strncmp starts_with head tail].
  destruct s as [|b s]; cbn [head tail].
  - change (uchar Ascii.zero) with 0.
    destruct (Z.eqb_spec 0 (uchar a)) as [E|E]; [congruence|]. cbn [negb].
    apply Z.eqb_neq. lia.
  - rewrite uchar_eqb, (Ascii.eqb_sym a b).
    destruct (Ascii.eqb_spec b a) as [->|Hne]; cbn [negb andb].
    + destruct (Z.eqb_spec (uchar a) 0) as [E|_]; [congruence|].
      apply IH, Hp.
    + apply Z.eqb_neq. intros H. apply Hne, uchar_inj. lia.
Qed.

Lemma tolower_nul (b : ascii) : uchar (tolower b) = 0 -> uchar b = 0.
Proof.
  unfold tolower.
  destruct ((65 <=? uchar b) && (uchar b <=? 90)) eqn:E; [|tauto].
  apply andb_prop in E. unfold uchar in *.
  rewrite N_ascii_embedding by lia. lia.
Qed.

Lemma strncasecmp_starts_with (p : string) : forall s,
  no_nul p = true -> is_lowercase p = true ->
  (strncasecmp s p (String.length p) =? 0) = starts_with_nocase p s.
Proof.
  unfold starts_with_nocase.
  induction p as [|a p IH]; intros s Hp Hlow; [reflexivity|].
  cbn [no_nul] in Hp. apply andb_prop in Hp. destruct Hp as [Ha Hp].
  cbn [is_lowercase] in Hlow. apply andb_prop in Hlow.
  destruct Hlow as [Hla Hlow]. apply Ascii.eqb_eq in Hla.
  apply negb_true_iff, Z.eqb_neq in Ha.
  cbn [String.length strncasecmp starts_with head tail]. rewrite Hla.
  destruct s as [|b s]; cbn [head tail lowercase starts_with].
  - change (uchar (tolower Ascii.zero)) with 0.
    destruct (Z.eqb_spec 0 (uchar a)) as [E|E]; [congruence|]. cbn [negb].
    apply Z.eqb_neq. lia.
  - rewrite uchar_eqb, (Ascii.eqb_sym a (tolower b)).
    destruct (Ascii.eqb_spec (tolower b) a) as [E|Hne]; cbn [negb andb].
    + rewrite E. destruct (Z.eqb_spec (uchar a) 0) as [E0|_]; [congruence|].
      apply IH; assumption.
    + apply Z.eqb_neq. intros H. apply Hne, uchar_inj. lia.
Qed.

Lemma starts_with_length (p : string) : forall s,
  starts_with p s = true -> strlen p <= strlen s.
Proof.
  unfold strlen.
  induction p as [|a p IH]; intros s H; cbn [String.length]; [lia|].
  destruct s as [|b s]; cbn [starts_with] in H; [discriminate|].
  apply andb_prop in H. destruct H as [_ H]. apply IH in H.
  cbn [String.length]. lia.
Qed.

Lemma lowercase_length (s : string) : strlen (lowercase s) = strlen s.
Proof.
  unfold strlen. induction s as [|c s IH]; cbn [lowercase String.length]; lia.
Qed.

(** The length test in front of a comparison adds nothing. *)
Lemma guarded_strncmp (p s : string) :
  no_nul p = true ->
  (strlen p <=? strlen s) && (strncmp s p (String.length p) =? 0)
  = starts_with p s.
Proof.
  intros Hp. rewrite strncmp_starts_with by exact Hp.
  destruct (starts_with p s) eqn:E; [|apply andb_false_r].
  apply starts_with_length in E. rewrite andb_true_r. apply Z.leb_le, E.
Qed.

Lemma guarded_strncasecmp (p s : string) :
  no_nul p = true -> is_lowercase p = true ->
  (strlen p <=? strlen s) && (strncasecmp s p (String.length p) =? 0)
  = starts_with_nocase p s.
Proof.
  intros Hp Hlow. rewrite strncasecmp_starts_with by assumption.
  destruct (starts_with_nocase p s) eqn:E; [|apply andb_false_r].
  apply starts_with_length in E. rewrite lowercase_length in E.
  rewrite andb_true_r. apply Z.leb_le, E.
Qed.

(** C9, as the code has it.  A codec string that begins with avc1, or with
    h264 in any letter case, selects H.264; one that begins with hev1 or
    hvc1, or with hevc or h265 in any letter case, selects HEVC; one that
    begins with av01, or with av1 in any letter case, selects AV1; none of
    these logs.  A missing or empty string selects H.264 and logs nothing.
    Every other string logs a warning and selects H.264. *)
Theorem parse_codec_id_table :
  parse_codec_id None = (AV_CODEC_ID_H264, [])
  /\ forall s : string, parse_codec_id (Some s) = codec_table s.
Proof.
  split; [reflexivity|]. intros s.
  unfold parse_codec_id, codec_table, names_h264, names_hevc, names_av1.
  replace (strlen s =? 0) with (String.eqb s EmptyString)
    by (destruct s; reflexivity).
  destruct (String.eqb s EmptyString); [reflexivity|].
  change 4 with (strlen "avc1"). change 3 with (strlen "av1").
  change 4%nat with (String.length "avc1").
  change 3%nat with (String.length "av1").
  rewrite (guarded_strncmp "avc1"), (guarded_strncmp "hev1"),
    (guarded_strncmp "hvc1"), (guarded_strncmp "av01") by reflexivity.
  rewrite (guarded_strncasecmp "h264"), (guarded_strncasecmp "hevc"),
    (guarded_strncasecmp "h265"), (guarded_strncasecmp "av1") by reflexivity.
  reflexivity.
Qed.

(** C9 as stated fails: the empty string is none of the listed names, yet
    it selects H.264 without a warning. *)
Lemma empty_codec_logs_nothing :
  names_h264 EmptyString = false /\ names_hevc EmptyString = false /\ names_av1 EmptyString = false
  /\ parse_codec_id (Some EmptyString) = (AV_CODEC_ID_H264, []).
Proof. repeat split. Qed.

(* ================================================================== *)
(** ** Properties of the timestamp mapper *)
(* ================================================================== *)

(** What one call of the mapper does. *)
Lemma map_timestamp_run (now_ns pts_us : Z) (c : hang_source) :
  map_timestamp now_ns pts_us c
  = if has_first_frame c then
      let t := if Int.u64_mul pts_us 1000 <=? last_output_timestamp_ns c
               then Int.u64_add (last_output_timestamp_ns c) 1
               else Int.u64_mul pts_us 1000 in
      (t, set_last_output_timestamp_ns t c,
       [PthreadMutexLock frame_mutex; PthreadMutexUnlock frame_mutex])
    else
      (Int.u64_mul pts_us 1000,
       set_last_output_timestamp_ns (Int.u64_mul pts_us 1000)
         (set_first_frame_obs_time_ns now_ns
            (set_first_frame_pts_us pts_us (set_has_first_frame true c))),
       [PthreadMutexLock frame_mutex; OsGettimeNs;
        PthreadMutexUnlock frame_mutex]).
Proof.
  unfold map_timestamp. run. destruct (has_first_frame c); reflexivity.
Qed.

(** One step of the code is one step of the reference definition as long as
    neither the product nor the increment leaves 64 bits; the emitted
    timestamp then lies above the last one. *)
Lemma map_timestamp_step (now_ns pts_us : Z) (c : hang_source) :
  0 <= pts_us -> pts_us * 1000 <= Int.UINT64_MAX ->
  (has_first_frame c = true ->
   0 <= last_output_timestamp_ns c < Int.UINT64_MAX) ->
  let r := map_timestamp now_ns pts_us c in
  (timestamp_state_of (final r), result r)
  = reference_mapper (timestamp_state_of c) pts_us now_ns
  /\ has_first_frame (final r) = true
  /\ last_output_timestamp_ns (final r) = result r
  /\ 0 <= result r
  /\ (has_first_frame c = true -> last_output_timestamp_ns c < result r)
  /\ result r <= Z.max (pts_us * 1000) (last_output_timestamp_ns c + 1).
Proof.
  intros Hp Hmul Hlast r. subst r. rewrite map_timestamp_run.
  unfold Int.UINT64_MAX in *.
  assert (Emul : Int.u64_mul pts_us 1000 = pts_us * 1000)
    by (apply wrap64_small; lia).
  rewrite Emul. unfold reference_mapper, timestamp_state_of.
  cbn [ref_has_first_frame ref_last_output_ns ref_first_pts_us
       ref_first_host_time_ns].
  destruct (has_first_frame c) eqn:Hfirst; cbn [negb].
  - specialize (Hlast eq_refl).
    assert (Eadd : Int.u64_add (last_output_timestamp_ns c) 1
                   = last_output_timestamp_ns c + 1)
      by (apply wrap64_small; lia).
    rewrite Eadd. cbv zeta. unfold result, final. cbn [fst snd].
    destruct (Z.leb_spec (pts_us * 1000) (last_output_timestamp_ns c));
      cbn; rewrite ?Hfirst; repeat split; try lia; try reflexivity.
  - unfold result, final. cbn. repeat split; try lia; discriminate.
Qed.

Lemma emit_timestamps_cons (pts_us now_ns : Z) (frames : list (Z * Z))
    (c : hang_source) :
  emit_timestamps ((pts_us, now_ns) :: frames) c
  = let r1 := map_timestamp now_ns pts_us c in
    let r2 := emit_timestamps frames (final r1) in
    (result r1 :: result r2, final r2, trace r1 ++ trace r2 ++ []).
Proof.
  cbn [emit_timestamps]. run.
  destruct (map_timestamp now_ns pts_us c) as [[t c1] t1]. cbn [fst snd].
  destruct (emit_timestamps frames c1) as [[ts c2] t2]. reflexivity.
Qed.

Lemma strictly_increasing_cons (a b : Z) (l : list Z) :
  strictly_increasing (a :: b :: l)
  = (a <? b) && strictly_increasing (b :: l).
Proof. reflexivity. Qed.

(** A run of [frames] that has room for one increment per frame. *)
Lemma emit_timestamps_reference (frames : list (Z * Z)) :
  forall (c : hang_source) (room : Z),
  len frames <= room ->
  Forall (fun f => 0 <= fst f /\ fst f * 1000 + room <= Int.UINT64_MAX)
         frames ->
  (has_first_frame c = true ->
   0 <= last_output_timestamp_ns c
   /\ last_output_timestamp_ns c + room <= Int.UINT64_MAX) ->
  let r := emit_timestamps frames c in
  (timestamp_state_of (final r), result r)
  = reference_timestamps (timestamp_state_of c) frames
  /\ strictly_increasing (result r) = true
  /\ (has_first_frame c = true ->
      Forall (fun t => last_output_timestamp_ns c < t) (result r)).
Proof.
  induction frames as [|[pts_us now_ns] frames IH];
    intros c room Hroom Hall Hlast r; subst r.
  - cbn. repeat split. constructor.
  - inversion Hall as [|f fs [Hp Hmul] Hall']; subst f fs. cbn [fst] in Hp, Hmul.
    assert (Hlen : len ((pts_us, now_ns) :: frames) = len frames + 1)
      by (unfold len; cbn [length]; lia).
    pose proof (len_nonneg frames) as Hn.
    destruct (map_timestamp_step now_ns pts_us c Hp) as
      (Hstep & Hfirst1 & Hlast1 & Hpos1 & Habove & Hupper);
      [lia | intros Hf; specialize (Hlast Hf); lia |].
    rewrite emit_timestamps_cons. cbv zeta.
    set (r1 := map_timestamp now_ns pts_us c) in *.
    destruct (IH (final r1) (room - 1)) as (Hrest & Hincr & Hall1).
    + lia.
    + eapply Forall_impl; [|exact Hall']. cbv beta. intros f [? ?]. lia.
    + intros _. destruct (has_first_frame c) eqn:Hf.
      * specialize (Hlast eq_refl). lia.
      * assert (Hr1 : result r1 = pts_us * 1000).
        { subst r1. rewrite map_timestamp_run, Hf. unfold result. cbn [fst].
          apply wrap64_small. unfold Int.UINT64_MAX in *. lia. }
        lia.
    + cbv zeta in Hrest, Hincr, Hall1. specialize (Hall1 Hfirst1).
      set (r2 := emit_timestamps frames (final r1)) in *.
      remember (result r1) as t1 eqn:Et1.
      remember (result r2) as ts2 eqn:Ets2.
      remember (final r2) as c2 eqn:Ec2.
      remember (final r1) as c1 eqn:Ec1.
      unfold result, final. cbn [fst snd].
      cbn [reference_timestamps]. rewrite <- Hstep, <- Hrest.
      repeat split.
      * destruct ts2 as [|t ts]; [reflexivity|].
        rewrite strictly_increasing_cons, Hincr.
        inversion Hall1 as [|? ? Ht _]; subst.
        rewrite andb_true_r. apply Z.ltb_lt. lia.
      * intros Hfirst. constructor; [apply Habove, Hfirst|].
        eapply Forall_impl; [|exact Hall1]. cbv beta. intros t Ht.
        specialize (Habove Hfirst). lia.
Qed.

(** The mapper against the reference definition.  The mapper computes on
    unsigned 64-bit values.  Started with [has_first_frame] clear, and as
    long as [p_us * 1000] plus the number of frames stays within 64 bits
    for every frame, the code and the reference definition emit the same
    timestamps and leave the same state, and the emitted sequence is
    strictly increasing. *)
Theorem timestamp_mapper_refines_reference (c : hang_source)
    (frames : list (Z * Z)) :
  has_first_frame c = false ->
  Forall (fun f => 0 <= fst f /\ fst f * 1000 + len frames <= Int.UINT64_MAX)
         frames ->
  (timestamp_state_of (final (emit_timestamps frames c)),
   result (emit_timestamps frames c))
  = reference_timestamps (timestamp_state_of c) frames
  /\ strictly_increasing (result (emit_timestamps frames c)) = true.
Proof.
  intros Hfresh Hall.
  destruct (emit_timestamps_reference frames c (len frames))
    as (Href & Hincr & _).
  - lia.
  - exact Hall.
  - rewrite Hfresh. discriminate.
  - split; assumption.
Qed.

Lemma timestamp_mapper_refines_reference_witness :
  (timestamp_state_of
     (final (emit_timestamps [(2000000, 70); (1999999, 80)] streaming)),
   result (emit_timestamps [(2000000, 70); (1999999, 80)] streaming))
  = reference_timestamps (timestamp_state_of streaming)
      [(2000000, 70); (1999999, 80)]
  /\ strictly_increasing
       (result (emit_timestamps [(2000000, 70); (1999999, 80)] streaming))
     = true.
Proof.
  apply (timestamp_mapper_refines_reference streaming
           [(2000000, 70); (1999999, 80)]).
  - reflexivity.
  - repeat constructor; vm_compute; discriminate.
Defined.

(** Beyond 64 bits the sequence wraps: [239807672958224171 * 1000] is
    [2^64 - 8] in 64 bits; eight frames that do not advance then count the
    output up to [2^64 - 1] and on to [0]. *)
Lemma timestamps_wrap_around :
  result (emit_timestamps wrapping_frames streaming)
  = [18446744073709551608; 18446744073709551609; 18446744073709551610;
     18446744073709551611; 18446744073709551612; 18446744073709551613;
     18446744073709551614; 18446744073709551615; 0]
  /\ strictly_increasing (result (emit_timestamps wrapping_frames streaming))
     = false.
Proof. split; vm_compute; reflexivity. Qed.

(* ================================================================== *)
(** ** Code that makes no call of a given kind *)
(* ================================================================== *)

Section Silent.

Variable p : event -> bool.

Lemma silent_ret {A} (a : A) : silent p (ret a).
Proof. intros c. reflexivity. Qed.

Lemma silent_get {A} (f : hang_source -> A) : silent p (get f).
Proof. intros c. reflexivity. Qed.

Lemma silent_set (f : hang_source -> hang_source) : silent p (set f).
Proof. intros c. reflexivity. Qed.

Lemma silent_call (e : event) : p e = false -> silent p (call e).
Proof. intros He c. cbn. rewrite He. reflexivity. Qed.

Lemma trace_bind {A B} (m : M A) (k : A -> M B) (c : hang_source) :
  trace (bind m k c)
  = trace (m c) ++ trace (k (result (m c)) (final (m c))).
Proof.
  unfold bind, trace, result, final.
  destruct (m c) as [[a c1] t1]. cbn [fst snd].
  destruct (k a c1) as [[b c2] t2]. reflexivity.
Qed.

Lemma silent_bind {A B} (m : M A) (k : A -> M B) :
  silent p m -> (forall a, silent p (k a)) -> silent p (bind m k).
Proof.
  intros Hm Hk c. rewrite trace_bind, filter_app, Hm, Hk. reflexivity.
Qed.

Lemma silent_when (b : bool) (m : M unit) :
  silent p m -> silent p (when b m).
Proof. intros Hm. destruct b; [exact Hm|apply silent_ret]. Qed.

Lemma silent_log (levels : list log_level) :
  (forall l, p (Clog l) = false) -> silent p (log levels).
Proof.
  intros Hp c. rewrite log_run. unfold trace. cbn [snd].
  induction levels as [|l levels IH]; [reflexivity|].
  cbn [map filter]. rewrite Hp. exact IH.
Qed.

Lemma silent_repeat_call (n : nat) (e : event) :
  p e = false -> silent p (repeat_call n e).
Proof.
  intros He c. rewrite repeat_call_run. unfold trace. cbn [snd].
  induction n as [|n IH]; [reflexivity|].
  cbn [repeat filter]. rewrite He. exact IH.
Qed.

End Silent.

Create HintDb silent.

(** Silence follows the shape of the code. *)
Ltac quiet :=
  repeat first
    [ solve [auto with silent nocore]
    | progress cbv beta zeta
    | apply silent_ret
    | apply silent_get
    | apply silent_set
    | apply silent_call; reflexivity
    | apply silent_log; intros ?; reflexivity
    | apply silent_repeat_call; reflexivity
    | apply silent_when
    | apply silent_bind; [|intros ?]
    | match goal with
      | |- silent _ (if ?b then _ else _) => destruct b
      | |- silent _ (match ?x with _ => _ end) => destruct x
      end ].

Lemma filter_callback (p : event -> bool) (on_null : list event)
    (body : M unit) (l : list event) (user_data : option hang_source) :
  filter p on_null = l ->
  (forall c, filter p (trace (body c)) = l) ->
  filter p (snd (callback on_null body user_data)) = l.
Proof.
  intros Hnull Hbody. destruct user_data as [c|]; [|exact Hnull].
  specialize (Hbody c). unfold callback, trace in *.
  destruct (body c) as [[u c'] t]. exact Hbody.
Qed.

(* ================================================================== *)
(** ** The release of frames *)
(* ================================================================== *)

Lemma output_decoded_frame_keeps_frames now_ns data width height pts_us :
  silent is_frame_close (output_decoded_frame now_ns data width height pts_us).
Proof. unfold output_decoded_frame, map_timestamp. quiet. Qed.
#[local] Hint Resolve output_decoded_frame_keeps_frames : silent.

Lemma receive_one_keeps_frames w pts r success :
  silent is_frame_close (receive_one w pts r success).
Proof. unfold receive_one. quiet. Qed.
#[local] Hint Resolve receive_one_keeps_frames : silent.

Lemma drain_keeps_frames w pts rounds : forall success,
  silent is_frame_close (drain w pts rounds success).
Proof.
  induction rounds as [|r rounds IH]; intros success; cbn [drain]; quiet.
Qed.
#[local] Hint Resolve drain_keeps_frames : silent.

Lemma nvdec_decoder_decode_keeps_frames w data pts keyframe :
  silent is_frame_close (nvdec_decoder_decode w data pts keyframe).
Proof. unfold nvdec_decoder_decode, decode_frame. quiet. Qed.
#[local] Hint Resolve nvdec_decoder_decode_keeps_frames : silent.

Lemma audio_decoder_decode_keeps_frames w data pts :
  silent is_frame_close (audio_decoder_decode w data pts).
Proof. unfold audio_decoder_decode. quiet. Qed.
#[local] Hint Resolve audio_decoder_decode_keeps_frames : silent.

Lemma calls_after_silence (p : event -> bool) {A B} (m : M A) (k : A -> M B)
    (l : list event) :
  silent p m -> (forall a, calls p (k a) l) -> calls p (bind m k) l.
Proof.
  intros Hm Hk c. rewrite trace_bind, filter_app, Hm, Hk. reflexivity.
Qed.

Lemma calls_call (p : event -> bool) (e : event) :
  p e = true -> calls p (call e) [e].
Proof. intros He c. cbn. rewrite He. reflexivity. Qed.

(** The code runs in silence up to a last statement that closes the
    frame. *)
Ltac closes_frame :=
  repeat first
    [ progress cbv beta zeta
    | apply calls_call; reflexivity
    | apply calls_after_silence; [solve [quiet]|intros ?]
    | match goal with
      | H : false = true |- _ => discriminate H
      | H : (?x >? 0) = false, H' : 0 < ?x |- _ =>
        exfalso; apply Z.gtb_ltb, Z.ltb_ge in H; lia
      | H : (?x <=? 0) = true, H' : 0 < ?x |- _ =>
        exfalso; apply Z.leb_le in H; lia
      | |- calls _ (when ?b _) _ => destruct b eqn:?; cbn [when]
      | |- calls _ (if ?b then _ else _) _ => destruct b eqn:?
      | |- calls _ (match ?x with _ => _ end) _ => destruct x
      end ].

(** C3.  A video-frame or audio-frame callback that is given a frame
    ([frame_id > 0]) calls [moq_consume_frame_close] exactly once before it
    returns, and for that frame: whether the context is missing, the source
    inactive, the chunk unreadable, the decoder absent, or the decode failed
    or succeeded. *)
Theorem frame_released_exactly_once (w : world) (frame_id : Z)
    (user_data : option hang_source) :
  0 < frame_id ->
  filter is_frame_close (snd (on_video_frame w frame_id user_data))
  = [MoqConsumeFrameClose frame_id]
  /\ filter is_frame_close (snd (on_audio_frame w frame_id user_data))
     = [MoqConsumeFrameClose frame_id].
Proof.
  intros Hid.
  assert (Hnull : (frame_id >? 0) = true) by (apply Z.gtb_lt; lia).
  split.
  - unfold on_video_frame. apply filter_callback; [rewrite Hnull; reflexivity|].
    intros c. revert c.
    match goal with
    | |- forall c, filter ?p (trace (?m c)) = ?l => change (calls p m l)
    end.
    closes_frame.
  - unfold on_audio_frame. apply filter_callback; [rewrite Hnull; reflexivity|].
    intros c. revert c.
    match goal with
    | |- forall c, filter ?p (trace (?m c)) = ?l => change (calls p m l)
    end.
    closes_frame.
Qed.

Lemma frame_released_exactly_once_witness :
  filter is_frame_close
    (snd (on_video_frame (sample_world (avcc [[x65]]) 40 [small_frame 40]) 7
                         (Some streaming)))
  = [MoqConsumeFrameClose 7]
  /\ filter is_frame_close
       (snd (on_audio_frame (sample_world (avcc [[x65]]) 40 [small_frame 40])
                            7 (Some streaming)))
     = [MoqConsumeFrameClose 7].
Proof.
  apply (frame_released_exactly_once
           (sample_world (avcc [[x65]]) 40 [small_frame 40]) 7
           (Some streaming)).
  reflexivity.
Defined.

(* ================================================================== *)
(** ** The check of the frame dimensions *)
(* ================================================================== *)

(** An [int] that is negative or above the limit stays above the limit as
    [uint32_t]. *)
Lemma invalid_dimensions_of_int (width height : Z) :
  - 2 ^ 31 <= width < 2 ^ 31 -> - 2 ^ 31 <= height < 2 ^ 31 ->
  width = 0 \/ height = 0 \/ 7680 < width \/ 4320 < height ->
  invalid_dimensions (Int.wrap32 width) (Int.wrap32 height) = true.
Proof.
  intros Hw Hh Hbad. unfold invalid_dimensions, Int.wrap32.
  assert (Ew : 0 <= width -> width mod 2 ^ 32 = width)
    by (intros; apply Z.mod_small; lia).
  assert (Eh : 0 <= height -> height mod 2 ^ 32 = height)
    by (intros; apply Z.mod_small; lia).
  assert (Nw : width < 0 -> width mod 2 ^ 32 = width + 2 ^ 32).
  { intros. symmetry. apply (Z.mod_unique _ _ (-1)); lia. }
  assert (Nh : height < 0 -> height mod 2 ^ 32 = height + 2 ^ 32).
  { intros. symmetry. apply (Z.mod_unique _ _ (-1)); lia. }
  repeat rewrite orb_true_iff.
  rewrite !Z.eqb_eq, !Z.gtb_ltb, !Z.ltb_lt.
  destruct (Z.lt_ge_cases width 0); destruct (Z.lt_ge_cases height 0);
    rewrite ?Ew, ?Eh, ?Nw, ?Nh by lia; lia.
Qed.

Lemma valid_dimensions_of_int (width height : Z) :
  0 < width <= 7680 -> 0 < height <= 4320 ->
  Int.wrap32 width = width /\ Int.wrap32 height = height
  /\ invalid_dimensions (Int.wrap32 width) (Int.wrap32 height) = false
  /\ (width =? 0) || (height =? 0) = false.
Proof.
  intros Hw Hh. unfold Int.wrap32.
  rewrite !Z.mod_small by lia. repeat split.
  - unfold invalid_dimensions.
    assert (Ew : (width =? 0) = false) by (apply Z.eqb_neq; lia).
    assert (Eh : (height =? 0) = false) by (apply Z.eqb_neq; lia).
    assert (Gw : (width >? 7680) = false)
      by (rewrite Z.gtb_ltb; apply Z.ltb_ge; lia).
    assert (Gh : (height >? 4320) = false)
      by (rewrite Z.gtb_ltb; apply Z.ltb_ge; lia).
    rewrite Ew, Eh, Gw, Gh. reflexivity.
  - assert (Ew : (width =? 0) = false) by (apply Z.eqb_neq; lia).
    assert (Eh : (height =? 0) = false) by (apply Z.eqb_neq; lia).
    rewrite Ew, Eh. reflexivity.
Qed.

(** C8.  The check on the dimensions, from both sides.  A decoded frame
    whose width or height is 0, or whose width exceeds 7680, or whose height
    exceeds 4320, is never handed to the host, and the RGBA buffer allocated
    for it is freed exactly once.  A frame whose width is between 1 and 7680
    and whose height is between 1 and 4320, 7680x4320 included, passes the
    check: once converted it is handed to the host of an active source, with
    its width and height.  The frame is one the decoder delivered and for
    which the buffer was allocated; its dimensions are [int]s. *)
Theorem invalid_frame_dropped (w : world) (pts : Z) (r : drain_round)
    (success : bool) (c : hang_source) :
  av_frame_alloc_ok r = true ->
  0 <= receive_ret r ->
  decoder_sws_ctx c || sws_getContext_ok r = true ->
  bzalloc_ok (heap w) (rgba_size r) = true ->
  - 2 ^ 31 <= frame_width r < 2 ^ 31 ->
  - 2 ^ 31 <= frame_height r < 2 ^ 31 ->
  (frame_width r = 0 \/ frame_height r = 0
   \/ 7680 < frame_width r \/ 4320 < frame_height r ->
   count is_output (trace (receive_one w pts r success c)) = 0%nat
   /\ count is_rgba_alloc (trace (receive_one w pts r success c)) = 1%nat
   /\ count is_rgba_free (trace (receive_one w pts r success c)) = 1%nat)
  /\ (0 < frame_width r <= 7680 ->
      0 < frame_height r <= 4320 ->
      0 <= sws_scale_ret r ->
      active c = true ->
      source c = true ->
      exists frame,
        filter is_output (trace (receive_one w pts r success c))
        = [ObsSourceOutputVideo frame]
        /\ width frame = frame_width r
        /\ height frame = frame_height r
        /\ linesize frame = frame_width r * 4).
Proof.
  intros Hframe Hret Hsws Halloc Hw Hh.
  assert (Eret : (receive_ret r <? 0) = false) by (apply Z.ltb_ge; lia).
  split.
  - intros Hbad.
    pose proof (invalid_dimensions_of_int _ _ Hw Hh Hbad) as Hinvalid.
    unfold receive_one, output_decoded_frame.
    destruct (decoder_sws_ctx c) eqn:Ectx; cbn [orb] in Hsws;
      destruct (sws_scale_ret r <? 0) eqn:Escale;
      destruct ((frame_width r =? 0) || (frame_height r =? 0)) eqn:Ezero;
      repeat (progress (run; rewrite ?Hframe, ?Eret, ?Ectx, ?Hsws, ?Halloc,
                             ?Escale, ?Ezero, ?Hinvalid));
      repeat split.
  - intros Hwidth Hheight Hscale Hactive Hsource.
    destruct (valid_dimensions_of_int _ _ Hwidth Hheight)
      as (Ew & Eh & Hvalid & Ezero).
    assert (Escale : (sws_scale_ret r <? 0) = false) by (apply Z.ltb_ge; lia).
    assert (Eline : Int.wrap32 (frame_width r * 4) = frame_width r * 4)
      by (unfold Int.wrap32; apply Z.mod_small; lia).
    assert (Ea : forall v, active (set_decoder_sws_ctx v c) = true)
      by (intros v; unfold set_decoder_sws_ctx;
          destruct (nvdec_context c); exact Hactive).
    assert (Es : forall v, source (set_decoder_sws_ctx v c) = true)
      by (intros v; unfold set_decoder_sws_ctx;
          destruct (nvdec_context c); exact Hsource).
    unfold receive_one, output_decoded_frame.
    destruct (decoder_sws_ctx c) eqn:Ectx; cbn [orb] in Hsws;
      repeat (progress (run; rewrite ?Hframe, ?Eret, ?Ectx, ?Hsws, ?Halloc,
                             ?Escale, ?Ezero, ?Hvalid, ?Hactive, ?Hsource,
                             ?Ea, ?Es, ?map_timestamp_run));
      match goal with
      | |- context [has_first_frame ?s] => destruct (has_first_frame s)
      end;
      run; rewrite ?Ew, ?Eh, ?Eline;
      eexists; (split; [reflexivity|]); repeat split.
Qed.

Lemma invalid_frame_dropped_witness :
  (count is_output
     (trace (receive_one (sample_world [] 0 []) 40 wide_frame false streaming))
   = 0%nat
   /\ count is_rgba_alloc
        (trace (receive_one (sample_world [] 0 []) 40 wide_frame false
                            streaming))
      = 1%nat
   /\ count is_rgba_free
        (trace (receive_one (sample_world [] 0 []) 40 wide_frame false
                            streaming))
      = 1%nat)
  /\ (exists frame,
        filter is_output
          (trace (receive_one (sample_world [] 0 []) 40 largest_frame false
                              streaming))
        = [ObsSourceOutputVideo frame]
        /\ width frame = 7680
        /\ height frame = 4320
        /\ linesize frame = 7680 * 4).
Proof.
  split.
  - apply (invalid_frame_dropped (sample_world [] 0 []) 40 wide_frame false
                                 streaming).
    + reflexivity.
    + vm_compute. discriminate.
    + reflexivity.
    + reflexivity.
    + split; [vm_compute; discriminate|reflexivity].
    + split; [vm_compute; discriminate|reflexivity].
    + right. right. left. reflexivity.
  - apply (invalid_frame_dropped (sample_world [] 0 []) 40 largest_frame false
                                 streaming).
    + reflexivity.
    + vm_compute. discriminate.
    + reflexivity.
    + reflexivity.
    + split; [vm_compute; discriminate|reflexivity].
    + split; [vm_compute; discriminate|reflexivity].
    + split; [reflexivity|vm_compute; discriminate].
    + split; [reflexivity|vm_compute; discriminate].
    + vm_compute. discriminate.
    + reflexivity.
    + reflexivity.
Defined.

(* ================================================================== *)
(** ** The order of the close calls *)
(* ================================================================== *)




Section Order.

Variable rank : event -> option nat.
Hypothesis rank_is_close : forall e, is_close e = false -> rank e = None.








End Order.




Lemma nvdec_decoder_destroy_closes_nothing : silent is_close nvdec_decoder_destroy.
Proof. unfold nvdec_decoder_destroy. quiet. Qed.
#[local] Hint Resolve nvdec_decoder_destroy_closes_nothing : silent.

Lemma destroy_decoders_closes_nothing : silent is_close destroy_decoders.
Proof. unfold destroy_decoders, audio_decoder_destroy. quiet. Qed.
#[local] Hint Resolve destroy_decoders_closes_nothing : silent.

Lemma clear_queues_closes_nothing : silent is_close clear_queues.
Proof. unfold clear_queues. quiet. Qed.
#[local] Hint Resolve clear_queues_closes_nothing : silent.

Lemma nvdec_decoder_init_closes_nothing w codec_str description :
  silent is_close (nvdec_decoder_init w codec_str description).
Proof.
  unfold nvdec_decoder_init. destruct (parse_codec_id codec_str). quiet.
Qed.
#[local] Hint Resolve nvdec_decoder_init_closes_nothing : silent.

Lemma audio_decoder_init_closes_nothing w : silent is_close (audio_decoder_init w).
Proof. unfold audio_decoder_init. quiet. Qed.
#[local] Hint Resolve audio_decoder_init_closes_nothing : silent.





(** *** Handles that a piece of code leaves alone, or leaves closed *)

Lemma final_bind {A B} (m : M A) (k : A -> M B) (c : hang_source) :
  final (bind m k c) = final (k (result (m c)) (final (m c))).
Proof.
  unfold bind, result, final.
  destruct (m c) as [[a c1] t1]. cbn [fst snd].
  destruct (k a c1) as [[b c2] t2]. reflexivity.
Qed.

Section Keeps.

Variable f : hang_source -> Z.












End Keeps.

Create HintDb keeps.



Lemma close_if_open_keeps (f id : hang_source -> Z) (close : Z -> event)
    (assign : Z -> hang_source -> hang_source) :
  (forall c, f (assign 0 c) = f c) -> keeps f (close_if_open id close assign).
Proof.
  intros Hassign c. unfold close_if_open. run.
  destruct (id c >? 0); cbn [fst snd]; [apply Hassign|reflexivity].
Qed.


Lemma hang_source_deactivate_inactive (c : hang_source) :
  active c = false -> hang_source_deactivate c = (tt, c, []).
Proof. intros H. unfold hang_source_deactivate. run. rewrite H. reflexivity. Qed.

#[local] Hint Resolve close_if_open_keeps : keeps.








Lemma output_decoded_frame_closes_nothing now_ns data width height pts_us :
  silent is_close (output_decoded_frame now_ns data width height pts_us).
Proof. unfold output_decoded_frame, map_timestamp. quiet. Qed.
#[local] Hint Resolve output_decoded_frame_closes_nothing : silent.

Lemma receive_one_closes_nothing w pts r success :
  silent is_close (receive_one w pts r success).
Proof. unfold receive_one. quiet. Qed.
#[local] Hint Resolve receive_one_closes_nothing : silent.

Lemma drain_closes_nothing w pts rounds : forall success,
  silent is_close (drain w pts rounds success).
Proof.
  induction rounds as [|r rounds IH]; intros success; cbn [drain]; quiet.
Qed.
#[local] Hint Resolve drain_closes_nothing : silent.




(** A frame of exactly 7680x4320 reaches the host. *)
Lemma largest_frame_is_emitted :
  filter is_output
    (trace (output_decoded_frame 5000 true 7680 4320 40 streaming))
  = [ObsSourceOutputVideo
       {| linesize := 30720; width := 7680; height := 4320;
          timestamp := 40000; full_range := true |}].
Proof. vm_compute. reflexivity. Qed.

(* ================================================================== *)
(** ** Where the code departs from its own rules *)
(* ================================================================== *)

(** C1 at a failing input.  The decoder answers one packet with two
    frames: the callback takes the decoder gate once, and each of the two
    calls of [output_decoded_frame] releases it, so the gate is released
    twice, the second time by a thread that does not hold it. *)
Theorem gate_released_twice_for_two_frames :
  count (is_lock decoder_mutex)
    (snd (on_video_frame
            (sample_world (avcc [[x65]]) 40 [small_frame 40; small_frame 41])
            7 (Some streaming)))
  = 1%nat
  /\ count (is_unlock decoder_mutex)
       (snd (on_video_frame
               (sample_world (avcc [[x65]]) 40
                             [small_frame 40; small_frame 41])
               7 (Some streaming)))
     = 2%nat
  /\ count is_output
       (snd (on_video_frame
               (sample_world (avcc [[x65]]) 40
                             [small_frame 40; small_frame 41])
               7 (Some streaming)))
     = 2%nat.
Proof. repeat split; vm_compute; reflexivity. Qed.

(** The opposite failure: a decoded frame without width ends the drain loop
    after [success] is set and before [output_decoded_frame] is reached, so
    neither side releases the gate. *)
Lemma gate_kept_after_rejected_frame :
  count (is_lock decoder_mutex)
    (snd (on_video_frame (sample_world (avcc [[x65]]) 40 [empty_frame]) 7
                         (Some streaming)))
  = 1%nat
  /\ count (is_unlock decoder_mutex)
       (snd (on_video_frame (sample_world (avcc [[x65]]) 40 [empty_frame]) 7
                            (Some streaming)))
     = 0%nat.
Proof. split; vm_compute; reflexivity. Qed.

(** With exactly one emitted frame the gate is released once, and before
    the frame is handed to the host. *)
Lemma gate_released_before_output :
  filter (fun e => is_lock decoder_mutex e || is_unlock decoder_mutex e
                   || is_output e)
    (snd (on_video_frame (sample_world (avcc [[x65]]) 40 [small_frame 40]) 7
                         (Some streaming)))
  = [PthreadMutexLock decoder_mutex; PthreadMutexUnlock decoder_mutex;
     ObsSourceOutputVideo
       {| linesize := 8; width := 2; height := 2; timestamp := 40000;
          full_range := true |}].
Proof. vm_compute. reflexivity. Qed.

(** C5 at a failing input.  The mapper takes a frame for the first of an
    activation when [has_first_frame] is clear, and that flag is cleared
    only by a [hang_source_deactivate] that finds the source active ("Reset
    timestamp tracking for next activation"); [hang_source_activate] never
    clears it.  After a session error the status callback has cleared
    [active], so the deactivation that precedes the next activation returns
    at once and the state of the first activation (first PTS 2000000 us,
    last output 2000000000 ns) survives.  The first frame of the second
    activation, PTS 1000 us, is then not recorded as first and is emitted
    with 2000000001 ns; the reference definition emits the first frame of
    an activation with 1000000 ns. *)
Theorem stale_timestamps_in_second_activation :
  (exists c,
     after_session_error = Some c
     /\ active c = false /\ has_first_frame c = true
     /\ hang_source_deactivate c = (tt, c, []))
  /\ (exists c,
        second_activation = Some c
        /\ active c = true /\ has_first_frame c = true
        /\ first_frame_pts_us c = 2000000
        /\ last_output_timestamp_ns c = 2000000000)
  /\ filter is_output
       (snd (on_video_frame
               (sample_world (avcc [[x65]]) 1000 [small_frame 1000]) 8
               second_activation))
     = [ObsSourceOutputVideo
          {| linesize := 8; width := 2; height := 2;
             timestamp := 2000000001; full_range := true |}]
  /\ (exists c,
        fst (on_video_frame
               (sample_world (avcc [[x65]]) 1000 [small_frame 1000]) 8
               second_activation) = Some c
        /\ first_frame_pts_us c = 2000000
        /\ first_frame_obs_time_ns c = 5000)
  /\ snd (reference_timestamps
            {| ref_has_first_frame := false; ref_first_pts_us := 0;
               ref_first_host_time_ns := 0; ref_last_output_ns := 0 |}
            [(1000, 5000)])
     = [1000000].
Proof.
  split; [|split; [|split; [|split]]].
  - eexists. split; [vm_compute; reflexivity|]. repeat split.
  - eexists. split; [vm_compute; reflexivity|]. repeat split.
  - vm_compute. reflexivity.
  - eexists. split; [vm_compute; reflexivity|]. repeat split.
  - reflexivity.
Qed.

(** C2 at a failing input.  The origin (1) and the session (2) are up
    when the subscription to the broadcast fails: the status callback closes
    neither, it only clears [active]; and since [hang_source_deactivate]
    returns at once on an inactive source, it does not close them later
    either. *)
Theorem failed_subscribe_leaves_session_open :
  (active connecting = true /\ origin_id connecting = 1
   /\ session_id connecting = 2)
  /\ filter is_close
       (snd (on_session_status no_broadcast_world 0 (Some connecting))) = []
  /\ (exists c,
        after_failed_subscribe = Some c
        /\ active c = false /\ origin_id c = 1 /\ session_id c = 2
        /\ hang_source_deactivate c = (tt, c, [])).
Proof.
  split; [repeat split|]. split; [vm_compute; reflexivity|].
  eexists. split; [vm_compute; reflexivity|]. repeat split.
Qed.

(* ================================================================== *)
(** ** The normalizer on arbitrary input *)
(* ================================================================== *)

Lemma byte_of_Z_u8 (b : byte) : byte_of_Z (u8 b) = b.
Proof.
  unfold byte_of_Z, u8, Int.wrap8. change (2 ^ 8) with 256.
  pose proof (Byte.to_N_bounded b) as Hb.
  rewrite Z.mod_small by lia. rewrite N2Z.id, Byte.of_to_N. reflexivity.
Qed.

Lemma byte_of_Z_mod (z : Z) : byte_of_Z z = byte_of_Z (z mod 256).
Proof.
  unfold byte_of_Z, Int.wrap8. change (2 ^ 8) with 256.
  rewrite Z.mod_mod by lia. reflexivity.
Qed.

(** The encoder of lengths inverts the big-endian value of four bytes. *)
Lemma be32_be32_decode (b0 b1 b2 b3 : byte) :
  be32 (be32_decode b0 b1 b2 b3) = [b0; b1; b2; b3].
Proof.
  unfold be32, be32_decode.
  pose proof (u8_range b0) as H0. pose proof (u8_range b1) as H1.
  pose proof (u8_range b2) as H2. pose proof (u8_range b3) as H3.
  rewrite !Z.shiftr_div_pow2 by lia.
  change (2 ^ 24) with 16777216. change (2 ^ 16) with 65536.
  change (2 ^ 8) with 256.
  set (v := u8 b0 * 16777216 + u8 b1 * 65536 + u8 b2 * 256 + u8 b3).
  rewrite (byte_of_Z_mod (v / 16777216)), (byte_of_Z_mod (v / 65536)),
    (byte_of_Z_mod (v / 256)), (byte_of_Z_mod v).
  replace ((v / 16777216) mod 256) with (u8 b0)
    by (subst v; Z.div_mod_to_equations; lia).
  replace ((v / 65536) mod 256) with (u8 b1)
    by (subst v; Z.div_mod_to_equations; lia).
  replace ((v / 256) mod 256) with (u8 b2)
    by (subst v; Z.div_mod_to_equations; lia).
  replace (v mod 256) with (u8 b3)
    by (subst v; Z.div_mod_to_equations; lia).
  rewrite !byte_of_Z_u8. reflexivity.
Qed.

Lemma be32_decode_range (b0 b1 b2 b3 : byte) :
  0 <= be32_decode b0 b1 b2 b3 < 2 ^ 32.
Proof.
  unfold be32_decode.
  pose proof (u8_range b0). pose proof (u8_range b1).
  pose proof (u8_range b2). pose proof (u8_range b3). lia.
Qed.

(** Every byte string reads as complete units followed either by fewer than
    four bytes or by a length field that announces more than is left. *)
Lemma avcc_decompose (n : nat) : forall data : list byte,
  (length data <= n)%nat ->
  exists units tail,
    data = avcc units ++ tail
    /\ Forall (fun u => len u < 2 ^ 32) units
    /\ (len tail < 4
        \/ exists b0 b1 b2 b3 rest,
             tail = b0 :: b1 :: b2 :: b3 :: rest
             /\ len rest < be32_decode b0 b1 b2 b3).
Proof.
  induction n as [|n IH]; intros data Hn.
  - exists [], data. split; [reflexivity|]. split; [constructor|].
    left. unfold len. lia.
  - destruct data as [|b0 [|b1 [|b2 [|b3 rest]]]];
      try (eexists [], _; split; [reflexivity|]; split; [constructor|];
           left; unfold len; cbn [length]; lia).
    destruct (Z.lt_ge_cases (len rest) (be32_decode b0 b1 b2 b3))
      as [Hover|Hfit].
    + exists [], (b0 :: b1 :: b2 :: b3 :: rest).
      split; [reflexivity|]. split; [constructor|].
      right. exists b0, b1, b2, b3, rest. split; [reflexivity|exact Hover].
    + pose proof (be32_decode_range b0 b1 b2 b3) as Hrange.
      set (L := be32_decode b0 b1 b2 b3) in *.
      assert (Hu : len (firstn (Z.to_nat L) rest) = L).
      { unfold len in *. rewrite length_firstn. lia. }
      destruct (IH (skipn (Z.to_nat L) rest)) as (units & tail & Hd & Hall & Ht).
      { rewrite length_skipn. cbn [length] in Hn. lia. }
      exists (firstn (Z.to_nat L) rest :: units), tail.
      split; [|split; [constructor; [lia|exact Hall]|exact Ht]].
      rewrite avcc_cons, Hu. unfold L at 1. rewrite be32_be32_decode.
      cbn [app]. rewrite <- !app_assoc, <- Hd, firstn_skipn. reflexivity.
Qed.

(** The conversion of complete units and a short tail, with the block it
    returns. *)
Lemma convert_units_tail_block (al : allocator) (units : list (list byte))
    (tail : list byte) :
  Forall (fun u => len u < 2 ^ 32) units ->
  len tail < 4 ->
  len (avcc units ++ tail) <= Int.PTRDIFF_MAX ->
  bzalloc_ok al (len (avcc units ++ tail) + 1024) = true ->
  convert_mp4_nal_units_to_annex_b al (avcc units ++ tail)
  = ConvOk (annex_b units
            ++ zeroed (len (avcc units ++ tail) + 1024 - len (avcc units)))
           (len (annex_b units)).
Proof.
  intros Hall Htail Hfits Halloc.
  destruct (convert_units al units tail Hall Hfits Halloc) as [fuel ->].
  pose proof (len_nonneg (avcc units)) as Ha0.
  pose proof (len_nonneg tail) as Ht0.
  apply annex_b_loop_done; [exact Hfits|rewrite len_app; lia..].
Qed.

(** X1.  The conversion succeeds only on well-formed input: whenever it
    returns [true], the input was a sequence of complete length-prefixed
    units followed by fewer than four bytes, the output is those units in
    Annex-B form, and the output is exactly as long as the input without
    its stray bytes. *)
Theorem conversion_success_means_well_formed (al : allocator)
    (data out_data : list byte) (out_size : Z) :
  len data <= Int.PTRDIFF_MAX ->
  convert_mp4_nal_units_to_annex_b al data = ConvOk out_data out_size ->
  exists units tail,
    data = avcc units ++ tail
    /\ Forall (fun u => len u < 2 ^ 32) units
    /\ len tail < 4
    /\ packet_bytes out_data out_size = annex_b units
    /\ out_size = len data - len tail.
Proof.
  intros Hfits Hconv.
  destruct (avcc_decompose (length data) data (le_n _))
    as (units & tail & Hdata & Hall & Htail).
  subst data.
  destruct Htail as [Hshort|(b0 & b1 & b2 & b3 & rest & -> & Hover)].
  - exists units, tail.
    assert (Halloc : bzalloc_ok al (len (avcc units ++ tail) + 1024) = true).
    { unfold convert_mp4_nal_units_to_annex_b in Hconv.
      pose proof (len_nonneg (avcc units ++ tail)).
      unfold Int.PTRDIFF_MAX in Hfits.
      rewrite size_add_small in Hconv by lia.
      destruct (bzalloc_ok al _); [reflexivity|discriminate]. }
    rewrite (convert_units_tail_block al units tail Hall Hshort Hfits Halloc)
      in Hconv.
    injection Hconv as <- <-.
    repeat split; try assumption.
    + apply packet_bytes_written.
    + rewrite len_app, len_annex_b, len_avcc. lia.
  - rewrite (convert_overrun al units b0 b1 b2 b3 rest Hall Hover Hfits)
      in Hconv.
    discriminate.
Qed.

Lemma conversion_success_means_well_formed_witness :
  exists units tail,
    [x00; x00; x00; x02; x65; x88; x07] = avcc units ++ tail
    /\ Forall (fun u => len u < 2 ^ 32) units
    /\ len tail < 4
    /\ packet_bytes
         ([x00; x00; x00; x01; x65; x88]
          ++ zeroed (len [x00; x00; x00; x02; x65; x88; x07] + 1024 - 6)) 6
       = annex_b units
    /\ 6 = len [x00; x00; x00; x02; x65; x88; x07] - len tail.
Proof.
  apply (conversion_success_means_well_formed always_alloc
           [x00; x00; x00; x02; x65; x88; x07]).
  - vm_compute. discriminate.
  - vm_compute. reflexivity.
Defined.

(** X2.  Apart from a failed allocation of the output block, the only
    cause of failure is a length field that overruns the input: when the
    block was granted and the conversion returns [false], the input is
    complete units followed by four length bytes that announce more than is
    left, and the failure was logged. *)
Theorem conversion_failure_means_overrun (al : allocator) (data : list byte)
    (logged : list log_level) :
  len data <= Int.PTRDIFF_MAX ->
  bzalloc_ok al (len data + 1024) = true ->
  convert_mp4_nal_units_to_annex_b al data = ConvFail logged ->
  logged = [LOG_ERROR]
  /\ exists units b0 b1 b2 b3 rest,
       data = avcc units ++ b0 :: b1 :: b2 :: b3 :: rest
       /\ Forall (fun u => len u < 2 ^ 32) units
       /\ len rest < be32_decode b0 b1 b2 b3.
Proof.
  intros Hfits Halloc Hconv.
  destruct (avcc_decompose (length data) data (le_n _))
    as (units & tail & Hdata & Hall & Htail).
  subst data.
  destruct Htail as [Hshort|(b0 & b1 & b2 & b3 & rest & -> & Hover)].
  - rewrite (convert_units_tail_block al units tail Hall Hshort Hfits Halloc)
      in Hconv.
    discriminate.
  - rewrite (convert_overrun al units b0 b1 b2 b3 rest Hall Hover Hfits),
      Halloc in Hconv.
    injection Hconv as <-. split; [reflexivity|].
    exists units, b0, b1, b2, b3, rest. repeat split; assumption.
Qed.

Lemma conversion_failure_means_overrun_witness :
  [LOG_ERROR] = [LOG_ERROR]
  /\ exists units b0 b1 b2 b3 rest,
       [x00; x00; x00; x09; x41] = avcc units ++ b0 :: b1 :: b2 :: b3 :: rest
       /\ Forall (fun u => len u < 2 ^ 32) units
       /\ len rest < be32_decode b0 b1 b2 b3.
Proof.
  apply (conversion_failure_means_overrun always_alloc
           [x00; x00; x00; x09; x41] [LOG_ERROR]).
  - vm_compute. discriminate.
  - reflexivity.
  - vm_compute. reflexivity.
Defined.

(** X3.  The headroom of 1024 bytes is never used up: the start code
    takes the place of the length field, so the growth branch is dead and
    the result does not depend on what [brealloc] would answer. *)
Theorem conversion_never_reallocates (al al' : allocator) (data : list byte) :
  len data <= Int.PTRDIFF_MAX ->
  bzalloc_ok al (len data + 1024) = bzalloc_ok al' (len data + 1024) ->
  convert_mp4_nal_units_to_annex_b al data
  = convert_mp4_nal_units_to_annex_b al' data.
Proof.
  intros Hfits Hsame.
  destruct (avcc_decompose (length data) data (le_n _))
    as (units & tail & Hdata & Hall & Htail).
  subst data.
  destruct (bzalloc_ok al' _) eqn:Halloc'.
  - destruct Htail as [Hshort|(b0 & b1 & b2 & b3 & rest & -> & Hover)].
    + rewrite !convert_units_tail_block by assumption. reflexivity.
    + rewrite !convert_overrun by assumption. rewrite Hsame, Halloc'.
      reflexivity.
  - unfold convert_mp4_nal_units_to_annex_b.
    pose proof (len_nonneg (avcc units ++ tail)).
    unfold Int.PTRDIFF_MAX in Hfits.
    rewrite size_add_small by lia. rewrite Hsame, Halloc'. reflexivity.
Qed.

Lemma conversion_never_reallocates_witness :
  convert_mp4_nal_units_to_annex_b always_alloc [x00; x00; x00; x01; x65]
  = convert_mp4_nal_units_to_annex_b
      {| bzalloc_ok := fun _ => true; brealloc_ok := fun _ => false |}
      [x00; x00; x00; x01; x65].
Proof.
  apply (conversion_never_reallocates always_alloc
           {| bzalloc_ok := fun _ => true; brealloc_ok := fun _ => false |}
           [x00; x00; x00; x01; x65]).
  - vm_compute. discriminate.
  - reflexivity.
Defined.

(* ================================================================== *)
(** ** The video decoder facade *)
(* ================================================================== *)

Lemma filter_logs (p : event -> bool) (levels : list log_level) :
  (forall l, p (Clog l) = false) -> filter p (map Clog levels) = [].
Proof.
  intros Hp. induction levels as [|l ls IH]; [reflexivity|].
  cbn [map filter]. rewrite Hp. exact IH.
Qed.

Lemma nvdec_decoder_init_outcome (w : world)
    (codec_str : option string) (description : option (list byte))
    (c : hang_source) :
  result (nvdec_decoder_init w codec_str description c)
  = codec_opens w (fst (parse_codec_id codec_str))
  /\ nvdec_context (final (nvdec_decoder_init w codec_str description c))
     = (if codec_opens w (fst (parse_codec_id codec_str))
        then Some {| codec_ctx :=
                       Some {| codec_id := fst (parse_codec_id codec_str);
                               extradata := extradata_for w description |};
                     sws_ctx := false |}
        else None)
  /\ count is_decoder_alloc
       (trace (nvdec_decoder_init w codec_str description c)) = 1%nat
  /\ count is_decoder_free
       (trace (nvdec_decoder_init w codec_str description c))
     = (if codec_opens w (fst (parse_codec_id codec_str)) then 0 else 1)%nat.
Proof.
  unfold nvdec_decoder_init, codec_opens, extradata_for.
  destruct (parse_codec_id codec_str) as [id logged]. cbn [fst].
  run. rewrite log_run. run.
  assert (Ea : filter is_decoder_alloc (map Clog logged) = [])
    by (apply filter_logs; reflexivity).
  assert (Ef : filter is_decoder_free (map Clog logged) = [])
    by (apply filter_logs; reflexivity).
  unfold count.
  assert (Hend : forall p l1,
            filter p (map Clog logged) = [] ->
            filter p (map Clog logged ++ l1) = filter p l1)
    by (intros p l1 Hp; rewrite filter_app, Hp; reflexivity).
  destruct (avcodec_find_decoder w id); cbn [negb andb]; run;
    [|cbn [filter is_decoder_alloc is_decoder_free];
      rewrite !Hend by assumption; repeat split].
  destruct (avcodec_alloc_context3 w); cbn [negb andb]; run;
    [|cbn [filter is_decoder_alloc is_decoder_free];
      rewrite !Hend by assumption; repeat split].
  destruct description as [d|];
    [destruct (len d >? 0); cbn [andb]; run;
     [destruct (av_mallocz w); run|]|];
    (destruct (Z.ltb_spec (avcodec_open2 w) 0) as [Hopen|Hopen];
     [assert (Eo : (0 <=? avcodec_open2 w) = false) by (apply Z.leb_gt; lia)
     |assert (Eo : (0 <=? avcodec_open2 w) = true) by (apply Z.leb_le; lia)];
     rewrite Eo; run; cbn [filter is_decoder_alloc is_decoder_free];
     rewrite !Hend by assumption; repeat split).
Qed.


Lemma nvdec_decoder_destroy_outcome (c : hang_source) :
  nvdec_context (final (nvdec_decoder_destroy c)) = None
  /\ nvdec_decoder_destroy (final (nvdec_decoder_destroy c))
     = (tt, final (nvdec_decoder_destroy c), [])
  /\ count is_decoder_free (trace (nvdec_decoder_destroy c))
     = (if is_some (nvdec_context c) then 1 else 0)%nat.
Proof.
  unfold nvdec_decoder_destroy. run.
  destruct (nvdec_context c) as [[[ctx|] [|]]|] eqn:E; run;
    cbn [is_some]; run; try rewrite E; repeat split.
Qed.

(** X5.  [nvdec_decoder_destroy] is safe on a context without decoder and
    safe to repeat: afterwards the context holds no decoder, a second call
    does nothing, and the decoder block is freed exactly when there was
    one. *)
Theorem nvdec_decoder_destroy_once (c : hang_source) :
  nvdec_context (final (nvdec_decoder_destroy c)) = None
  /\ nvdec_decoder_destroy (final (nvdec_decoder_destroy c))
     = (tt, final (nvdec_decoder_destroy c), [])
  /\ count is_decoder_free (trace (nvdec_decoder_destroy c))
     = (if is_some (nvdec_context c) then 1 else 0)%nat.
Proof. apply nvdec_decoder_destroy_outcome. Qed.

(** X6.  Whatever [nvdec_decoder_init] did, a following
    [nvdec_decoder_destroy] leaves no decoder behind, and over the two calls
    the block of the decoder is allocated once and freed once. *)
Theorem nvdec_decoder_init_destroy (w : world) (codec_str : option string)
    (description : option (list byte)) (c : hang_source) :
  nvdec_context
    (final ((_ <- nvdec_decoder_init w codec_str description ;;
             nvdec_decoder_destroy) c)) = None
  /\ count is_decoder_alloc
       (trace ((_ <- nvdec_decoder_init w codec_str description ;;
                nvdec_decoder_destroy) c)) = 1%nat
  /\ count is_decoder_free
       (trace ((_ <- nvdec_decoder_init w codec_str description ;;
                nvdec_decoder_destroy) c)) = 1%nat.
Proof.
  rewrite final_bind, trace_bind.
  destruct (nvdec_decoder_init_outcome w codec_str description c)
    as (_ & Hctx & Halloc & Hfree).
  destruct (nvdec_decoder_destroy_outcome
              (final (nvdec_decoder_init w codec_str description c)))
    as (Hnone & _ & Hfree2).
  split; [exact Hnone|].
  unfold count in *. rewrite !filter_app, !length_app, Halloc, Hfree, Hfree2,
    Hctx.
  assert (Hd : forall c0, filter is_decoder_alloc
                            (trace (nvdec_decoder_destroy c0)) = []).
  { change (silent is_decoder_alloc nvdec_decoder_destroy).
    unfold nvdec_decoder_destroy. quiet. }
  rewrite Hd.
  destruct (codec_opens w (fst (parse_codec_id codec_str))); split; reflexivity.
Qed.

(* ================================================================== *)
(** ** Emission and the buffers of the decode path *)
(* ================================================================== *)

Lemma calls_then_silence (p : event -> bool) {A B} (m : M A) (k : A -> M B)
    (l : list event) :
  calls p m l -> (forall a, silent p (k a)) -> calls p (bind m k) l.
Proof.
  intros Hm Hk c. rewrite trace_bind, filter_app, Hm, Hk. apply app_nil_r.
Qed.

Lemma calls_call_then (p : event -> bool) {B} (e : event) (k : unit -> M B)
    (l : list event) :
  p e = true -> (forall a, calls p (k a) l) ->
  calls p (bind (call e) k) (e :: l).
Proof.
  intros He Hk c. rewrite trace_bind, filter_app, Hk. cbn. rewrite He.
  reflexivity.
Qed.

Lemma calls_in_silence (p : event -> bool) {A} (m : M A) :
  silent p m -> calls p m [].
Proof. intros Hm. exact Hm. Qed.

Create HintDb calls.

(** The calls that satisfy [p], read off statement by statement; every
    branch has to give the same list. *)
Ltac same_calls :=
  repeat first
    [ progress cbv beta zeta
    | progress cbn [negb andb orb]
    | solve [auto with calls nocore]
    | apply calls_in_silence; solve [quiet]
    | apply calls_call; reflexivity
    | apply calls_call_then; [reflexivity|intros ?]
    | apply calls_after_silence; [solve [quiet]|intros ?]
    | apply calls_then_silence; [|intros ?; solve [quiet]]
    | match goal with
      | |- calls _ (when ?b _) _ => destruct b eqn:?; cbn [when]
      | |- calls _ (if ?b then _ else _) _ => destruct b eqn:?
      | |- calls _ (match ?x with _ => _ end) _ => destruct x
      end ].

Lemma map_timestamp_gate now_ns pts_us :
  silent is_gate_or_output (map_timestamp now_ns pts_us).
Proof. unfold map_timestamp. quiet. Qed.
#[local] Hint Resolve map_timestamp_gate : silent.

Lemma map_timestamp_rgba now_ns pts_us :
  silent is_rgba_event (map_timestamp now_ns pts_us).
Proof. unfold map_timestamp. quiet. Qed.
#[local] Hint Resolve map_timestamp_rgba : silent.

(** X7.  [output_decoded_frame] releases the decoder gate exactly once on
    every path and never takes it; when it hands a frame to the host it does
    so after the release, with the timestamp of the mapper, and it does so
    exactly when it was given a buffer, the dimensions pass the check, and
    the source is active and present. *)
Theorem output_decoded_frame_releases_gate (now_ns : Z) (data : bool)
    (width height pts_us : Z) (c : hang_source) :
  filter is_gate_or_output
    (trace (output_decoded_frame now_ns data width height pts_us c))
  = PthreadMutexUnlock decoder_mutex
    :: (if data && negb (invalid_dimensions width height)
           && active c && source c
        then [ObsSourceOutputVideo
                {| linesize := Int.wrap32 (width * 4);
                   width := width;
                   height := height;
                   timestamp := result (map_timestamp now_ns pts_us c);
                   full_range := true |}]
        else []).
Proof.
  unfold output_decoded_frame.
  destruct data; cbn [negb andb]; [|reflexivity].
  destruct (invalid_dimensions width height); cbn [negb andb]; [reflexivity|].
  run. rewrite map_timestamp_run.
  destruct (has_first_frame c), (active c), (source c); reflexivity.
Qed.

(** X8.  [output_decoded_frame] frees the RGBA buffer it is given exactly
    once, whether the frame is rejected, dropped because the source is
    inactive, or handed to the host; the host call comes before the free. *)
Theorem output_decoded_frame_frees_buffer (now_ns : Z)
    (width height pts_us : Z) (c : hang_source) :
  exists handed,
    filter (fun e => is_output e || is_rgba_free e)
      (trace (output_decoded_frame now_ns true width height pts_us c))
    = handed ++ [Bfree rgba_data]
    /\ Forall (fun e => is_output e = true) handed.
Proof.
  unfold output_decoded_frame. cbn [negb].
  destruct (invalid_dimensions width height);
    [exists []; split; [reflexivity|constructor]|].
  run. rewrite map_timestamp_run.
  destruct (has_first_frame c), (active c), (source c);
    (eexists [_]; split; [reflexivity|repeat constructor])
    || (exists []; split; [reflexivity|constructor]).
Qed.

Lemma among_after_silence (p : event -> bool) {A B} (m : M A) (k : A -> M B)
    (ls : list (list event)) :
  silent p m -> (forall a, calls_among p (k a) ls) ->
  calls_among p (bind m k) ls.
Proof.
  intros Hm Hk c. rewrite trace_bind, filter_app, Hm. apply Hk.
Qed.

Lemma among_calls (p : event -> bool) {A} (m : M A) (l : list event)
    (ls : list (list event)) :
  calls p m l -> In l ls -> calls_among p m ls.
Proof. intros Hm Hin c. rewrite Hm. exact Hin. Qed.

Lemma among_silent (p : event -> bool) {A} (m : M A)
    (ls : list (list event)) :
  silent p m -> In [] ls -> calls_among p m ls.
Proof. intros Hm Hin c. rewrite Hm. exact Hin. Qed.

(** The calls that satisfy [p] when the branches differ. *)
Ltac one_of_calls :=
  repeat first
    [ progress cbv beta zeta
    | progress cbn [negb andb orb]
    | apply among_silent; [solve [quiet]|cbn; auto]
    | eapply among_calls; [solve [same_calls]|cbn; auto]
    | apply among_after_silence; [solve [quiet]|intros ?]
    | match goal with
      | |- calls_among _ (when ?b _) _ => destruct b eqn:?; cbn [when]
      | |- calls_among _ (if ?b then _ else _) _ => destruct b eqn:?
      | |- calls_among _ (match ?x with _ => _ end) _ => destruct x
      end ].

Lemma output_decoded_frame_frees now_ns width height pts_us :
  calls is_rgba_event
    (output_decoded_frame now_ns true width height pts_us) [Bfree rgba_data].
Proof. unfold output_decoded_frame. same_calls. Qed.
#[local] Hint Resolve output_decoded_frame_frees : calls.

Lemma receive_one_buffers (w : world) (pts : Z) (r : drain_round)
    (success : bool) :
  calls_among is_rgba_event (receive_one w pts r success)
    [[]; [Bzalloc rgba_data (rgba_size r) true; Bfree rgba_data]].
Proof.
  unfold receive_one.
  destruct (bzalloc_ok (heap w) (rgba_size r)); one_of_calls.
Qed.

Lemma paired_app (l1 l2 : list event) (size : Z) :
  In l1 [[]; [Bzalloc rgba_data size true; Bfree rgba_data]] ->
  paired l2 = true -> paired (l1 ++ l2) = true.
Proof.
  intros [<-|[<-|[]]] H2; exact H2.
Qed.

Lemma buffers_paired_silent {A} (m : M A) :
  silent is_rgba_event m -> buffers_paired m.
Proof. intros Hm c. rewrite Hm. reflexivity. Qed.

Lemma buffers_paired_after_silence {A B} (m : M A) (k : A -> M B) :
  silent is_rgba_event m -> (forall a, buffers_paired (k a)) ->
  buffers_paired (bind m k).
Proof. intros Hm Hk c. rewrite trace_bind, filter_app, Hm. apply Hk. Qed.

Lemma buffers_paired_then_silence {A B} (m : M A) (k : A -> M B) :
  buffers_paired m -> (forall a, silent is_rgba_event (k a)) ->
  buffers_paired (bind m k).
Proof.
  intros Hm Hk c. rewrite trace_bind, filter_app, Hk, app_nil_r. apply Hm.
Qed.

Lemma drain_buffers (w : world) (pts : Z) (rounds : list drain_round) :
  forall success, buffers_paired (drain w pts rounds success).
Proof.
  induction rounds as [|r rounds IH]; intros success c; cbn [drain];
    rewrite trace_bind, filter_app;
    eapply paired_app; try apply receive_one_buffers.
  - destruct (result (receive_one w pts would_block success c)). reflexivity.
  - destruct (result (receive_one w pts r success c)) as [[|] success'].
    + apply IH.
    + reflexivity.
Qed.

(** X9.  Over a whole call of [decode_frame], whatever the decoder answers
    and whichever path each frame takes, every RGBA buffer that was
    allocated is freed exactly once, before the next one is allocated, and
    no buffer is freed that was not allocated. *)
Theorem decode_frame_pairs_buffers (w : world) (data : list byte) (pts : Z)
    (c : hang_source) :
  paired (filter is_rgba_event (trace (decode_frame w data pts c))) = true.
Proof.
  revert c. change (buffers_paired (decode_frame w data pts)).
  unfold decode_frame.
  apply buffers_paired_after_silence;
    [unfold run_convert_mp4_nal_units_to_annex_b; quiet|intros conversion].
  destruct conversion as [converted converted_size|logged|];
    [|apply buffers_paired_silent; quiet..].
  apply buffers_paired_after_silence; [quiet|intros _].
  destruct (negb (av_packet_alloc w)); [apply buffers_paired_silent; quiet|].
  apply buffers_paired_after_silence; [quiet|intros _].
  apply buffers_paired_after_silence; [quiet|intros _].
  destruct (avcodec_send_packet w <? 0); [apply buffers_paired_silent; quiet|].
  apply buffers_paired_then_silence; [apply drain_buffers|intros ?; quiet].
Qed.

Lemma output_decoded_frame_keeps_converted now_ns data width height pts_us :
  silent is_converted_event
    (output_decoded_frame now_ns data width height pts_us).
Proof. unfold output_decoded_frame, map_timestamp. quiet. Qed.
#[local] Hint Resolve output_decoded_frame_keeps_converted : silent.

Lemma receive_one_keeps_converted w pts r success :
  silent is_converted_event (receive_one w pts r success).
Proof. unfold receive_one. quiet. Qed.
#[local] Hint Resolve receive_one_keeps_converted : silent.

Lemma drain_keeps_converted w pts rounds : forall success,
  silent is_converted_event (drain w pts rounds success).
Proof.
  induction rounds as [|r rounds IH]; intros success; cbn [drain]; quiet.
Qed.
#[local] Hint Resolve drain_keeps_converted : silent.

(** X10.  The block of the conversion is released exactly once whenever it
    was granted.  For every buffer that fits the address space,
    [decode_frame] makes one allocation of [size + 1024] bytes; when it is
    granted the block is freed once, by [decode_frame] on each path that
    follows a successful conversion (no packet, rejected packet, drained
    decoder) and by the conversion itself when it fails; when [bzalloc]
    returns [NULL] nothing is freed. *)
Theorem decode_frame_frees_converted_packet (w : world) (data : list byte)
    (pts : Z) (c : hang_source) :
  len data <= Int.PTRDIFF_MAX ->
  filter is_converted_event (trace (decode_frame w data pts c))
  = if bzalloc_ok (heap w) (len data + 1024)
    then [Bzalloc converted_data (len data + 1024) true;
          Bfree converted_data]
    else [].
Proof.
  intros Hfits. rewrite decode_frame_run.
  pose proof (convert_returns (heap w) data Hfits) as Hreturns.
  pose proof (len_nonneg data) as Hlen.
  assert (Esize : Int.size_add (len data) 1024 = len data + 1024)
    by (unfold Int.PTRDIFF_MAX in Hfits; apply size_add_small; lia).
  rewrite Esize. revert c.
  destruct (bzalloc_ok (heap w) (len data + 1024)) eqn:Halloc.
  - destruct (convert_mp4_nal_units_to_annex_b (heap w) data)
      as [converted converted_size|logged|]; [| |contradiction];
      match goal with
      | |- forall c, filter ?p (trace (?m c)) = ?l => change (calls p m l)
      end;
      same_calls.
  - unfold convert_mp4_nal_units_to_annex_b in *.
    rewrite Esize, Halloc in *.
    match goal with
    | |- forall c, filter ?p (trace (?m c)) = [] => change (silent p m)
    end.
    quiet.
Qed.

Lemma decode_frame_frees_converted_packet_witness :
  filter is_converted_event
    (trace (decode_frame
              (sample_world (avcc [[x65]] ++ [x00; x00; x00; x09; x41]) 40 [])
              (avcc [[x65]] ++ [x00; x00; x00; x09; x41]) 40 streaming))
  = [Bzalloc converted_data 1034 true; Bfree converted_data].
Proof.
  apply (decode_frame_frees_converted_packet
           (sample_world (avcc [[x65]] ++ [x00; x00; x00; x09; x41]) 40 [])
           (avcc [[x65]] ++ [x00; x00; x00; x09; x41]) 40 streaming).
  vm_compute. discriminate.
Defined.

Lemma map_timestamp_keeps_frames now_ns pts_us p :
  (forall e, is_frame_alloc e = false -> is_frame_free e = false ->
             is_packet_event e = false -> p e = false) ->
  silent p (map_timestamp now_ns pts_us).
Proof.
  intros Hp. unfold map_timestamp.
  repeat first
    [ progress cbv beta zeta
    | apply silent_ret | apply silent_get | apply silent_set
    | apply silent_call; apply Hp; reflexivity
    | apply silent_bind; [|intros ?]
    | match goal with
      | |- silent _ (if ?b then _ else _) => destruct b
      end ].
Qed.

Lemma output_decoded_frame_keeps_ffmpeg now_ns data width height pts_us p :
  (forall e, is_frame_alloc e = false -> is_frame_free e = false ->
             is_packet_event e = false -> p e = false) ->
  silent p (output_decoded_frame now_ns data width height pts_us).
Proof.
  intros Hp. unfold output_decoded_frame.
  repeat first
    [ progress cbv beta zeta
    | apply silent_ret | apply silent_get | apply silent_set
    | apply map_timestamp_keeps_frames; exact Hp
    | apply silent_call; apply Hp; reflexivity
    | apply silent_when
    | apply silent_bind; [|intros ?]
    | match goal with
      | |- silent _ (if ?b then _ else _) => destruct b
      end ].
Qed.

Lemma output_decoded_frame_allocates_no_frame now_ns data width height pts_us :
  silent is_frame_alloc (output_decoded_frame now_ns data width height pts_us).
Proof.
  apply output_decoded_frame_keeps_ffmpeg. intros e H _ _. exact H.
Qed.

Lemma output_decoded_frame_frees_no_frame now_ns data width height pts_us :
  silent is_frame_free (output_decoded_frame now_ns data width height pts_us).
Proof.
  apply output_decoded_frame_keeps_ffmpeg. intros e _ H _. exact H.
Qed.

Lemma output_decoded_frame_keeps_packet now_ns data width height pts_us :
  silent is_packet_event (output_decoded_frame now_ns data width height pts_us).
Proof.
  apply output_decoded_frame_keeps_ffmpeg. intros e _ _ H. exact H.
Qed.
#[local] Hint Resolve output_decoded_frame_allocates_no_frame
  output_decoded_frame_frees_no_frame output_decoded_frame_keeps_packet
  : silent.

Lemma receive_one_allocates_frame w pts r success :
  calls is_frame_alloc (receive_one w pts r success) [AvFrameAlloc].
Proof. unfold receive_one. same_calls. Qed.

Lemma receive_one_frees_frame w pts r success :
  av_frame_alloc_ok r = true ->
  calls is_frame_free (receive_one w pts r success) [AvFrameFree].
Proof. intros Hok. unfold receive_one. rewrite Hok. same_calls. Qed.

Lemma receive_one_keeps_packet w pts r success :
  silent is_packet_event (receive_one w pts r success).
Proof. unfold receive_one. quiet. Qed.
#[local] Hint Resolve receive_one_keeps_packet : silent.

Lemma drain_keeps_packet w pts rounds : forall success,
  silent is_packet_event (drain w pts rounds success).
Proof.
  induction rounds as [|r rounds IH]; intros success; cbn [drain]; quiet.
Qed.
#[local] Hint Resolve drain_keeps_packet : silent.

Lemma drain_frees_frames (w : world) (pts : Z) (rounds : list drain_round) :
  Forall (fun r => av_frame_alloc_ok r = true) rounds ->
  forall success c,
    count is_frame_alloc (trace (drain w pts rounds success c))
    = count is_frame_free (trace (drain w pts rounds success c)).
Proof.
  unfold count.
  induction 1 as [|r rounds Hr Hrounds IH]; intros success c; cbn [drain];
    rewrite trace_bind, !filter_app, !length_app, receive_one_allocates_frame.
  - rewrite (receive_one_frees_frame w pts would_block success eq_refl).
    destruct (result (receive_one w pts would_block success c)). reflexivity.
  - rewrite (receive_one_frees_frame w pts r success Hr).
    destruct (result (receive_one w pts r success c)) as [[|] success'].
    + rewrite IH. reflexivity.
    + reflexivity.
Qed.

(** X11.  [decode_frame] frees the FFmpeg objects it allocates: the packet
    is freed exactly once when [av_packet_alloc] gave one (and not at all
    otherwise), before the decoder is asked for frames; and as long as
    [av_frame_alloc] succeeds, every frame allocated in the loop is freed,
    on each of the exits of the loop body. *)
Theorem decode_frame_frees_packet_and_frames (w : world) (data : list byte) (pts : Z)
    (c : hang_source) :
  Forall (fun r => av_frame_alloc_ok r = true) (avcodec_receive_frame w) ->
  filter is_packet_event (trace (decode_frame w data pts c))
  = match convert_mp4_nal_units_to_annex_b (heap w) data with
    | ConvOk _ _ =>
      AvPacketAlloc :: (if av_packet_alloc w then [AvPacketFree] else [])
    | _ => []
    end
  /\ count is_frame_alloc (trace (decode_frame w data pts c))
     = count is_frame_free (trace (decode_frame w data pts c)).
Proof.
  intros Hframes. rewrite !decode_frame_run.
  destruct (convert_mp4_nal_units_to_annex_b (heap w) data)
    as [converted converted_size|logged|].
  - destruct (av_packet_alloc w); cbn [negb]; [|split; reflexivity].
    destruct (avcodec_send_packet w <? 0); [split; reflexivity|].
    split.
    + revert c.
      match goal with
      | |- forall c, filter ?p (trace (?m c)) = ?l => change (calls p m l)
      end.
      same_calls.
    + pose proof (drain_frees_frames w pts _ Hframes false c) as Hd.
      unfold count in *.
      rewrite !trace_bind, !filter_app, !length_app.
      cbn [trace call snd fst result final filter is_frame_alloc
           is_frame_free length Nat.add].
      rewrite Hd. reflexivity.
  - split.
    + revert c.
      match goal with
      | |- forall c, filter ?p (trace (?m c)) = [] => change (silent p m)
      end.
      quiet.
    + unfold count.
      match goal with
      | |- Datatypes.length (filter _ (trace (?m c))) = _ =>
        assert (Ha : silent is_frame_alloc m) by quiet;
        assert (Hf : silent is_frame_free m) by quiet
      end.
      rewrite Ha, Hf. reflexivity.
  - split; reflexivity.
Qed.

Lemma decode_frame_frees_packet_and_frames_witness :
  filter is_packet_event
    (trace (decode_frame
              (sample_world (avcc [[x65]]) 40 [small_frame 40; wide_frame])
              (avcc [[x65]]) 40 streaming))
  = [AvPacketAlloc; AvPacketFree]
  /\ count is_frame_alloc
       (trace (decode_frame
                 (sample_world (avcc [[x65]]) 40 [small_frame 40; wide_frame])
                 (avcc [[x65]]) 40 streaming))
     = count is_frame_free
         (trace (decode_frame
                   (sample_world (avcc [[x65]]) 40
                                 [small_frame 40; wide_frame])
                   (avcc [[x65]]) 40 streaming)).
Proof.
  apply (decode_frame_frees_packet_and_frames
           (sample_world (avcc [[x65]]) 40 [small_frame 40; wide_frame])
           (avcc [[x65]]) 40 streaming).
  repeat constructor.
Defined.
(* ================================================================== *)
(** ** The decoder gate in the frame callbacks *)
(* ================================================================== *)

Lemma result_bind {A B} (m : M A) (k : A -> M B) (c : hang_source) :
  result (bind m k c) = result (k (result (m c)) (final (m c))).
Proof.
  unfold bind, result, final.
  destruct (m c) as [[a c1] t1]. cbn [fst snd].
  destruct (k a c1) as [[b c2] t2]. reflexivity.
Qed.

Lemma map_timestamp_keeps_gate now_ns pts_us :
  silent is_gate (map_timestamp now_ns pts_us).
Proof. unfold map_timestamp. quiet. Qed.
#[local] Hint Resolve map_timestamp_keeps_gate : silent.

Lemma output_decoded_frame_unlocks now_ns data width height pts_us :
  calls is_gate (output_decoded_frame now_ns data width height pts_us)
    [PthreadMutexUnlock decoder_mutex].
Proof. unfold output_decoded_frame. same_calls. Qed.

Lemma output_decoded_frame_keeps_decoder now_ns data width height pts_us c :
  nvdec_context (final (output_decoded_frame now_ns data width height pts_us c))
  = nvdec_context c.
Proof.
  unfold output_decoded_frame.
  destruct data; cbn [negb]; [|reflexivity].
  destruct (invalid_dimensions width height); [reflexivity|].
  run. rewrite map_timestamp_run.
  destruct (has_first_frame c), (active c), (source c); reflexivity.
Qed.

(** One round of the loop: whether it goes on, the flag, the releases of
    the gate and the scaler it leaves behind. *)
Lemma receive_one_account (w : world) (pts : Z) (r : drain_round)
    (success : bool) (c : hang_source) (d : nvdec_decoder) :
  nvdec_context c = Some d ->
  result (receive_one w pts r success c)
  = (reaches_output w (sws_ctx d) r, success || delivers r)
  /\ filter is_gate (trace (receive_one w pts r success c))
     = (if reaches_output w (sws_ctx d) r
        then [PthreadMutexUnlock decoder_mutex] else [])
  /\ nvdec_context (final (receive_one w pts r success c))
     = Some {| codec_ctx := codec_ctx d;
               sws_ctx := sws_ctx d || (delivers r && sws_getContext_ok r) |}.
Proof.
  intros En.
  assert (Es : decoder_sws_ctx c = sws_ctx d)
    by (unfold decoder_sws_ctx; rewrite En; reflexivity).
  assert (Eset : forall v, set_decoder_sws_ctx v c
                 = set_nvdec_context
                     (Some {| codec_ctx := codec_ctx d; sws_ctx := v |}) c)
    by (intros v; unfold set_decoder_sws_ctx; rewrite En; reflexivity).
  destruct d as [cc sw]. cbn [sws_ctx codec_ctx] in *.
  unfold reaches_output, delivers, receive_one.
  destruct (av_frame_alloc_ok r); cbn [negb andb orb].
  2:{ run. rewrite En, !orb_false_r. repeat split. }
  destruct (receive_ret r <? 0); cbn [negb andb orb].
  { destruct (receive_ret r =? AVERROR_EAGAIN), (receive_ret r =? AVERROR_EOF);
      run; rewrite En, !orb_false_r; repeat split. }
  rewrite !orb_true_r.
  destruct sw; cbn [negb andb orb]; run; rewrite Es; run;
    [|destruct (sws_getContext_ok r); cbn [negb andb orb]; run;
      rewrite ?Eset; [|repeat split]];
    (destruct (bzalloc_ok (heap w) (rgba_size r)); cbn [negb andb orb]; run;
     [|rewrite ?En; repeat split]);
    (destruct (sws_scale_ret r <? 0); cbn [negb andb orb]; run;
     [rewrite ?En; repeat split|]);
    (destruct ((frame_width r =? 0) || (frame_height r =? 0));
     cbn [negb andb orb]; run; [rewrite ?En; repeat split|]);
    match goal with
    | |- context [output_decoded_frame ?n ?b ?x ?y ?p ?s] =>
      pose proof (output_decoded_frame_unlocks n b x y p s) as Hu;
      pose proof (output_decoded_frame_keeps_decoder n b x y p s) as Hk;
      unfold trace, final in Hu, Hk;
      destruct (output_decoded_frame n b x y p s) as [[u c'] t'];
      cbn [fst snd] in *
    end;
    cbn [filter is_gate is_lock is_unlock orb];
    rewrite filter_app, Hu, Hk, ?En; repeat split.
Qed.

Lemma frames_output_delivered (w : world) (have_sws : bool) (r : drain_round) :
  reaches_output w have_sws r = true ->
  delivers r = true /\ have_sws || sws_getContext_ok r = true.
Proof.
  unfold reaches_output. intros H.
  do 3 (apply andb_prop in H; destruct H as [H _]).
  apply andb_prop in H. destruct H as [Hd Hs]. split; assumption.
Qed.

Lemma drain_account (w : world) (pts : Z) (rounds : list drain_round) :
  forall (success : bool) (c : hang_source) (d : nvdec_decoder),
  nvdec_context c = Some d ->
  result (drain w pts rounds success c) = success || frame_delivered rounds
  /\ filter is_gate (trace (drain w pts rounds success c))
     = repeat (PthreadMutexUnlock decoder_mutex)
         (frames_output w (sws_ctx d) rounds).
Proof.
  induction rounds as [|r rounds IH]; intros success c d En; cbn [drain].
  - destruct (receive_one_account w pts would_block success c d En)
      as (Hr & Ht & _).
    rewrite result_bind, trace_bind, filter_app, Hr, Ht.
    cbn. rewrite orb_false_r. split; reflexivity.
  - destruct (receive_one_account w pts r success c d En) as (Hr & Ht & Hn).
    rewrite result_bind, trace_bind, filter_app, Hr, Ht.
    cbn [frames_output frame_delivered].
    destruct (reaches_output w (sws_ctx d) r) eqn:Hreach.
    + destruct (frames_output_delivered _ _ _ Hreach) as [Hd Hs].
      destruct (IH (success || delivers r) _ _ Hn) as [IHr IHt].
      rewrite IHr, IHt, Hd. cbn [sws_ctx andb].
      rewrite Hs, !orb_true_r. split; reflexivity.
    + split; reflexivity.
Qed.
Lemma decode_frame_account (w : world) (data : list byte) (pts : Z)
    (c : hang_source) (d : nvdec_decoder) :
  nvdec_context c = Some d ->
  result (decode_frame w data pts c)
  = match convert_mp4_nal_units_to_annex_b (heap w) data with
    | ConvOk _ _ =>
      av_packet_alloc w && negb (avcodec_send_packet w <? 0)
      && frame_delivered (avcodec_receive_frame w)
    | _ => false
    end
  /\ filter is_gate (trace (decode_frame w data pts c))
     = repeat (PthreadMutexUnlock decoder_mutex)
         (match convert_mp4_nal_units_to_annex_b (heap w) data with
          | ConvOk _ _ =>
            if av_packet_alloc w && negb (avcodec_send_packet w <? 0)
            then frames_output w (sws_ctx d) (avcodec_receive_frame w)
            else 0%nat
          | _ => 0%nat
          end).
Proof.
  intros En. rewrite !decode_frame_run.
  destruct (convert_mp4_nal_units_to_annex_b (heap w) data)
    as [converted converted_size|logged|].
  - destruct (av_packet_alloc w); cbn [negb andb]; [|split; reflexivity].
    destruct (avcodec_send_packet w <? 0); cbn [negb andb];
      [split; reflexivity|].
    run.
    destruct (drain_account w pts (avcodec_receive_frame w) false c d En)
      as [Hr Ht].
    unfold result, trace in Hr, Ht.
    destruct (drain w pts (avcodec_receive_frame w) false c) as [[s c'] t'].
    cbn [fst snd orb] in *. cbn [filter is_gate is_lock is_unlock orb].
    rewrite filter_app, Ht, Hr. cbn [filter is_gate is_lock is_unlock orb].
    rewrite app_nil_r. split; reflexivity.
  - split; [rewrite !result_bind; reflexivity|].
    generalize c.
    match goal with
    | |- forall c, filter ?p (trace (?m c)) = _ => change (silent p m)
    end.
    quiet.
  - split; reflexivity.
Qed.

Lemma on_video_frame_gate (w : world) (frame_id : Z) (c : hang_source)
    (d : nvdec_decoder) :
  active c = true ->
  nvdec_context c = Some d ->
  0 < frame_id ->
  0 <= fst (moq_consume_frame_chunk w) ->
  filter is_gate (snd (on_video_frame w frame_id (Some c)))
  = PthreadMutexLock decoder_mutex
    :: repeat (PthreadMutexUnlock decoder_mutex)
         (gate_releases w (sws_ctx d)
            (payload (snd (moq_consume_frame_chunk w)))).
Proof.
  intros Hactive En Hframe Hchunk.
  assert (Ef : (frame_id <=? 0) = false) by (apply Z.leb_gt; lia).
  unfold on_video_frame, nvdec_decoder_decode, gate_releases.
  destruct (moq_consume_frame_chunk w) as [chunk_result frame].
  cbn [fst snd] in *.
  assert (Ec : (chunk_result <? 0) = false) by (apply Z.ltb_ge; lia).
  repeat (progress (run; rewrite ?Hactive, ?Ef, ?Ec, ?En; cbn [is_some])).
  destruct (decode_frame_account w (payload frame) (timestamp_us frame) c d En)
    as [Hr Ht].
  unfold result, trace in Hr, Ht.
  destruct (decode_frame w (payload frame) (timestamp_us frame) c)
    as [[decoded c'] t'].
  cbn [fst snd] in *.
  destruct decoded; run; cbn [filter is_gate is_lock is_unlock orb];
    rewrite filter_app, Ht; cbn [filter is_gate is_lock is_unlock orb];
    (destruct (convert_mp4_nal_units_to_annex_b (heap w) (payload frame));
     [|discriminate Hr || reflexivity..]);
    (destruct (av_packet_alloc w && negb (avcodec_send_packet w <? 0));
     [|discriminate Hr || reflexivity]);
    cbn [andb] in Hr; rewrite <- Hr;
    rewrite ?app_nil_r, ?Nat.add_0_r, ?repeat_app; reflexivity.
Qed.

(** X12.  The gate bookkeeping of [on_video_frame] on a streaming context,
    for every answer of the foreign code: the callback takes the decoder
    gate once, before any release, and releases it once for every decoded
    frame that reaches [output_decoded_frame], plus once in the callback
    itself when [decode_frame] reports failure, which it does exactly when
    the first round of the loop delivers no frame. *)
Theorem video_gate_account (w : world) (frame_id : Z) (c : hang_source)
    (d : nvdec_decoder) :
  active c = true ->
  nvdec_context c = Some d ->
  0 < frame_id ->
  0 <= fst (moq_consume_frame_chunk w) ->
  filter is_gate (snd (on_video_frame w frame_id (Some c)))
  = PthreadMutexLock decoder_mutex
    :: repeat (PthreadMutexUnlock decoder_mutex)
         (gate_releases w (sws_ctx d)
            (payload (snd (moq_consume_frame_chunk w)))).
Proof. exact (on_video_frame_gate w frame_id c d). Qed.

Lemma video_gate_account_witness :
  filter is_gate
    (snd (on_video_frame
            (sample_world (avcc [[x65]]) 40 [small_frame 40; small_frame 41])
            7 (Some streaming)))
  = PthreadMutexLock decoder_mutex
    :: repeat (PthreadMutexUnlock decoder_mutex)
         (gate_releases
            (sample_world (avcc [[x65]]) 40 [small_frame 40; small_frame 41])
            true (avcc [[x65]])).
Proof.
  apply (video_gate_account
           (sample_world (avcc [[x65]]) 40 [small_frame 40; small_frame 41])
           7 streaming
           {| codec_ctx := Some {| codec_id := AV_CODEC_ID_H264;
                                   extradata := None |};
              sws_ctx := true |}).
  - reflexivity.
  - reflexivity.
  - lia.
  - cbn. lia.
Defined.

(** X13.  When the decoder answers a packet with exactly one frame and
    every step on that frame succeeds (frame allocated, frame received,
    scaler present or created, RGBA buffer allocated, conversion done,
    non-zero dimensions), [on_video_frame] takes the decoder gate once and
    releases it once. *)
Theorem video_gate_balanced_for_one_frame (w : world) (frame_id : Z)
    (c : hang_source) (d : nvdec_decoder) (r : drain_round) :
  active c = true ->
  nvdec_context c = Some d ->
  0 < frame_id ->
  0 <= fst (moq_consume_frame_chunk w) ->
  avcodec_receive_frame w = [r] ->
  av_frame_alloc_ok r = true ->
  0 <= receive_ret r ->
  sws_ctx d || sws_getContext_ok r = true ->
  bzalloc_ok (heap w) (rgba_size r) = true ->
  0 <= sws_scale_ret r ->
  frame_width r <> 0 ->
  frame_height r <> 0 ->
  filter is_gate (snd (on_video_frame w frame_id (Some c)))
  = [PthreadMutexLock decoder_mutex; PthreadMutexUnlock decoder_mutex].
Proof.
  intros Hactive En Hframe Hchunk Hrounds Halloc Hret Hsws Hrgba Hscale Hw Hh.
  rewrite (on_video_frame_gate w frame_id c d Hactive En Hframe Hchunk).
  unfold gate_releases. rewrite Hrounds.
  cbn [frames_output frame_delivered].
  unfold reaches_output, delivers. rewrite Halloc, Hsws, Hrgba.
  apply Z.ltb_ge in Hret, Hscale. rewrite Hret, Hscale.
  apply Z.eqb_neq in Hw, Hh. rewrite Hw, Hh. cbn [negb andb orb].
  destruct (convert_mp4_nal_units_to_annex_b (heap w)
              (payload (snd (moq_consume_frame_chunk w)))); [|reflexivity..].
  destruct (av_packet_alloc w && negb (avcodec_send_packet w <? 0));
    reflexivity.
Qed.

Lemma video_gate_balanced_for_one_frame_witness :
  filter is_gate
    (snd (on_video_frame (sample_world (avcc [[x65]]) 40 [small_frame 40]) 7
                         (Some streaming)))
  = [PthreadMutexLock decoder_mutex; PthreadMutexUnlock decoder_mutex].
Proof.
  apply (video_gate_balanced_for_one_frame
           (sample_world (avcc [[x65]]) 40 [small_frame 40]) 7 streaming
           {| codec_ctx := Some {| codec_id := AV_CODEC_ID_H264;
                                   extradata := None |};
              sws_ctx := true |}
           (small_frame 40)).
  - reflexivity.
  - reflexivity.
  - lia.
  - cbn. lia.
  - reflexivity.
  - reflexivity.
  - cbn. lia.
  - reflexivity.
  - reflexivity.
  - cbn. lia.
  - cbn. lia.
  - cbn. lia.
Defined.

(** X14.  When the decoder has no frame to give for a packet, the gate is
    balanced whatever else happens (conversion failure, no packet, packet
    rejected, decoder absent, source inactive, [NULL] context): the
    callback either never takes the gate, or takes and releases it once. *)
Theorem video_gate_balanced_without_frame (w : world) (frame_id : Z)
    (user_data : option hang_source) :
  avcodec_receive_frame w = [] ->
  filter is_gate (snd (on_video_frame w frame_id user_data))
  = if match user_data with
       | Some c =>
         active c && (0 <? frame_id)
         && (0 <=? fst (moq_consume_frame_chunk w))
       | None => false
       end
    then [PthreadMutexLock decoder_mutex; PthreadMutexUnlock decoder_mutex]
    else [].
Proof.
  intros Hrounds.
  destruct user_data as [c|].
  2:{ unfold on_video_frame. run. destruct (frame_id >? 0); reflexivity. }
  destruct (active c) eqn:Hactive; cbn [andb].
  2:{ unfold on_video_frame. run. rewrite Hactive. run.
      destruct (frame_id >? 0); reflexivity. }
  destruct (Z.ltb_spec 0 frame_id) as [Hframe|Hframe]; cbn [andb].
  2:{ assert (Ef : (frame_id <=? 0) = true) by (apply Z.leb_le; lia).
      unfold on_video_frame. run. rewrite Hactive. run. rewrite Ef.
      reflexivity. }
  destruct (Z.leb_spec 0 (fst (moq_consume_frame_chunk w))) as [Hchunk|Hchunk].
  2:{ assert (Ef : (frame_id <=? 0) = false) by (apply Z.leb_gt; lia).
      unfold on_video_frame.
      destruct (moq_consume_frame_chunk w) as [chunk_result frame].
      cbn [fst] in Hchunk.
      assert (Ec : (chunk_result <? 0) = true) by (apply Z.ltb_lt; lia).
      repeat (progress (run; rewrite ?Hactive, ?Ef, ?Ec)). reflexivity. }
  destruct (nvdec_context c) as [d|] eqn:En.
  - rewrite (on_video_frame_gate w frame_id c d Hactive En Hframe Hchunk).
    unfold gate_releases. rewrite Hrounds.
    destruct (convert_mp4_nal_units_to_annex_b (heap w)
                (payload (snd (moq_consume_frame_chunk w)))); [|reflexivity..].
    destruct (av_packet_alloc w && negb (avcodec_send_packet w <? 0));
      reflexivity.
  - assert (Ef : (frame_id <=? 0) = false) by (apply Z.leb_gt; lia).
    unfold on_video_frame.
    destruct (moq_consume_frame_chunk w) as [chunk_result frame].
    cbn [fst] in Hchunk.
    assert (Ec : (chunk_result <? 0) = false) by (apply Z.ltb_ge; lia).
    repeat (progress (run; rewrite ?Hactive, ?Ef, ?Ec, ?En; cbn [is_some])).
    reflexivity.
Qed.

Lemma video_gate_balanced_without_frame_witness :
  filter is_gate
    (snd (on_video_frame (sample_world (avcc [[x65]]) 40 []) 7
                         (Some streaming)))
  = [PthreadMutexLock decoder_mutex; PthreadMutexUnlock decoder_mutex].
Proof.
  apply (video_gate_balanced_without_frame
           (sample_world (avcc [[x65]]) 40 []) 7 (Some streaming)).
  reflexivity.
Defined.

(** X15.  [on_audio_frame] decodes only under the decoder gate and always
    releases it: whenever it takes the gate (the source is active, the
    frame handle is valid, the chunk was read) it calls the audio decoder at
    most once, with the payload and the timestamp of the chunk and only when
    the decoder exists, and then releases the gate; otherwise it touches
    neither. *)
Theorem on_audio_frame_decodes_under_gate (w : world) (frame_id : Z)
    (c : hang_source) :
  filter (fun e => is_gate e || is_audio_decode e)
    (snd (on_audio_frame w frame_id (Some c)))
  = if active c && (0 <? frame_id)
       && (0 <=? fst (moq_consume_frame_chunk w))
    then
      PthreadMutexLock decoder_mutex
      :: (if audio_decoder_context c
          then [AudioDecoderDecode
                  (payload (snd (moq_consume_frame_chunk w)))
                  (timestamp_us (snd (moq_consume_frame_chunk w)))]
          else [])
      ++ [PthreadMutexUnlock decoder_mutex]
    else [].
Proof.
  unfold on_audio_frame, audio_decoder_decode.
  destruct (moq_consume_frame_chunk w) as [chunk_result frame].
  cbn [fst snd].
  destruct (active c) eqn:Hactive; cbn [andb].
  2:{ run. rewrite Hactive. run. destruct (frame_id >? 0); reflexivity. }
  destruct (Z.ltb_spec 0 frame_id) as [Hframe|Hframe]; cbn [andb].
  2:{ assert (Ef : (frame_id <=? 0) = true) by (apply Z.leb_le; lia).
      run. rewrite Hactive. run. rewrite Ef. reflexivity. }
  assert (Ef : (frame_id <=? 0) = false) by (apply Z.leb_gt; lia).
  destruct (Z.leb_spec 0 chunk_result) as [Hchunk|Hchunk].
  - assert (Ec : (chunk_result <? 0) = false) by (apply Z.ltb_ge; lia).
    destruct (audio_decoder_context c) eqn:Hdec;
      repeat (progress (run; rewrite ?Hactive, ?Ef, ?Ec, ?Hdec));
      reflexivity.
  - assert (Ec : (chunk_result <? 0) = true) by (apply Z.ltb_lt; lia).
    repeat (progress (run; rewrite ?Hactive, ?Ef, ?Ec)). reflexivity.
Qed.

(** X16.  The guards of [on_video_frame]: on a [NULL] context, an inactive
    source, an invalid frame handle, a failed chunk read or a missing
    decoder the callback makes no call besides the two libmoq calls on the
    frame and the gate (nothing reaches FFmpeg, the allocator, the log or
    the host), and it hands the context back unchanged. *)
Theorem on_video_frame_guards (w : world) (frame_id : Z)
    (user_data : option hang_source) :
  match user_data with
  | Some c =>
    active c = false \/ frame_id <= 0
    \/ fst (moq_consume_frame_chunk w) < 0 \/ nvdec_context c = None
  | None => True
  end ->
  fst (on_video_frame w frame_id user_data) = user_data
  /\ filter (fun e => negb (is_frame_call e || is_gate e))
       (snd (on_video_frame w frame_id user_data)) = [].
Proof.
  unfold on_video_frame.
  destruct user_data as [c|]; intros Hguard.
  2:{ run. destruct (frame_id >? 0); split; reflexivity. }
  destruct (moq_consume_frame_chunk w) as [chunk_result frame].
  cbn [fst] in Hguard.
  destruct (active c) eqn:Hactive.
  2:{ run. rewrite Hactive. run. destruct (frame_id >? 0); split; reflexivity. }
  destruct (frame_id <=? 0) eqn:Ef.
  { run. rewrite Hactive. run. split; reflexivity. }
  destruct (chunk_result <? 0) eqn:Ec.
  { repeat (progress (run; rewrite ?Hactive)). split; reflexivity. }
  apply Z.leb_gt in Ef. apply Z.ltb_ge in Ec.
  destruct Hguard as [H|[H|[H|En]]]; [discriminate H|lia|lia|].
  repeat (progress (run; rewrite ?Hactive, ?Ef, ?Ec, ?En; cbn [is_some])).
  split; reflexivity.
Qed.

Lemma on_video_frame_guards_witness :
  fst (on_video_frame (sample_world (avcc [[x65]]) 40 [small_frame 40]) 7
                      (Some (set_nvdec_context None streaming)))
  = Some (set_nvdec_context None streaming)
  /\ filter (fun e => negb (is_frame_call e || is_gate e))
       (snd (on_video_frame (sample_world (avcc [[x65]]) 40 [small_frame 40])
                            7 (Some (set_nvdec_context None streaming))))
     = [].
Proof.
  apply (on_video_frame_guards
           (sample_world (avcc [[x65]]) 40 [small_frame 40]) 7
           (Some (set_nvdec_context None streaming))).
  right. right. right. reflexivity.
Defined.
(* ================================================================== *)
(** ** Teardown: [hang_source_deactivate] and [hang_source_destroy] *)
(* ================================================================== *)

Lemma close_if_open_run (id : hang_source -> Z) (close : Z -> event)
    (assign : Z -> hang_source -> hang_source) (c : hang_source) :
  (forall c, assign (id c) c = c) ->
  close_if_open id close assign c
  = (tt, assign (closed (id c)) c, close_open (id c) close).
Proof.
  intros Hid. unfold close_if_open, closed, close_open. run.
  destruct (id c >? 0); [reflexivity|]. rewrite Hid. reflexivity.
Qed.

Lemma nvdec_decoder_destroy_run (c : hang_source) :
  nvdec_decoder_destroy c
  = (tt, set_nvdec_context None c, free_decoder (nvdec_context c)).
Proof.
  unfold nvdec_decoder_destroy, free_decoder. run.
  destruct (nvdec_context c) as [[[ctx|] [|]]|] eqn:E; try reflexivity.
  destruct c. cbn in E. subst. reflexivity.
Qed.

Lemma closed_stays_closed (id : Z) : closed (closed id) = closed id.
Proof.
  unfold closed. destruct (id >? 0) eqn:E; [reflexivity|]. rewrite E.
  reflexivity.
Qed.

Lemma closed_is_closed (id : Z) : closed id <= 0.
Proof. unfold closed. destruct (Z.gtb_spec id 0); lia. Qed.

Lemma close_open_closed (id : Z) (close : Z -> event) :
  close_open (closed id) close = [].
Proof.
  unfold close_open. pose proof (closed_is_closed id).
  destruct (Z.gtb_spec (closed id) 0); [lia|reflexivity].
Qed.

Ltac straight :=
  repeat (progress
    (run;
     rewrite ?close_if_open_run by (intros []; reflexivity);
     rewrite ?nvdec_decoder_destroy_run, ?repeat_call_run, ?log_run;
     cbn [active origin_id session_id broadcast_id catalog_consumer_id
          video_track_id audio_track_id nvdec_context audio_decoder_context
          frame_queue_len audio_queue_len has_first_frame url broadcast_path
          source first_frame_pts_us first_frame_obs_time_ns
          last_output_timestamp_ns
          set_active set_origin_id set_session_id set_broadcast_id
          set_catalog_consumer_id set_video_track_id set_audio_track_id
          set_nvdec_context set_audio_decoder_context set_frame_queue_len
          set_audio_queue_len set_has_first_frame set_first_frame_pts_us
          set_first_frame_obs_time_ns set_last_output_timestamp_ns
          set_url set_broadcast_path])).

Lemma filter_close_open (p : event -> bool) (id : Z) (close : Z -> event) :
  (forall z, p (close z) = true) ->
  filter p (close_open id close) = close_open id close.
Proof.
  intros Hp. unfold close_open. destruct (id >? 0); [|reflexivity].
  cbn. rewrite Hp. reflexivity.
Qed.

Lemma filter_repeat_none (p : event -> bool) (e : event) (n : nat) :
  p e = false -> filter p (repeat e n) = [].
Proof.
  intros He. induction n as [|n IH]; [reflexivity|].
  cbn [repeat filter]. rewrite He. exact IH.
Qed.

Lemma filter_open_handles (c : hang_source) :
  filter is_close (open_handles c) = open_handles c.
Proof.
  unfold open_handles.
  rewrite !filter_app, !filter_close_open by (intros ?; reflexivity).
  reflexivity.
Qed.

Lemma free_queues_close_nothing (c : hang_source) :
  filter is_close (free_queues c) = [].
Proof.
  unfold free_queues. cbn [filter is_close].
  rewrite filter_app, filter_repeat_none by reflexivity.
  cbn [filter is_close app].
  rewrite filter_app, filter_repeat_none by reflexivity. reflexivity.
Qed.

Lemma teardown_decoders_close_nothing (c : hang_source) :
  filter is_close (teardown_decoders c) = [].
Proof.
  unfold teardown_decoders, free_decoder.
  destruct (nvdec_context c) as [[[ctx|] [|]]|]; reflexivity.
Qed.

(** [hang_source_deactivate] on an active source, as a straight line. *)
Lemma hang_source_deactivate_run (c : hang_source) :
  active c = true ->
  hang_source_deactivate c
  = (tt, deactivated c,
     Clog LOG_INFO
     :: open_handles c ++ free_queues c ++ teardown_decoders c
     ++ [Clog LOG_INFO]).
Proof.
  intros Hactive.
  unfold hang_source_deactivate, clear_queues, destroy_decoders,
    audio_decoder_destroy.
  run. rewrite Hactive. straight.
  unfold open_handles, free_queues, teardown_decoders, deactivated.
  repeat (progress (rewrite <- ?app_assoc; cbn [app])). reflexivity.
Qed.
Lemma all_closed_deactivated (c : hang_source) : all_closed (deactivated c).
Proof. repeat split; apply closed_is_closed. Qed.

Lemma hang_source_deactivate_outcome (c : hang_source) :
  active c = true ->
  filter is_close (trace (hang_source_deactivate c)) = open_handles c
  /\ final (hang_source_deactivate c) = deactivated c.
Proof.
  intros Hactive. rewrite (hang_source_deactivate_run c Hactive).
  unfold trace, final. cbn [fst snd filter is_close].
  rewrite !filter_app, filter_open_handles, free_queues_close_nothing,
    teardown_decoders_close_nothing.
  split; [apply app_nil_r|reflexivity].
Qed.

(** X17.  [hang_source_deactivate] on an active source closes every handle
    of the chain that is open, each once and with its own id, in the order
    audio track, video track, catalog, broadcast, session, origin, and
    closes nothing else.  It leaves the source inactive with all six
    handles closed, no decoder, empty queues and the timestamp mapper
    reset; the settings and the source pointer are kept. *)
Theorem hang_source_deactivate_releases_everything (c : hang_source) :
  active c = true ->
  filter is_close (trace (hang_source_deactivate c)) = open_handles c
  /\ all_closed (final (hang_source_deactivate c))
  /\ active (final (hang_source_deactivate c)) = false
  /\ nvdec_context (final (hang_source_deactivate c)) = None
  /\ audio_decoder_context (final (hang_source_deactivate c)) = false
  /\ frame_queue_len (final (hang_source_deactivate c)) = 0%nat
  /\ audio_queue_len (final (hang_source_deactivate c)) = 0%nat
  /\ has_first_frame (final (hang_source_deactivate c)) = false
  /\ last_output_timestamp_ns (final (hang_source_deactivate c)) = 0
  /\ url (final (hang_source_deactivate c)) = url c
  /\ broadcast_path (final (hang_source_deactivate c)) = broadcast_path c
  /\ source (final (hang_source_deactivate c)) = source c.
Proof.
  intros Hactive.
  destruct (hang_source_deactivate_outcome c Hactive) as [Hcloses Hfinal].
  rewrite Hfinal. split; [exact Hcloses|].
  split; [apply all_closed_deactivated|]. repeat split.
Qed.

Lemma hang_source_deactivate_releases_everything_witness :
  filter is_close (trace (hang_source_deactivate streaming))
  = [MoqConsumeAudioTrackClose 6; MoqConsumeVideoTrackClose 5;
     MoqConsumeCatalogClose 4; MoqConsumeClose 3; MoqSessionClose 2;
     MoqOriginClose 1].
Proof.
  apply (hang_source_deactivate_releases_everything streaming). reflexivity.
Defined.

Lemma hang_source_deactivate_ends_inactive (c : hang_source) :
  active (final (hang_source_deactivate c)) = false.
Proof.
  destruct (active c) eqn:Hactive.
  - rewrite (hang_source_deactivate_run c Hactive). reflexivity.
  - rewrite (hang_source_deactivate_inactive c Hactive). exact Hactive.
Qed.

(** X18.  [hang_source_deactivate] is idempotent: whatever the context, a
    second call right after the first makes no call and changes nothing. *)
Theorem hang_source_deactivate_twice (c : hang_source) :
  hang_source_deactivate (final (hang_source_deactivate c))
  = (tt, final (hang_source_deactivate c), []).
Proof.
  apply hang_source_deactivate_inactive, hang_source_deactivate_ends_inactive.
Qed.

Lemma second_round_run (c : hang_source) :
  (close_if_open audio_track_id MoqConsumeAudioTrackClose set_audio_track_id ;;
   close_if_open video_track_id MoqConsumeVideoTrackClose set_video_track_id ;;
   close_if_open catalog_consumer_id MoqConsumeCatalogClose
                 set_catalog_consumer_id ;;
   close_if_open broadcast_id MoqConsumeClose set_broadcast_id ;;
   close_if_open session_id MoqSessionClose set_session_id ;;
   close_if_open origin_id MoqOriginClose set_origin_id ;;
   destroy_decoders ;;
   clear_queues) c
  = (tt,
     {| source := source c; url := url c; broadcast_path := broadcast_path c;
        active := active c;
        origin_id := closed (origin_id c);
        session_id := closed (session_id c);
        broadcast_id := closed (broadcast_id c);
        catalog_consumer_id := closed (catalog_consumer_id c);
        video_track_id := closed (video_track_id c);
        audio_track_id := closed (audio_track_id c);
        nvdec_context := None; audio_decoder_context := false;
        frame_queue_len := 0; audio_queue_len := 0;
        has_first_frame := has_first_frame c;
        first_frame_pts_us := first_frame_pts_us c;
        first_frame_obs_time_ns := first_frame_obs_time_ns c;
        last_output_timestamp_ns := last_output_timestamp_ns c |},
     open_handles c ++ teardown_decoders c ++ free_queues c).
Proof.
  unfold clear_queues, destroy_decoders, audio_decoder_destroy.
  straight.
  unfold open_handles, free_queues, teardown_decoders.
  repeat (progress (rewrite <- ?app_assoc; cbn [app])). reflexivity.
Qed.

Lemma hang_source_destroy_outcome (c : hang_source) :
  filter is_close (trace (hang_source_destroy c)) = open_handles c
  /\ all_closed (final (hang_source_destroy c))
  /\ active (final (hang_source_destroy c)) = false
  /\ nvdec_context (final (hang_source_destroy c)) = None
  /\ audio_decoder_context (final (hang_source_destroy c)) = false
  /\ frame_queue_len (final (hang_source_destroy c)) = 0%nat
  /\ audio_queue_len (final (hang_source_destroy c)) = 0%nat.
Proof.
  unfold hang_source_destroy.
  rewrite trace_bind, final_bind, second_round_run.
  unfold trace at 2, final at 1. cbn [fst snd].
  destruct (active c) eqn:Hactive.
  - rewrite (hang_source_deactivate_run c Hactive).
    unfold trace, final, result. cbn [fst snd].
    cbn [origin_id session_id broadcast_id catalog_consumer_id video_track_id
         audio_track_id active nvdec_context audio_decoder_context
         frame_queue_len audio_queue_len deactivated].
    split.
    + unfold open_handles at 2.
      cbn [origin_id session_id broadcast_id catalog_consumer_id
           video_track_id audio_track_id deactivated].
      rewrite !close_open_closed. cbn [app filter is_close].
      rewrite !filter_app, filter_open_handles, free_queues_close_nothing,
        !teardown_decoders_close_nothing, free_queues_close_nothing.
      cbn [filter is_close app]. rewrite !app_nil_r. reflexivity.
    + repeat split; apply closed_is_closed.
  - rewrite (hang_source_deactivate_inactive c Hactive).
    unfold trace, final, result. cbn [fst snd app].
    cbn [origin_id session_id broadcast_id catalog_consumer_id video_track_id
         audio_track_id active nvdec_context audio_decoder_context
         frame_queue_len audio_queue_len].
    split.
    + rewrite !filter_app, filter_open_handles, free_queues_close_nothing,
        teardown_decoders_close_nothing.
      apply app_nil_r.
    + repeat split; try apply closed_is_closed. exact Hactive.
Qed.

(** X19.  [hang_source_destroy] closes every handle that is open, each
    exactly once, whether or not the source was active: what
    [hang_source_deactivate] has closed is not closed again, and what an
    inactive source still holds is closed by the second round.  It ends
    with all handles closed, no decoder and empty queues. *)
Theorem hang_source_destroy_closes_each_handle_once (c : hang_source) :
  filter is_close (trace (hang_source_destroy c)) = open_handles c
  /\ all_closed (final (hang_source_destroy c))
  /\ active (final (hang_source_destroy c)) = false
  /\ nvdec_context (final (hang_source_destroy c)) = None
  /\ audio_decoder_context (final (hang_source_destroy c)) = false
  /\ frame_queue_len (final (hang_source_destroy c)) = 0%nat
  /\ audio_queue_len (final (hang_source_destroy c)) = 0%nat.
Proof. exact (hang_source_destroy_outcome c). Qed.

(** X20.  The order of [hang_source_deactivate] on an active source:
    first the close calls for the open handles, then the two queues are
    emptied, each under its own mutex and with one free per queued item,
    and only then are the decoders destroyed, under the decoder gate. *)
Theorem hang_source_deactivate_clears_queues_first (c : hang_source) :
  active c = true ->
  trace (hang_source_deactivate c)
  = Clog LOG_INFO
    :: open_handles c
    ++ (PthreadMutexLock frame_mutex
        :: repeat ObsSourceFrameFree (frame_queue_len c)
        ++ PthreadMutexUnlock frame_mutex
        :: PthreadMutexLock audio_mutex
        :: repeat FreeQueuedAudio (audio_queue_len c)
        ++ [PthreadMutexUnlock audio_mutex])
    ++ (PthreadMutexLock decoder_mutex
        :: free_decoder (nvdec_context c)
        ++ [AudioDecoderDestroy; PthreadMutexUnlock decoder_mutex])
    ++ [Clog LOG_INFO].
Proof.
  intros Hactive. rewrite (hang_source_deactivate_run c Hactive). reflexivity.
Qed.

Lemma hang_source_deactivate_clears_queues_first_witness :
  trace (hang_source_deactivate
           (set_audio_queue_len 1 (set_frame_queue_len 2 streaming)))
  = [Clog LOG_INFO;
     MoqConsumeAudioTrackClose 6; MoqConsumeVideoTrackClose 5;
     MoqConsumeCatalogClose 4; MoqConsumeClose 3; MoqSessionClose 2;
     MoqOriginClose 1;
     PthreadMutexLock frame_mutex; ObsSourceFrameFree; ObsSourceFrameFree;
     PthreadMutexUnlock frame_mutex;
     PthreadMutexLock audio_mutex; FreeQueuedAudio;
     PthreadMutexUnlock audio_mutex;
     PthreadMutexLock decoder_mutex; AvcodecFreeContext; SwsFreeContext;
     Bfree decoder_struct; AudioDecoderDestroy;
     PthreadMutexUnlock decoder_mutex;
     Clog LOG_INFO].
Proof.
  apply (hang_source_deactivate_clears_queues_first
           (set_audio_queue_len 1 (set_frame_queue_len 2 streaming))).
  reflexivity.
Defined.

(* ================================================================== *)
(** ** Bringup: [hang_source_activate] *)
(* ================================================================== *)

(** X21.  [hang_source_activate] reaches libmoq only for an inactive source
    whose URL and broadcast path are set and non-empty and whose URL
    contains [://] with at least one character after its first occurrence
    (nothing more is asked of the host part); in every other case it makes
    no libmoq call and leaves the context as it is. *)
Theorem hang_source_activate_needs_valid_settings (w : world)
    (c : hang_source) :
  (filter is_moq (trace (hang_source_activate w c)) = []
   /\ final (hang_source_activate w c) = c)
  \/ (active c = false
      /\ (exists the_url the_path host_start,
            url c = Some the_url /\ broadcast_path c = Some the_path
            /\ strlen the_url <> 0 /\ strlen the_path <> 0
            /\ strstr the_url "://" = Some host_start
            /\ strlen (advance 3 host_start) <> 0)
      /\ exists rest,
           filter is_moq (trace (hang_source_activate w c))
           = MoqOriginCreate :: rest).
Proof.
  unfold hang_source_activate. run.
  destruct (url c) as [the_url|] eqn:Hurl; [|left; split; reflexivity].
  destruct (broadcast_path c) as [the_path|] eqn:Hpath;
    [|left; split; reflexivity].
  destruct (active c) eqn:Hactive; cbn [orb]; [left; split; reflexivity|].
  destruct (strlen the_url =? 0) eqn:Hu; cbn [orb];
    [left; split; reflexivity|].
  destruct (strlen the_path =? 0) eqn:Hp; [left; split; reflexivity|].
  destruct (strstr the_url "://") as [host_start|] eqn:Hstr;
    [|left; split; reflexivity].
  destruct (strlen (advance 3 host_start) =? 0) eqn:Hh;
    [left; split; reflexivity|].
  right. split; [reflexivity|]. split.
  - exists the_url, the_path, host_start.
    apply Z.eqb_neq in Hu, Hp, Hh. repeat split; assumption.
  - unfold activate_cleanup.
    destruct (moq_origin_create w <=? 0);
      [|destruct (moq_session_connect w <=? 0)];
      straight; cbn [filter is_moq]; eexists; reflexivity.
Qed.

(** X22.  [hang_source_activate] on an inactive source with valid settings
    and no session is all or nothing: when both [moq_origin_create] and
    [moq_session_connect] return a handle, the source ends active holding
    exactly these two handles, the session having been connected to the
    stored URL on the new origin; otherwise the source stays inactive, the
    origin that was created is closed again, and neither handle is left
    open. *)
Theorem hang_source_activate_all_or_nothing (w : world) (c : hang_source)
    (the_url the_path host_start : string) :
  active c = false ->
  session_id c <= 0 ->
  url c = Some the_url ->
  broadcast_path c = Some the_path ->
  strlen the_url <> 0 ->
  strlen the_path <> 0 ->
  strstr the_url "://" = Some host_start ->
  strlen (advance 3 host_start) <> 0 ->
  if (0 <? moq_origin_create w) && (0 <? moq_session_connect w) then
    active (final (hang_source_activate w c)) = true
    /\ origin_id (final (hang_source_activate w c)) = moq_origin_create w
    /\ session_id (final (hang_source_activate w c)) = moq_session_connect w
    /\ filter is_moq (trace (hang_source_activate w c))
       = [MoqOriginCreate; MoqSessionConnect the_url (moq_origin_create w)]
  else
    active (final (hang_source_activate w c)) = false
    /\ origin_id (final (hang_source_activate w c)) <= 0
    /\ session_id (final (hang_source_activate w c)) <= 0
    /\ filter is_close (trace (hang_source_activate w c))
       = close_open (moq_origin_create w) MoqOriginClose.
Proof.
  intros Hactive Hsession Hurl Hpath Hu Hp Hstr Hh.
  apply Z.eqb_neq in Hu, Hp, Hh.
  assert (Es : (session_id c >? 0) = false)
    by (rewrite Z.gtb_ltb; apply Z.ltb_ge; lia).
  unfold hang_source_activate, activate_cleanup. run.
  rewrite Hurl, Hpath, Hactive, Hu, Hp, Hstr, Hh. cbn [orb].
  unfold closed, close_open.
  destruct (Z.ltb_spec 0 (moq_origin_create w)) as [Ho|Ho]; cbn [andb].
  - assert (Eo : (moq_origin_create w <=? 0) = false) by (apply Z.leb_gt; lia).
    assert (Eo' : (moq_origin_create w >? 0) = true)
      by (rewrite Z.gtb_ltb; apply Z.ltb_lt; lia).
    rewrite Eo.
    destruct (Z.ltb_spec 0 (moq_session_connect w)) as [Hc|Hc].
    + assert (Ec : (moq_session_connect w <=? 0) = false)
        by (apply Z.leb_gt; lia).
      rewrite Ec. straight. repeat split.
    + assert (Ec : (moq_session_connect w <=? 0) = true)
        by (apply Z.leb_le; lia).
      assert (Ec' : (moq_session_connect w >? 0) = false)
        by (rewrite Z.gtb_ltb; apply Z.ltb_ge; lia).
      rewrite Ec. straight. unfold closed, close_open. rewrite Ec', Eo'.
      cbn [filter is_close app]. repeat split; [exact Hactive|lia|exact Hc].
  - assert (Eo : (moq_origin_create w <=? 0) = true) by (apply Z.leb_le; lia).
    assert (Eo' : (moq_origin_create w >? 0) = false)
      by (rewrite Z.gtb_ltb; apply Z.ltb_ge; lia).
    rewrite Eo. straight. unfold closed, close_open. rewrite Es, Eo'.
    cbn [filter is_close app]. repeat split; [exact Hactive|exact Ho|exact Hsession].
Qed.

Lemma hang_source_activate_all_or_nothing_witness :
  active (final (hang_source_activate (sample_world [] 0 []) configured))
  = true
  /\ origin_id (final (hang_source_activate (sample_world [] 0 []) configured))
     = 1
  /\ session_id (final (hang_source_activate (sample_world [] 0 []) configured))
     = 2
  /\ filter is_moq (trace (hang_source_activate (sample_world [] 0 [])
                                                configured))
     = [MoqOriginCreate; MoqSessionConnect "https://example:443" 1].
Proof.
  apply (hang_source_activate_all_or_nothing (sample_world [] 0 []) configured
           "https://example:443" "demo" "://example:443").
  - reflexivity.
  - cbn. lia.
  - reflexivity.
  - reflexivity.
  - vm_compute. discriminate.
  - vm_compute. discriminate.
  - reflexivity.
  - vm_compute. discriminate.
Defined.

(* ================================================================== *)
(** ** An active source has its origin and its session *)
(* ================================================================== *)

Lemma winds_down_ret {A} (a : A) : winds_down (ret a).
Proof. intros c. repeat split. intros H. exact H. Qed.

Lemma winds_down_get {A} (g : hang_source -> A) : winds_down (get g).
Proof. intros c. repeat split. intros H. exact H. Qed.

Lemma winds_down_call (e : event) : winds_down (call e).
Proof. intros c. repeat split. intros H. exact H. Qed.

Lemma winds_down_log (levels : list log_level) : winds_down (log levels).
Proof. intros c. rewrite log_run. repeat split. intros H. exact H. Qed.

Lemma winds_down_set (g : hang_source -> hang_source) :
  (forall c, active (g c) = true -> active c = true) ->
  (forall c, origin_id (g c) = origin_id c) ->
  (forall c, session_id (g c) = session_id c) ->
  winds_down (set g).
Proof. intros Ha Ho Hs c. repeat split; [apply Ha|apply Ho|apply Hs]. Qed.

Lemma winds_down_bind {A B} (m : M A) (k : A -> M B) :
  winds_down m -> (forall a, winds_down (k a)) -> winds_down (bind m k).
Proof.
  intros Hm Hk c. rewrite final_bind.
  destruct (Hm c) as (Ha & Ho & Hs).
  destruct (Hk (result (m c)) (final (m c))) as (Ha' & Ho' & Hs').
  repeat split; [intros H; apply Ha, Ha', H|congruence|congruence].
Qed.

Lemma winds_down_when (b : bool) (m : M unit) :
  winds_down m -> winds_down (when b m).
Proof. intros Hm. destruct b; [exact Hm|apply winds_down_ret]. Qed.

Create HintDb winds.

Ltac winding_down :=
  repeat first
    [ solve [auto with winds nocore]
    | progress cbv beta zeta
    | apply winds_down_ret
    | apply winds_down_get
    | apply winds_down_call
    | apply winds_down_log
    | apply winds_down_set;
      [ intros ? H; exact H || discriminate H
      | intros ?; reflexivity
      | intros ?; reflexivity ]
    | apply winds_down_when
    | apply winds_down_bind; [|intros ?]
    | match goal with
      | |- winds_down (if ?b then _ else _) => destruct b
      | |- winds_down (match ?x with _ => _ end) => destruct x
      end ].

Lemma winds_down_set_decoder_sws_ctx (v : bool) :
  winds_down (set (set_decoder_sws_ctx v)).
Proof.
  apply winds_down_set; intros c; unfold set_decoder_sws_ctx;
    destruct (nvdec_context c); trivial.
Qed.
#[local] Hint Resolve winds_down_set_decoder_sws_ctx : winds.

Lemma winds_down_close_if_open (id : hang_source -> Z) (close : Z -> event)
    (assign : Z -> hang_source -> hang_source) :
  (forall c, active (assign 0 c) = active c) ->
  (forall c, origin_id (assign 0 c) = origin_id c) ->
  (forall c, session_id (assign 0 c) = session_id c) ->
  winds_down (close_if_open id close assign).
Proof.
  intros Ha Ho Hs. unfold close_if_open.
  apply winds_down_bind; [apply winds_down_get|intros handle].
  apply winds_down_when.
  apply winds_down_bind; [apply winds_down_call|intros _].
  apply winds_down_set; [intros c; rewrite Ha; trivial|exact Ho|exact Hs].
Qed.

Lemma winds_down_map_timestamp now_ns pts_us :
  winds_down (map_timestamp now_ns pts_us).
Proof. unfold map_timestamp. winding_down. Qed.
#[local] Hint Resolve winds_down_map_timestamp : winds.

Lemma winds_down_output_decoded_frame now_ns data width height pts_us :
  winds_down (output_decoded_frame now_ns data width height pts_us).
Proof. unfold output_decoded_frame. winding_down. Qed.
#[local] Hint Resolve winds_down_output_decoded_frame : winds.

Lemma winds_down_receive_one w pts r success :
  winds_down (receive_one w pts r success).
Proof. unfold receive_one. winding_down. Qed.
#[local] Hint Resolve winds_down_receive_one : winds.

Lemma winds_down_drain w pts rounds :
  forall success, winds_down (drain w pts rounds success).
Proof.
  induction rounds as [|r rounds IH]; intros success; cbn [drain];
    winding_down.
Qed.
#[local] Hint Resolve winds_down_drain : winds.

Lemma winds_down_nvdec_decoder_decode w data pts keyframe :
  winds_down (nvdec_decoder_decode w data pts keyframe).
Proof. unfold nvdec_decoder_decode, decode_frame. winding_down. Qed.
#[local] Hint Resolve winds_down_nvdec_decoder_decode : winds.

Lemma winds_down_nvdec_decoder_destroy : winds_down nvdec_decoder_destroy.
Proof. unfold nvdec_decoder_destroy. winding_down. Qed.
#[local] Hint Resolve winds_down_nvdec_decoder_destroy : winds.

Lemma winds_down_destroy_decoders : winds_down destroy_decoders.
Proof. unfold destroy_decoders, audio_decoder_destroy. winding_down. Qed.
#[local] Hint Resolve winds_down_destroy_decoders : winds.

Lemma winds_down_nvdec_decoder_init w codec_str description :
  winds_down (nvdec_decoder_init w codec_str description).
Proof.
  unfold nvdec_decoder_init. destruct (parse_codec_id codec_str).
  winding_down.
Qed.
#[local] Hint Resolve winds_down_nvdec_decoder_init : winds.

Lemma connected_winds_down {A} (m : M A) (c : hang_source) :
  winds_down m -> connected c -> connected (final (m c)).
Proof.
  intros Hm Hc H. destruct (Hm c) as (Ha & Ho & Hs).
  rewrite Ho, Hs. apply Hc, Ha, H.
Qed.

Lemma connected_callback (on_null : list event) (body : M unit)
    (c c' : hang_source) :
  winds_down body -> connected c ->
  fst (callback on_null body (Some c)) = Some c' -> connected c'.
Proof.
  intros Hbody Hc. unfold callback.
  pose proof (connected_winds_down body c Hbody Hc) as H.
  unfold final in H. destruct (body c) as [[u c1] t]. cbn [fst snd] in *.
  intros E. injection E as <-. exact H.
Qed.

Lemma connected_inactive (c : hang_source) : active c = false -> connected c.
Proof. intros H E. rewrite H in E. discriminate E. Qed.

Lemma hang_source_activate_connected (w : world) (c : hang_source) :
  connected c -> connected (final (hang_source_activate w c)).
Proof.
  intros Hc.
  unfold hang_source_activate, activate_cleanup. run.
  destruct (url c) as [the_url|]; [|exact Hc].
  destruct (broadcast_path c) as [the_path|]; [|exact Hc].
  destruct (active c) eqn:Hactive; cbn [orb]; [exact Hc|].
  destruct (strlen the_url =? 0); cbn [orb]; [exact Hc|].
  destruct (strlen the_path =? 0); [exact Hc|].
  destruct (strstr the_url "://") as [host_start|]; [|exact Hc].
  destruct (strlen (advance 3 host_start) =? 0); [exact Hc|].
  destruct (Z.leb_spec (moq_origin_create w) 0) as [Ho|Ho];
    [|destruct (Z.leb_spec (moq_session_connect w) 0) as [Hs|Hs]];
    straight.
  - apply connected_inactive. exact Hactive.
  - apply connected_inactive. exact Hactive.
  - intros _. cbn. lia.
Qed.

Lemma hang_source_update_connected (w : world) (new_url new_path : string)
    (c : hang_source) :
  connected c -> connected (final (hang_source_update w new_url new_path c)).
Proof.
  intros Hc. unfold hang_source_update.
  pose proof (hang_source_deactivate_ends_inactive c) as Hoff.
  unfold final in Hoff. run.
  match goal with
  | |- context [if ?b then (fun c0 => (tt, c0, [])) else _] => destruct b
  end; [exact Hc|].
  destruct (hang_source_deactivate c) as [[u c1] t1]. cbn [fst snd] in Hoff.
  assert (Hs : connected (set_broadcast_path (Some new_path)
                            (set_url (Some new_url) c1)))
    by (apply connected_inactive; exact Hoff).
  match goal with
  | |- context [if ?b then _ else (fun c2 => (tt, c2, []))] => destruct b
  end; [|exact Hs].
  destruct ((strlen new_url >? 0) && (strlen new_path >? 0)); [|exact Hs].
  pose proof (hang_source_activate_connected w _ Hs) as Hon.
  unfold final in Hon.
  destruct (hang_source_activate w _) as [[u2 c2] t2]. exact Hon.
Qed.

Lemma winds_down_audio_decoder_init w : winds_down (audio_decoder_init w).
Proof. unfold audio_decoder_init. winding_down. Qed.
#[local] Hint Resolve winds_down_audio_decoder_init : winds.

Lemma winds_down_audio_decoder_decode w data pts :
  winds_down (audio_decoder_decode w data pts).
Proof. unfold audio_decoder_decode. winding_down. Qed.
#[local] Hint Resolve winds_down_audio_decoder_decode : winds.

Lemma winds_down_close_video_track :
  winds_down (close_if_open video_track_id MoqConsumeVideoTrackClose
                            set_video_track_id).
Proof. apply winds_down_close_if_open; intros c; reflexivity. Qed.
#[local] Hint Resolve winds_down_close_video_track : winds.

Lemma winds_down_close_audio_track :
  winds_down (close_if_open audio_track_id MoqConsumeAudioTrackClose
                            set_audio_track_id).
Proof. apply winds_down_close_if_open; intros c; reflexivity. Qed.
#[local] Hint Resolve winds_down_close_audio_track : winds.

(** X23.  Every entry point of the plugin keeps the invariant that an
    active source holds an origin and a session: if the context satisfies
    it before [hang_source_activate], [hang_source_deactivate],
    [hang_source_destroy], [hang_source_update] or one of the four libmoq
    callbacks, it satisfies it afterwards. *)
Theorem entry_points_keep_connected (w : world) (c : hang_source) :
  connected c ->
  connected (final (hang_source_activate w c))
  /\ connected (final (hang_source_deactivate c))
  /\ connected (final (hang_source_destroy c))
  /\ (forall new_url new_path,
        connected (final (hang_source_update w new_url new_path c)))
  /\ (forall code c',
        fst (on_session_status w code (Some c)) = Some c' -> connected c')
  /\ (forall catalog_id c',
        fst (on_catalog w catalog_id (Some c)) = Some c' -> connected c')
  /\ (forall frame_id c',
        fst (on_video_frame w frame_id (Some c)) = Some c' -> connected c')
  /\ (forall frame_id c',
        fst (on_audio_frame w frame_id (Some c)) = Some c' -> connected c').
Proof.
  intros Hc.
  split; [apply hang_source_activate_connected, Hc|].
  split; [apply connected_inactive, hang_source_deactivate_ends_inactive|].
  split; [apply connected_inactive, hang_source_destroy_outcome|].
  split; [intros new_url new_path; apply hang_source_update_connected, Hc|].
  split; [|split; [|split]].
  - intros code c' E. unfold on_session_status in E.
    refine (connected_callback _ _ c c' _ Hc E). winding_down.
  - intros catalog_id c' E. unfold on_catalog in E.
    refine (connected_callback _ _ c c' _ Hc E). winding_down.
  - intros frame_id c' E. unfold on_video_frame in E.
    refine (connected_callback _ _ c c' _ Hc E). winding_down.
  - intros frame_id c' E. unfold on_audio_frame in E.
    refine (connected_callback _ _ c c' _ Hc E). winding_down.
Qed.

Lemma entry_points_keep_connected_witness :
  connected (final (hang_source_activate (sample_world [] 0 []) configured)).
Proof.
  apply (entry_points_keep_connected (sample_world [] 0 []) configured).
  apply connected_inactive. reflexivity.
Defined.

(** X24.  [hang_source_create] establishes that invariant: the context it
    returns is active only with an origin and a session. *)
Theorem hang_source_create_connected (w : world) (new_url new_path : string)
    (have_source : bool) :
  connected (final (hang_source_create w new_url new_path have_source)).
Proof.
  unfold hang_source_create. apply hang_source_update_connected.
  apply connected_inactive. reflexivity.
Qed.
(* ================================================================== *)
(** ** Settings and the session callbacks *)
(* ================================================================== *)

Lemma hang_source_activate_keeps_settings (w : world) (c : hang_source) :
  url (final (hang_source_activate w c)) = url c
  /\ broadcast_path (final (hang_source_activate w c)) = broadcast_path c.
Proof.
  unfold hang_source_activate, activate_cleanup. run.
  destruct (url c) as [the_url|] eqn:Hurl; [|split; [exact Hurl|reflexivity]].
  destruct (broadcast_path c) as [the_path|] eqn:Hpath;
    [|split; [exact Hurl|exact Hpath]].
  destruct (active c || (strlen the_url =? 0) || (strlen the_path =? 0));
    [split; [exact Hurl|exact Hpath]|].
  destruct (strstr the_url "://") as [host_start|];
    [|split; [exact Hurl|exact Hpath]].
  destruct (strlen (advance 3 host_start) =? 0);
    [split; [exact Hurl|exact Hpath]|].
  destruct (moq_origin_create w <=? 0);
    [|destruct (moq_session_connect w <=? 0)];
    straight; split; [exact Hurl|exact Hpath|exact Hurl|exact Hpath
                     |exact Hurl|exact Hpath].
Qed.

(** X25.  After [hang_source_update] the context holds the new URL and the
    new broadcast path, whether or not the connection was restarted and
    whether or not the restart succeeded. *)
Theorem hang_source_update_stores_settings (w : world) (new_url new_path : string)
    (c : hang_source) :
  url (final (hang_source_update w new_url new_path c)) = Some new_url
  /\ broadcast_path (final (hang_source_update w new_url new_path c))
     = Some new_path.
Proof.
  unfold hang_source_update. run.
  destruct (url c) as [u|] eqn:Hurl;
    destruct (broadcast_path c) as [p|] eqn:Hpath; cbn [negb andb orb];
    try (unfold strcmp_differs;
         destruct (String.eqb_spec u new_url) as [->|_]; cbn [negb andb orb];
         try (destruct (String.eqb_spec p new_path) as [->|_];
              cbn [negb andb orb]));
    try (split; [exact Hurl|exact Hpath]);
    destruct (hang_source_deactivate c) as [[x c1] t1];
    (destruct ((strlen new_url >? 0) && (strlen new_path >? 0));
     [|split; reflexivity]);
    match goal with
    | |- context [hang_source_activate w ?s] =>
      pose proof (hang_source_activate_keeps_settings w s) as Hkeep;
      unfold final in Hkeep;
      destruct (hang_source_activate w s) as [[x2 c2] t2];
      exact Hkeep
    end.
Qed.

(** X26.  [hang_source_update] with the settings the source already has
    does nothing: no call, no change of the context; in particular a
    running connection is not restarted. *)
Theorem hang_source_update_same_settings (w : world)
    (the_url the_path : string) (c : hang_source) :
  url c = Some the_url ->
  broadcast_path c = Some the_path ->
  hang_source_update w the_url the_path c = (tt, c, []).
Proof.
  intros Hurl Hpath. unfold hang_source_update, strcmp_differs. run.
  rewrite Hurl, Hpath, !String.eqb_refl. reflexivity.
Qed.

Lemma hang_source_update_same_settings_witness :
  hang_source_update (sample_world [] 0 []) "https://example:443" "demo"
                     streaming
  = (tt, streaming, []).
Proof.
  apply (hang_source_update_same_settings (sample_world [] 0 [])
           "https://example:443" "demo" streaming); reflexivity.
Defined.






(** X28.  The guards of [on_catalog]: on a [NULL] context, an inactive
    source or an invalid catalog handle the callback calls neither libmoq
    nor the decoders, does not touch the gate, and hands the context back
    unchanged. *)
Theorem on_catalog_guards (w : world) (catalog_id : Z)
    (user_data : option hang_source) :
  match user_data with
  | Some c => active c = false \/ catalog_id <= 0
  | None => True
  end ->
  fst (on_catalog w catalog_id user_data) = user_data
  /\ filter (fun e => is_moq e || is_gate e || is_decoder_alloc e
                      || is_decoder_free e)
       (snd (on_catalog w catalog_id user_data)) = [].
Proof.
  unfold on_catalog. destruct user_data as [c|]; intros Hguard;
    [|split; reflexivity].
  run. destruct (active c) eqn:Hactive; run.
  - destruct Hguard as [H|H]; [discriminate H|].
    apply Z.leb_le in H. rewrite H. split; reflexivity.
  - split; reflexivity.
Qed.

Lemma on_catalog_guards_witness :
  fst (on_catalog (sample_world [] 0 []) 0 (Some streaming)) = Some streaming
  /\ filter (fun e => is_moq e || is_gate e || is_decoder_alloc e
                      || is_decoder_free e)
       (snd (on_catalog (sample_world [] 0 []) 0 (Some streaming))) = [].
Proof.
  apply (on_catalog_guards (sample_world [] 0 []) 0 (Some streaming)).
  right. lia.
Defined.

(** X29.  What [on_session_status] does with the status code.  For code 0
    it subscribes to the broadcast at the stored path on the stored origin
    and, when that gave a handle, to its catalog; with both handles the
    source keeps its state and stores them; when the broadcast fails it
    only marks the source inactive, and when the catalog fails it closes
    the broadcast it has just opened and marks the source inactive.  A
    negative code marks the source inactive without any libmoq call, a
    positive code does nothing.  In no case does the callback change or
    close the origin or the session. *)
Theorem on_session_status_subscribes_or_gives_up (w : world) (code : Z) (c : hang_source) :
  exists c',
    fst (on_session_status w code (Some c)) = Some c'
    /\ origin_id c' = origin_id c
    /\ session_id c' = session_id c
    /\ if code =? 0 then
         filter is_moq (snd (on_session_status w code (Some c)))
         = MoqOriginConsume (origin_id c)
             (match broadcast_path c with
              | Some p => p
              | None => EmptyString
              end)
           :: (if 0 <? moq_origin_consume w
               then MoqConsumeCatalog (moq_origin_consume w)
                    :: (if 0 <? moq_consume_catalog w then []
                        else [MoqConsumeClose (moq_origin_consume w)])
               else [])
         /\ (if (0 <? moq_origin_consume w) && (0 <? moq_consume_catalog w)
             then active c' = active c
                  /\ broadcast_id c' = moq_origin_consume w
                  /\ catalog_consumer_id c' = moq_consume_catalog w
             else active c' = false /\ broadcast_id c' <= 0)
       else
         snd (on_session_status w code (Some c))
         = (if code <? 0 then [Clog LOG_ERROR] else [])
         /\ c' = (if code <? 0 then set_active false c else c).
Proof.
  unfold on_session_status.
  destruct (code =? 0).
  - destruct (Z.ltb_spec 0 (moq_origin_consume w)) as [Hb|Hb]; cbn [andb].
    + assert (Eb : (moq_origin_consume w <=? 0) = false)
        by (apply Z.leb_gt; lia).
      destruct (Z.ltb_spec 0 (moq_consume_catalog w)) as [Hc|Hc];
        [assert (Ec : (moq_consume_catalog w <=? 0) = false)
           by (apply Z.leb_gt; lia)
        |assert (Ec : (moq_consume_catalog w <=? 0) = true)
           by (apply Z.leb_le; lia)];
        run; rewrite Eb; run; rewrite Ec; straight;
        eexists; repeat split; cbn; lia.
    + assert (Eb : (moq_origin_consume w <=? 0) = true)
        by (apply Z.leb_le; lia).
      run. rewrite Eb. straight. eexists. repeat split. exact Hb.
  - destruct (code <? 0); straight; eexists; repeat split.
Qed.

